(** * Node bootstrap orchestrator: a shallow embedding of [setup.py]

    The script provisions one cluster node.  Every function of the script
    that the specification talks about is translated below into a program of
    a state-and-exception monad over an explicit [World]: the log, the
    commands handed to [util.run], the sleeps, the text files, symbolic
    links and ownership table of the host, and the object that [lookup()]
    returns.  What lives in modules that are not part of the sources
    ([util], [conf], [slurmsync], [setup_network_storage]) is collected in
    an environment record [Env] and stays abstract.

    The script is run by root on a file system that can be written: the
    system calls fail for what is at a path or is missing there, not for
    want of a permission.  Path names are absolute, and a name is not
    identified with another name of the same file through a directory that
    is a symbolic link.  A symbolic link at a path itself is followed where
    the script examines the path, changes its owner or its mode, or writes
    or copies a file to it; the mount table is taken to be a regular file
    or missing. *)

From stdpp Require Import base gmap strings list pretty.
From Stdlib Require Import ZArith Lia Ascii.

#[local] Open Scope Z_scope.

(** ** Python strings *)

Module Py.

(** [needle in hay] on [str]. *)
Fixpoint str_in (needle hay : string) : bool :=
  String.prefix needle hay ||
  match hay with
  | EmptyString => false
  | String _ hay' => str_in needle hay'
  end.

(** [s.endswith(suffix)]. *)
Definition endswith (s suffix : string) : bool :=
  let n := String.length s in
  let m := String.length suffix in
  (m <=? n)%nat && String.eqb (String.substring (n - m) m s) suffix.

(** [Path(s).name]: what follows the last slash. *)
Fixpoint name (s : string) : string :=
  match s with
  | EmptyString => EmptyString
  | String c s' =>
      if str_in "/" s' then name s'
      else if Ascii.eqb c "/"%char then s' else s
  end.

(** [Path(s).parent] of an absolute path that does not end with a slash:
    what precedes the last slash, and the root for an entry of the root. *)
Definition dirname (s : string) : string :=
  match (String.length s - String.length (name s))%nat with
  | O => "."
  | S O => "/"
  | S n => String.substring 0 n s
  end.

(** [Path(d) / n] and [os.path.join(d, n)] for a relative [n]. *)
Definition joinpath (d n : string) : string :=
  if endswith d "/" then d +:+ n else d +:+ "/" +:+ n.

(** [str(x)] of an optional integer ([None] prints as such). *)
Definition str_opt (t : option Z) : string :=
  match t with
  | None => "None"
  | Some z => pretty z
  end.

(** [x in l] on a list of [str]. *)
Definition list_in (x : string) (l : list string) : bool :=
  existsb (String.eqb x) l.

(** [c.isspace()] on the ASCII range. *)
Definition isspace (c : ascii) : bool :=
  let n := nat_of_ascii c in
  ((9 <=? n) && (n <=? 13) || (28 <=? n) && (n <=? 32))%nat.

Fixpoint lstrip (s : string) : string :=
  match s with
  | EmptyString => EmptyString
  | String c s' => if isspace c then lstrip s' else s
  end.

Fixpoint rstrip (s : string) : string :=
  match s with
  | EmptyString => EmptyString
  | String c s' =>
      match rstrip s' with
      | EmptyString => if isspace c then EmptyString else String c EmptyString
      | r => String c r
      end
  end.

(** [s.strip()]. *)
Definition strip (s : string) : string := rstrip (lstrip s).

Definition LF : ascii := "010"%char.
Definition CR : ascii := "013"%char.

(** [f.readlines()] of a file opened in text mode: every line keeps its
    terminator, and the terminators CR and CR LF are read as LF. *)
Fixpoint readlines (s : string) : list string :=
  match s with
  | EmptyString => []
  | String c s' =>
      if Ascii.eqb c LF then String LF EmptyString :: readlines s'
      else if Ascii.eqb c CR then
        match s' with
        | String c' s'' =>
            if Ascii.eqb c' LF then String LF EmptyString :: readlines s''
            else String LF EmptyString :: readlines s'
        | EmptyString => [String LF EmptyString]
        end
      else
        match readlines s' with
        | [] => [String c EmptyString]
        | l :: ls => String c l :: ls
        end
  end.

(** The double quote, as a one-character string. *)
Definition dq : string := String "034"%char EmptyString.

(** Truth value of an optional [str]. *)
Definition truthy (o : option string) : bool :=
  match o with
  | Some (String _ _) => true
  | _ => false
  end.

(** [sep.join(l)]. *)
Definition join (sep : string) (l : list string) : string :=
  String.concat sep l.

End Py.

(** ** Exceptions, log records, child processes *)

Inductive exn : Type :=
| OSError (msg : string)
| FileExistsError (path : string)
| FileNotFoundError (path : string)
| IsADirectoryError (path : string)
| NotADirectoryError (path : string)
| OverflowError (argument : string)
| TimeoutExpired (cmd : string) (timeout : option Z) (out err : string)
| CalledProcessError (returncode : Z) (cmd : string) (out err : string)
| DeffetiveStoredConfigError (msg : string)
| ValueError (msg : string)
| KeyError (key : string)
| Exception (msg : string).

(** [isinstance(e, OSError)]: the file errors are subclasses of it. *)
Definition is_OSError (e : exn) : bool :=
  match e with
  | OSError _ | FileExistsError _ | FileNotFoundError _
  | IsADirectoryError _ | NotADirectoryError _ => true
  | _ => false
  end.

Definition is_TimeoutExpired (e : exn) : bool :=
  match e with
  | TimeoutExpired _ _ _ _ => true
  | _ => false
  end.

Definition is_CalledProcessError (e : exn) : bool :=
  match e with
  | CalledProcessError _ _ _ _ => true
  | _ => false
  end.

Inductive Level : Type := DEBUG | INFO | WARNING | ERROR | CRITICAL.

Record Call : Type := mkCall {
  c_cmd : string;
  c_timeout : option Z;
  c_check : bool;
  c_shell : bool
}.

Record CompletedProcess : Type := mkCompleted {
  returncode : Z;
  stdout : string;
  stderr : string
}.

(** What the operating system answers to one command. *)
Inductive Outcome : Type :=
| Exited (r : CompletedProcess)
| TimedOut (out err : string)
| NotExecutable.

(** ** Configuration and the [lookup()] object *)

Record Cfg : Type := mkCfg {
  cfg_dict : gmap string Z;
  controller_state_disk_device_name : option string;
  cloudsql_secret : bool;
  slurm_cluster_name : string;
  hybrid : bool;
  hybrid_conf_slurm_uid : Z;
  hybrid_conf_slurm_gid : Z;
  slurm_log_dir : string
}.

(** [cfg.get(key, default)]. *)
Definition cfg_get (c : Cfg) (key : string) (default : Z) : Z :=
  match cfg_dict c !! key with
  | Some v => v
  | None => default
  end.

Record Lookup : Type := mkLookup {
  cfg : Cfg;
  instance_role : string;
  is_controller : bool;
  is_login_node : bool;
  is_hybrid_setup : bool;
  hybrid_setup : bool;
  control_host : string;
  control_addr : option string;
  control_host_port : string;
  hostname : string
}.

(** ** The host *)

(** The shape of a directory, as [os.walk] discovers it: the names of a
    listing are split into directories and the rest, and only what is a
    directory in its own right is listed further.  A symbolic link to a
    directory is among the directories with nothing below it, since the walk
    does not follow links; any other link, also one whose target is missing,
    is among the files. *)
#[local] Set Warnings "-register-all".
Inductive tree : Type :=
| File (name : string)
| Dir (name : string) (children : list tree).

(** The host.  [files] holds the text of the regular files and [folders]
    the directories; [links] gives for a symbolic link the absolute path it
    points to; [owner] gives the uid and the gid of every file and directory
    (the ids of a link itself are not looked at by the script). *)
Record World : Type := mkWorld {
  log : list (Level * string);
  calls : list Call;
  sleeps : list Z;
  files : gmap string string;
  links : gmap string string;
  folders : gset string;
  owner : gmap string (Z * Z);
  modes : gmap string Z;
  passwd_slurm : option Z;
  group_slurm : option Z;
  fetches : nat;
  lkp : Lookup
}.

Definition set_log (f : list (Level * string) → list (Level * string)) (w : World) : World :=
  mkWorld (f (log w)) (calls w) (sleeps w) (files w) (links w) (folders w)
          (owner w) (modes w) (passwd_slurm w) (group_slurm w) (fetches w) (lkp w).
Definition set_calls (f : list Call → list Call) (w : World) : World :=
  mkWorld (log w) (f (calls w)) (sleeps w) (files w) (links w) (folders w)
          (owner w) (modes w) (passwd_slurm w) (group_slurm w) (fetches w) (lkp w).
Definition set_sleeps (f : list Z → list Z) (w : World) : World :=
  mkWorld (log w) (calls w) (f (sleeps w)) (files w) (links w) (folders w)
          (owner w) (modes w) (passwd_slurm w) (group_slurm w) (fetches w) (lkp w).
Definition set_files (f : gmap string string → gmap string string) (w : World) : World :=
  mkWorld (log w) (calls w) (sleeps w) (f (files w)) (links w) (folders w)
          (owner w) (modes w) (passwd_slurm w) (group_slurm w) (fetches w) (lkp w).
Definition set_links (f : gmap string string → gmap string string) (w : World) : World :=
  mkWorld (log w) (calls w) (sleeps w) (files w) (f (links w)) (folders w)
          (owner w) (modes w) (passwd_slurm w) (group_slurm w) (fetches w) (lkp w).
Definition set_owner (f : gmap string (Z * Z) → gmap string (Z * Z)) (w : World) : World :=
  mkWorld (log w) (calls w) (sleeps w) (files w) (links w) (folders w)
          (f (owner w)) (modes w) (passwd_slurm w) (group_slurm w) (fetches w) (lkp w).
Definition set_modes (f : gmap string Z → gmap string Z) (w : World) : World :=
  mkWorld (log w) (calls w) (sleeps w) (files w) (links w) (folders w)
          (owner w) (f (modes w)) (passwd_slurm w) (group_slurm w) (fetches w) (lkp w).
Definition set_fetches (f : nat → nat) (w : World) : World :=
  mkWorld (log w) (calls w) (sleeps w) (files w) (links w) (folders w)
          (owner w) (modes w) (passwd_slurm w) (group_slurm w) (f (fetches w)) (lkp w).
Definition set_lkp (f : Lookup → Lookup) (w : World) : World :=
  mkWorld (log w) (calls w) (sleeps w) (files w) (links w) (folders w)
          (owner w) (modes w) (passwd_slurm w) (group_slurm w) (fetches w) (f (lkp w)).

(** ** The monad: state passing with exceptions.  Effects made before an
    exception was raised stay in the world. *)

Inductive result (A : Type) : Type :=
| Ok (a : A)
| Raise (e : exn).
Arguments Ok {A} a.
Arguments Raise {A} e.

Definition M (A : Type) : Type := World → result A * World.

Definition ret {A} (a : A) : M A := fun w => (Ok a, w).

Definition bind {A B} (c : M A) (k : A → M B) : M B :=
  fun w =>
    match c w with
    | (Ok a, w') => k a w'
    | (Raise e, w') => (Raise e, w')
    end.

Definition raise {A} (e : exn) : M A := fun w => (Raise e, w).

(** [try: body except ... as e: handler e]. *)
Definition try_except {A} (body : M A) (handler : exn → M A) : M A :=
  fun w =>
    match body w with
    | (Ok a, w') => (Ok a, w')
    | (Raise e, w') => handler e w'
    end.

Definition get : M World := fun w => (Ok w, w).
Definition modify (f : World → World) : M unit := fun w => (Ok tt, f w).

Notation "'let!' x ':=' c 'in' k" := (bind c (fun x => k))
  (at level 10, x name, c at level 100, k at level 200).
Notation "c ';;' k" := (bind c (fun _ => k))
  (at level 100, k at level 200, right associativity).

Fixpoint for_each {A} (l : list A) (body : A → M unit) : M unit :=
  match l with
  | [] => ret tt
  | x :: l' => body x ;; for_each l' body
  end.

Definition when (b : bool) (c : M unit) : M unit := if b then c else ret tt.

(** ** Primitive effects *)

(** [log.debug], [log.info], [log.warning], [log.error] / [log.exception]
    (both at level ERROR) and [log.fatal] append one record. *)
Definition log_at (l : Level) (msg : string) : M unit :=
  modify (set_log (fun r => r ++ [(l, msg)])).

Definition lookup : M Lookup := fun w => (Ok (lkp w), w).

Definition sleep (seconds : Z) : M unit :=
  modify (set_sleeps (fun s => s ++ [seconds])).

(** [result.check_returncode()]. *)
Definition check_returncode (cmd : string) (r : CompletedProcess) : M unit :=
  if returncode r =? 0 then ret tt
  else raise (CalledProcessError (returncode r) cmd (stdout r) (stderr r)).

(** ** The environment: everything the script imports *)

Record Env : Type := mkEnv {
  (** the answer of the operating system to a command, given the commands
      run before it *)
  exec : list Call → Call → Outcome;
  (** the value of [check] in [util.run] when the caller gives none *)
  check_default : bool;
  (** [util.fetch_config(bucket)], by attempt number *)
  fetch_config : nat → option string → result Cfg;
  (** [util.instance_metadata(key)] *)
  instance_metadata : string → M string;
  (** [Path(d).rglob("*")] with [is_file()] of every path found *)
  rglob : string → list (string * bool);
  (** the entries below a directory, as [os.walk] lists them *)
  scandir : string → list tree;
  (** [util.dirs], [util.slurmdirs], [util.scripts_dir] *)
  dirs_slurm : string;
  dirs_scripts : string;
  dirs_custom_scripts : string;
  dirs_munge : string;
  dirs_log : string;
  dirs_values : list string;
  slurmdirs_prefix : string;
  slurmdirs_etc : string;
  slurmdirs_state : string;
  slurmdirs_home : string;
  slurmdirs_items : list (string * string);
  scripts_dir : string;
  (** collaborators of other modules *)
  install_custom_scripts : M unit;
  gen_controller_configs : M unit;
  setup_network_storage : M unit;
  setup_nfs_exports : M unit;
  sync_slurm : M unit;
  chown_slurm : string → option Z → M unit;
  mkdirp : string → M unit;
  shutil_chown : string → string → string → M unit;
  cloud_ops_add_cluster_info : M unit;
  get_log_path : string
}.

Section Setup.

Context (env : Env).

(** Modelled from the spec: [util.run] is not part of the sources.  Every
    external command is a blocking call with an optional timeout; a command
    that exceeds it raises the timeout condition, one that cannot be started
    raises an OS error, and a non-zero status raises when [check] is set.
    The script passes [check=False] to some calls and tests the status of
    others that it calls without [check]: what [check] is for a call that
    does not give it is left to the environment, [check_default]. *)
Definition run (cmd : string) (timeout : option Z) (check shell : bool)
  : M CompletedProcess :=
  fun w =>
    let c := mkCall cmd timeout check shell in
    let w' := set_calls (fun h => h ++ [c]) w in
    match exec env (calls w) c with
    | Exited r =>
        if check && negb (returncode r =? 0)
        then (Raise (CalledProcessError (returncode r) cmd (stdout r) (stderr r)), w')
        else (Ok r, w')
    | TimedOut out err => (Raise (TimeoutExpired cmd timeout out err), w')
    | NotExecutable => (Raise (OSError cmd), w')
    end.

(** [run(cmd)] and [run(cmd, timeout=30)] with the other defaults. *)
Definition run_ (cmd : string) : M unit :=
  run cmd None (check_default env) false ;; ret tt.
Definition run30 (cmd : string) : M unit :=
  run cmd (Some 30) (check_default env) false ;; ret tt.

(** Modelled from the spec: [util.update_config] is not part of the sources;
    it installs the fetched configuration as the active one. *)
Definition update_config (c : Cfg) : M unit :=
  modify (set_lkp (fun l =>
    mkLookup c (instance_role l) (is_controller l) (is_login_node l)
             (is_hybrid_setup l) (hybrid_setup l) (control_host l)
             (control_addr l) (control_host_port l) (hostname l))).

(** [lookup().hybrid_setup = True]. *)
Definition set_hybrid_setup : M unit :=
  modify (set_lkp (fun l =>
    mkLookup (cfg l) (instance_role l) (is_controller l) (is_login_node l)
             (is_hybrid_setup l) true (control_host l)
             (control_addr l) (control_host_port l) (hostname l))).

(** ** Files of the host *)

(** [Path(p).is_symlink()]. *)
Definition is_symlink (w : World) (p : string) : bool :=
  bool_decide (is_Some (links w !! p)).

(** Something is at [p], a link included ([os.path.lexists]). *)
Definition lexists (w : World) (p : string) : bool :=
  is_symlink w p || bool_decide (is_Some (files w !! p)) || bool_decide (p ∈ folders w).

(** [Path(p).exists()] follows symbolic links: a link whose target is
    missing does not exist, and neither does a chain of more than 40
    links. *)
Fixpoint resolves (fuel : nat) (w : World) (p : string) : bool :=
  match links w !! p with
  | Some target =>
      match fuel with
      | O => false
      | S fuel' => resolves fuel' w target
      end
  | None => bool_decide (is_Some (files w !! p)) || bool_decide (p ∈ folders w)
  end.

Definition path_exists (w : World) (p : string) : bool := resolves 40 w p.

(** The path that the system works on when it is given [p] and follows
    symbolic links: [p] itself when it is not a link, the end of the chain
    of links otherwise, and none for a chain of more than 40 links. *)
Fixpoint follow (fuel : nat) (w : World) (p : string) : option string :=
  match links w !! p with
  | Some target =>
      match fuel with
      | O => None
      | S fuel' => follow fuel' w target
      end
  | None => Some p
  end.

(** [open(p, "w")]: the path of the file that is written, or the error.  The
    file is the one at the end of the links at [p]; the directory it is in
    must be there, and it is made or truncated unless a directory is at its
    path. *)
Definition open_w (w : World) (p : string) : result string :=
  match follow 40 w p with
  | None => Raise (OSError p)
  | Some q =>
      match follow 40 w (Py.dirname q) with
      | None => Raise (OSError p)
      | Some d =>
          if bool_decide (d ∈ folders w) then
            if bool_decide (q ∈ folders w) then Raise (IsADirectoryError p)
            else Ok q
          else if bool_decide (is_Some (files w !! d)) then Raise (NotADirectoryError p)
          else Raise (FileNotFoundError p)
      end
  end.

(** [Path(p).write_text(s)] and [open(p, "w").write(s)]. *)
Definition write_text (p s : string) : M unit :=
  fun w =>
    match open_w w p with
    | Ok q => (Ok tt, set_files (<[q := s]>) w)
    | Raise e => (Raise e, w)
    end.

(** [Path(p).unlink()]. *)
Definition unlink (p : string) : M unit :=
  fun w =>
    if is_symlink w p then (Ok tt, set_links (delete p) w)
    else if bool_decide (is_Some (files w !! p)) then (Ok tt, set_files (delete p) w)
    else if bool_decide (p ∈ folders w) then (Raise (OSError p), w)
    else (Raise (FileNotFoundError p), w).

(** [Path(sl).symlink_to(tgt)]. *)
Definition symlink_to (sl tgt : string) : M unit :=
  fun w =>
    if lexists w sl then (Raise (FileExistsError sl), w)
    else (Ok tt, set_links (<[sl := tgt]>) w).

(** [os.makedirs(p, exist_ok=True)]. *)
Definition makedirs (p : string) : M unit :=
  fun w =>
    if bool_decide (is_Some (files w !! p)) then (Raise (FileExistsError p), w)
    else (Ok tt, mkWorld (log w) (calls w) (sleeps w) (files w) (links w)
                         ({[p]} ∪ folders w) (owner w) (modes w)
                         (passwd_slurm w) (group_slurm w) (fetches w) (lkp w)).

(** [open(p, "r").readlines()] of a path that is not a link. *)
Definition read_lines (p : string) : M (list string) :=
  fun w =>
    match files w !! p with
    | Some content => (Ok (Py.readlines content), w)
    | None => (Raise (FileNotFoundError p), w)
    end.

(** [open(p, "a").write(s)] on a path that is not a link, where a file is
    or can be made. *)
Definition append_text (p s : string) : M unit :=
  modify (set_files (fun f => <[p := default EmptyString (f !! p) +:+ s]> f)).

(** [os.chmod(p, mode)] and [Path(p).chmod(mode)]: the mode of what the
    path stands for. *)
Definition chmod (p : string) (mode : Z) : M unit :=
  fun w =>
    match follow 40 w p with
    | None => (Raise (OSError p), w)
    | Some q =>
        if bool_decide (is_Some (files w !! q)) || bool_decide (q ∈ folders w)
        then (Ok tt, set_modes (<[q := mode]>) w)
        else (Raise (FileNotFoundError p), w)
    end.

(** [shutil.copyfile(src, dst)]: the source is opened for reading, then the
    destination for writing. *)
Definition copyfile (src dst : string) : M unit :=
  fun w =>
    match follow 40 w src with
    | None => (Raise (OSError src), w)
    | Some s =>
        if bool_decide (s ∈ folders w) then (Raise (IsADirectoryError src), w)
        else
          match files w !! s with
          | None => (Raise (FileNotFoundError src), w)
          | Some content =>
              match open_w w dst with
              | Ok q => (Ok tt, set_files (<[q := content]>) w)
              | Raise e => (Raise e, w)
              end
          end
    end.

(** ** StatusSignaler *)

Definition MOTD_HEADER : string := "
                                 SSSSSSS
                                SSSSSSSSS
                                SSSSSSSSS
                                SSSSSSSSS
                        SSSS     SSSSSSS     SSSS
                       SSSSSS               SSSSSS
                       SSSSSS    SSSSSSS    SSSSSS
                        SSSS    SSSSSSSSS    SSSS
                SSS             SSSSSSSSS             SSS
               SSSSS    SSSS    SSSSSSSSS    SSSS    SSSSS
                SSS    SSSSSS   SSSSSSSSS   SSSSSS    SSS
                       SSSSSS    SSSSSSS    SSSSSS
                SSS    SSSSSS               SSSSSS    SSS
               SSSSS    SSSS     SSSSSSS     SSSS    SSSSS
          S     SSS             SSSSSSSSS             SSS     S
         SSS            SSSS    SSSSSSSSS    SSSS            SSS
          S     SSS    SSSSSS   SSSSSSSSS   SSSSSS    SSS     S
               SSSSS   SSSSSS   SSSSSSSSS   SSSSSS   SSSSS
          S    SSSSS    SSSS     SSSSSSS     SSSS    SSSSS    S
    S    SSS    SSS                                   SSS    SSS    S
    S     S                                                   S     S
                SSS
                SSS
                SSS
                SSS
 SSSSSSSSSSSS   SSS   SSSS       SSSS    SSSSSSSSS   SSSSSSSSSSSSSSSSSSSS
SSSSSSSSSSSSS   SSS   SSSS       SSSS   SSSSSSSSSS  SSSSSSSSSSSSSSSSSSSSSS
SSSS            SSS   SSSS       SSSS   SSSS        SSSS     SSSS     SSSS
SSSS            SSS   SSSS       SSSS   SSSS        SSSS     SSSS     SSSS
SSSSSSSSSSSS    SSS   SSSS       SSSS   SSSS        SSSS     SSSS     SSSS
 SSSSSSSSSSSS   SSS   SSSS       SSSS   SSSS        SSSS     SSSS     SSSS
         SSSS   SSS   SSSS       SSSS   SSSS        SSSS     SSSS     SSSS
         SSSS   SSS   SSSS       SSSS   SSSS        SSSS     SSSS     SSSS
SSSSSSSSSSSSS   SSS   SSSSSSSSSSSSSSS   SSSS        SSSS     SSSS     SSSS
SSSSSSSSSSSS    SSS    SSSSSSSSSSSSS    SSSS        SSSS     SSSS     SSSS

".

Definition start_motd : M unit :=
  let wall_msg := "*** Slurm is currently being configured in the background. ***" in
  let motd_msg := MOTD_HEADER +:+ wall_msg +:+ "

" in
  write_text "/etc/motd" motd_msg ;;
  run ("wall -n '" +:+ wall_msg +:+ "'") (Some 30) (check_default env) false ;;
  ret tt.

Definition end_motd (broadcast : bool) : M unit :=
  write_text "/etc/motd" MOTD_HEADER ;;
  if negb broadcast then ret tt
  else
    let! l := lookup in
    run ("wall -n '*** Slurm " +:+ instance_role l +:+ " setup complete ***'")
        (Some 30) (check_default env) false ;;
    let! l := lookup in
    when (negb (is_controller l))
      (run "wall -n '
/home on the controller was mounted over the existing /home.
Log back in to ensure your home directory is correct.
'" (Some 30) (check_default env) false ;; ret tt).

Definition failed_motd : M unit :=
  let! l := lookup in
  if is_hybrid_setup l then ret tt
  else
    let wall_msg := "*** Slurm setup failed! Please view log: "
                    +:+ get_log_path env +:+ " ***" in
    let motd_msg := MOTD_HEADER +:+ wall_msg +:+ "

" in
    write_text "/etc/motd" motd_msg ;;
    run ("wall -n '" +:+ wall_msg +:+ "'") (Some 30) (check_default env) false ;;
    ret tt.

(** ** ExtensionScriptRunner *)

(** The [if]/[elif] chain on the path of the script: which key of the
    configuration holds its timeout ([None]: the last branch, no key). *)
Definition timeout_key (script : string) : option string :=
  if Py.str_in "/controller.d/" script
  then Some "controller_startup_scripts_timeout"
  else if Py.str_in "/compute.d/" script || Py.str_in "/nodeset.d/" script
  then Some "compute_startup_scripts_timeout"
  else if Py.str_in "/login.d/" script
  then Some "login_startup_scripts_timeout"
  else None.

Definition configured_timeout (c : Cfg) (script : string) : Z :=
  match timeout_key script with
  | Some key => cfg_get c key 300
  | None => 300
  end.

(** [None if not timeout or timeout < 0 else timeout]. *)
Definition effective_timeout (timeout : Z) : option Z :=
  if (timeout =? 0) || (timeout <? 0) then None else Some timeout.

Definition script_timeout (c : Cfg) (script : string) : option Z :=
  effective_timeout (configured_timeout c script).

(** The body of the [for] loop, with the [except] clauses of the enclosing
    [try]: each of them logs and raises the exception again, so the loop
    ends with the first script that raises. *)
Definition run_script (script : string) : M unit :=
  let! l := lookup in
  let timeout := script_timeout (cfg l) script in
  try_except
    (log_at INFO ("running script " +:+ Py.name script +:+ " with timeout="
                  +:+ Py.str_opt timeout) ;;
     let! result := run script timeout false true in
     let runlog := Py.name script +:+ " returncode=" +:+ pretty (returncode result)
                   +:+ "
stdout=" +:+ stdout result +:+ "stderr=" +:+ stderr result in
     log_at INFO runlog ;;
     check_returncode script result)
    (fun e =>
       if is_OSError e then
         log_at ERROR ("script " +:+ script +:+ " is not executable") ;;
         raise e
       else if is_TimeoutExpired e then
         log_at ERROR ("script " +:+ script +:+ " did not complete within timeout="
                       +:+ Py.str_opt timeout) ;;
         raise e
       else
         log_at ERROR ("script " +:+ script +:+ " encountered an exception") ;;
         raise e).

(** Lines 154 to 181: the [try] statement around the loop. *)
Definition run_scripts (custom_scripts : list string) : M unit :=
  for_each custom_scripts run_script.

(** [p.relative_to(custom_dir)]. *)
Definition relative_to (p custom_dir : string) : M string :=
  if String.prefix (custom_dir +:+ "/") p
  then ret (String.substring (String.length custom_dir + 1)
                             (String.length p - (String.length custom_dir + 1)) p)
  else raise (ValueError p).

Fixpoint map_M {A B} (f : A → M B) (l : list A) : M (list B) :=
  match l with
  | [] => ret []
  | x :: l' => let! y := f x in let! ys := map_M f l' in ret (y :: ys)
  end.

Definition custom_dirs_of (l : Lookup) : list string :=
  let custom_dir := dirs_custom_scripts env in
  if is_controller l then [Py.joinpath custom_dir "controller.d"]
  else if String.eqb (instance_role l) "compute"
  then [Py.joinpath custom_dir "compute.d"; Py.joinpath custom_dir "nodeset.d"]
  else if is_login_node l then [Py.joinpath custom_dir "login.d"]
  else [].

Definition discover (custom_dirs : list string) : list string :=
  d ← custom_dirs;
  '(p, is_file) ← rglob env d;
  if is_file && negb (Py.endswith (Py.name p) ".disabled") then [p] else [].

Definition run_custom_scripts : M unit :=
  let custom_dir := dirs_custom_scripts env in
  let! l := lookup in
  let custom_scripts := discover (custom_dirs_of l) in
  let! rel := map_M (fun s => relative_to s custom_dir) custom_scripts in
  let print_scripts := Py.join "," rel in
  log_at DEBUG ("custom scripts to run: " +:+ custom_dir +:+ "/(" +:+ print_scripts +:+ ")") ;;
  run_scripts custom_scripts.

(** ** ResourceReconciler: the mount table *)

(** Lines 193 to 198 and 215 to 220: read the table, test the entry, append
    the line. *)
Definition ensure_fstab (fstab_entry options : string) : M unit :=
  let! fstab := read_lines "/etc/fstab" in
  when (negb (Py.list_in fstab_entry fstab))
    (append_text "/etc/fstab" (fstab_entry +:+ options)).

Definition mount_save_state_disk : M unit :=
  let! l := lookup in
  let disk_name := "/dev/disk/by-id/google-"
                   +:+ default "None" (controller_state_disk_device_name (cfg l)) in
  let mount_point := slurmdirs_state env in
  let fs_type := "ext4" in
  let! r := run ("realpath " +:+ disk_name) None (check_default env) false in
  let rdevice := Py.strip (stdout r) in
  let! r := run ("file -s " +:+ rdevice) None (check_default env) false in
  let file_output := Py.strip (stdout r) in
  when (negb (Py.str_in "filesystem" file_output))
    (run_ ("mkfs -t " +:+ fs_type +:+ " -q " +:+ rdevice)) ;;
  let fstab_entry := disk_name +:+ " " +:+ mount_point +:+ " " +:+ fs_type in
  ensure_fstab fstab_entry " defaults 0 0
" ;;
  run_ "systemctl daemon-reload" ;;
  makedirs mount_point ;;
  run_ ("mount " +:+ mount_point) ;;
  chown_slurm env mount_point None.

Definition mount_munge_key_disk : M unit :=
  let state_disk_dir := "/var/spool/slurm/munge" in
  let mount_point := dirs_munge env in
  makedirs state_disk_dir ;;
  run_ ("mount --bind " +:+ state_disk_dir +:+ " " +:+ mount_point) ;;
  let fstab_entry := state_disk_dir +:+ " " +:+ mount_point in
  ensure_fstab fstab_entry " none bind 0 0
" ;;
  run_ "systemctl daemon-reload".

(** ** Keys, sudoers, service defaults, database *)

Definition setup_jwt_key : M unit :=
  let jwt_key := Py.joinpath (slurmdirs_state env) "jwt_hs256.key" in
  let! w := get in
  (if path_exists w jwt_key
   then log_at INFO "JWT key already exists. Skipping key generation."
   else run ("dd if=/dev/urandom bs=32 count=1 > " +:+ jwt_key)
            None (check_default env) true ;; ret tt) ;;
  chown_slurm env jwt_key (Some 256).

Definition setup_munge_key : M unit :=
  let munge_key := Py.joinpath (dirs_munge env) "munge.key" in
  let! w := get in
  (if path_exists w munge_key
   then log_at INFO "Munge key already exists. Skipping key generation."
   else run_ ("dd if=/dev/random of=" +:+ munge_key +:+ " bs=1024 count=1")) ;;
  shutil_chown env munge_key "munge" "munge" ;;
  chmod munge_key 256 ;;
  run30 "systemctl restart munge".

Definition setup_nss_slurm : M unit :=
  mkdirp env "/var/spool/slurmd" ;;
  run ("ln -s " +:+ slurmdirs_prefix env
       +:+ "/lib/libnss_slurm.so.2 /usr/lib64/libnss_slurm.so.2") None false false ;;
  run_ "sed -i 's/\(^\(passwd\|group\):\s\+\)/\1slurm /g' /etc/nsswitch.conf".

Definition setup_sudoers : M unit :=
  let content := "
# Allow SlurmUser to manage the slurm daemons
slurm ALL= NOPASSWD: /usr/bin/systemctl restart slurmd.service
slurm ALL= NOPASSWD: /usr/bin/systemctl restart sackd.service
slurm ALL= NOPASSWD: /usr/bin/systemctl restart slurmctld.service
" in
  let sudoers_file := "/etc/sudoers.d/slurm" in
  write_text sudoers_file content ;;
  chmod sudoers_file 288.

Definition _MAINTENANCE_SBATCH_SCRIPT_PATH : string :=
  Py.joinpath (dirs_custom_scripts env) "perform_maintenance.sh".

(** The backslash at the end of the line before the last joins the two
    lines of the literal. *)
Definition setup_maintenance_script : M unit :=
  let perform_maintenance := "#!/bin/bash

#SBATCH --priority=low
#SBATCH --time=180

VM_NAME=$(curl -s " +:+ Py.dq +:+ "http://metadata.google.internal/computeMetadata/v1/instance/name" +:+ Py.dq +:+ " -H " +:+ Py.dq +:+ "Metadata-Flavor: Google" +:+ Py.dq +:+ ")
ZONE=$(curl -s " +:+ Py.dq +:+ "http://metadata.google.internal/computeMetadata/v1/instance/zone" +:+ Py.dq +:+ " -H " +:+ Py.dq +:+ "Metadata-Flavor: Google" +:+ Py.dq +:+ " | cut -d '/' -f 4)

gcloud compute instances perform-maintenance $VM_NAME   --zone=$ZONE
" in
  write_text _MAINTENANCE_SBATCH_SCRIPT_PATH perform_maintenance ;;
  chown_slurm env _MAINTENANCE_SBATCH_SCRIPT_PATH (Some 493).

Definition update_system_config (file content : string) : M unit :=
  let sysconfig := "/etc/sysconfig" in
  let default_dir := "/etc/default" in
  let! w := get in
  let! conf_dir :=
    (if path_exists w sysconfig then ret sysconfig
     else if path_exists w default_dir then ret default_dir
     else raise (Exception "Cannot determine system configuration directory.")) in
  write_text (Py.joinpath conf_dir file) content.

Definition configure_mysql : M unit :=
  let! w := get in
  let cnfdir := if path_exists w "/etc/my.cnf.d" then "/etc/my.cnf.d"
                else "/etc/mysql/conf.d" in
  let cnf := Py.joinpath cnfdir "mysql_slurm.cnf" in
  when (negb (path_exists w cnf))
    (write_text cnf "
[mysqld]
bind-address=127.0.0.1
innodb_buffer_pool_size=1024M
innodb_log_file_size=64M
innodb_lock_wait_timeout=900
") ;;
  run30 "systemctl enable mariadb" ;;
  run30 "systemctl restart mariadb" ;;
  let mysql := "mysql -u root -e" in
  let sql (q : string) := mysql +:+ " " +:+ Py.dq +:+ q +:+ Py.dq +:+ ";" in
  run (sql "drop user 'slurm'@'localhost'") (Some 30) false false ;;
  run30 (sql "create user 'slurm'@'localhost'") ;;
  run30 (sql "grant all on slurm_acct_db.* TO 'slurm'@'localhost'") ;;
  let! l := lookup in
  run (sql ("drop user 'slurm'@'" +:+ control_host l +:+ "'")) (Some 30) false false ;;
  let! l := lookup in
  run30 (sql ("create user 'slurm'@'" +:+ control_host l +:+ "'")) ;;
  let! l := lookup in
  run30 (sql ("grant all on slurm_acct_db.* TO 'slurm'@'" +:+ control_host l +:+ "'")).

(** ** ResourceReconciler: directories and symbolic links *)

(** The body of the loop on the pairs (link, target), lines 362 to 364. *)
Definition reconcile_symlink (sl tgt : string) : M unit :=
  let! w := get in
  when (path_exists w sl && is_symlink w sl) (unlink sl) ;;
  symlink_to sl tgt.

Definition configure_dirs : M unit :=
  for_each (dirs_values env) (mkdirp env) ;;
  for_each [dirs_slurm env; dirs_scripts env; dirs_custom_scripts env]
    (fun p => chown_slurm env p None) ;;
  for_each (slurmdirs_items env)
    (fun '(name, path) =>
       mkdirp env path ;;
       when (negb (String.eqb name "prefix")) (chown_slurm env path None)) ;;
  for_each [ ("/etc/slurm", slurmdirs_etc env);
             (Py.joinpath (dirs_scripts env) "etc", slurmdirs_etc env);
             (Py.joinpath (dirs_scripts env) "log", dirs_log env) ]
    (fun '(sl, tgt) => reconcile_symlink sl tgt) ;;
  for_each ["sort_nodes.py"]
    (fun f =>
       let dst := Py.joinpath (Py.joinpath (slurmdirs_prefix env) "bin") f in
       copyfile (Py.joinpath (scripts_dir env) f) dst ;;
       chmod dst 493).

(** ** ResourceReconciler: recursive ownership remapping *)

(** [path.stat()]: the owner and the group of what is at the path.  A
    symbolic link is followed: the ids are those of the file or directory
    at the end of the links, and a link whose target is missing raises as a
    missing path does. *)
Definition stat (p : string) : M (Z * Z) :=
  fun w =>
    match follow 40 w p with
    | None => (Raise (OSError p), w)
    | Some q =>
        match owner w !! q with
        | Some st => (Ok st, w)
        | None => (Raise (FileNotFoundError p), w)
        end
    end.

(** The ids that [os.chown] takes: -1 and the values of a [uid_t] of 32
    bits.  Of these, -1 and 2^32 - 1 (which is -1 as a [uid_t]) stand for
    the id that the entry has. *)
Definition id_in_range (id : Z) : bool := (-1 <=? id) && (id <=? 4294967295).

Definition id_kept (id : Z) : bool := (id =? -1) || (id =? 4294967295).

(** [os.chown(p, uid, gid)].  The ids are converted before the system is
    asked: one that is out of range raises [OverflowError].  A symbolic
    link is followed: the ids are given to what is at the end of the
    links. *)
Definition os_chown (p : string) (uid gid : Z) : M unit :=
  fun w =>
    if negb (id_in_range uid) then (Raise (OverflowError "uid"), w)
    else if negb (id_in_range gid) then (Raise (OverflowError "gid"), w)
    else
      match follow 40 w p with
      | None => (Raise (OSError p), w)
      | Some q =>
          match owner w !! q with
          | Some (u, g) =>
              (Ok tt, set_owner (<[q := (if id_kept uid then u else uid,
                                         if id_kept gid then g else gid)]>) w)
          | None => (Raise (FileNotFoundError p), w)
          end
      end.

Definition _my_chown (path : string) (uid gid previous_uid previous_gid : Z) : M unit :=
  let! st := stat path in
  let my_uid := if (previous_uid =? -1) || (st.1 =? previous_uid) then uid else -1 in
  let my_gid := if (previous_gid =? -1) || (st.2 =? previous_gid) then gid else -1 in
  if negb (my_uid =? -1) || negb (my_gid =? -1)
  then os_chown path my_uid my_gid
  else ret tt.

Definition dirnames (entries : list tree) : list string :=
  flat_map (fun t => match t with Dir n _ => [n] | File _ => [] end) entries.

Definition filenames (entries : list tree) : list string :=
  flat_map (fun t => match t with File n => [n] | Dir _ _ => [] end) entries.

(** What [os.walk] yields for one entry of the directory [top] and all that
    is below it: nothing for a file, and for a directory its own triple
    followed by those of its subdirectories, in order. *)
Fixpoint walk (top : string) (t : tree) : list (string * list string * list string) :=
  match t with
  | File _ => []
  | Dir n children =>
      let here := Py.joinpath top n in
      (here, dirnames children, filenames children) :: flat_map (walk here) children
  end.

(** [os.walk(top)], top down. *)
Definition os_walk (top : string) : list (string * list string * list string) :=
  let entries := scandir env top in
  (top, dirnames entries, filenames entries) :: flat_map (walk top) entries.

Definition recursive_chown (path : string) (uid gid previous_uid previous_gid : Z) : M unit :=
  _my_chown path uid gid previous_uid previous_gid ;;
  for_each (os_walk path)
    (fun '(root, dirs, files) =>
       for_each dirs
         (fun directory =>
            _my_chown (Py.joinpath root directory) uid gid previous_uid previous_gid) ;;
       for_each files
         (fun file =>
            _my_chown (Py.joinpath root file) uid gid previous_uid previous_gid)).

(** ** Hybrid identity migration *)

Definition getgrnam_slurm : M Z :=
  fun w => match group_slurm w with
           | Some g => (Ok g, w)
           | None => (Raise (KeyError "slurm"), w)
           end.

Definition getpwnam_slurm : M Z :=
  fun w => match passwd_slurm w with
           | Some u => (Ok u, w)
           | None => (Raise (KeyError "slurm"), w)
           end.

(** The four remaps at the end of [change_uid_gid_slurm]. *)
Definition chown_slurm_dirs (l : Lookup) (uid gid cur_uid cur_gid : Z) : M unit :=
  recursive_chown (slurmdirs_home env) uid gid (-1) (-1) ;;
  recursive_chown (slurmdirs_etc env) uid gid cur_uid cur_gid ;;
  recursive_chown (slurm_log_dir (cfg l)) uid gid cur_uid cur_gid ;;
  recursive_chown (dirs_slurm env) uid gid cur_uid cur_gid.

(** A [return] in the middle of the function is the result [false] of a
    step: the steps after it are skipped. *)
Definition change_uid_gid_slurm : M unit :=
  let need_chown := false in
  let! cur_gid := getgrnam_slurm in
  let! l := lookup in
  let gid := hybrid_conf_slurm_gid (cfg l) in
  let! step1 :=
    (if negb (cur_gid =? gid) then
       let! grc := run ("groupmod -g " +:+ pretty gid +:+ " slurm")
                       None (check_default env) false in
       if negb (returncode grc =? 0) then
         log_at ERROR ("Cannot change the gid of slurm rc=" +:+ pretty (returncode grc)
                       +:+ " stdout=" +:+ stdout grc +:+ " stderr=" +:+ stderr grc) ;;
         ret (true, false)
       else ret (true, true)
     else ret (need_chown, true)) in
  let '(need_chown, continue) := step1 in
  if negb continue then ret tt
  else
    let! cur_uid := getpwnam_slurm in
    let! l := lookup in
    let uid := hybrid_conf_slurm_uid (cfg l) in
    let! step2 :=
      (if negb (cur_uid =? uid) then
         let! urc := run ("usermod -u " +:+ pretty uid +:+ " slurm")
                         None (check_default env) false in
         if negb (returncode urc =? 0) then
           log_at ERROR ("Cannot change the uid of slurm rc=" +:+ pretty (returncode urc)
                         +:+ " stdout=" +:+ stdout urc +:+ " stderr=" +:+ stderr urc) ;;
           ret (true, false)
         else ret (true, true)
       else ret (need_chown, true)) in
    let '(need_chown, continue) := step2 in
    if negb continue then ret tt
    else if need_chown then
      let! l := lookup in
      chown_slurm_dirs l uid gid cur_uid cur_gid
    else ret tt.

(** ** RoleProvisioner *)

(** Lines 401 to 408 of [setup_controller]: the cluster registration. *)
Definition add_cluster : M unit :=
  let sacctmgr := slurmdirs_prefix env +:+ "/bin/sacctmgr -i" in
  let! l := lookup in
  let cmd := sacctmgr +:+ " add cluster " +:+ slurm_cluster_name (cfg l) in
  let! result := run cmd (Some 30) false false in
  if Py.str_in "already exists" (stdout result) then log_at INFO (stdout result)
  else if 1 <? returncode result then check_returncode cmd result
  else ret tt.

Definition setup_controller : M unit :=
  log_at INFO "Setting up controller" ;;
  chown_slurm env (Py.joinpath (dirs_scripts env) "config.yaml") (Some 384) ;;
  install_custom_scripts env ;;
  gen_controller_configs env ;;
  let! l := lookup in
  when (bool_decide (is_Some (controller_state_disk_device_name (cfg l))))
    (mount_save_state_disk ;; mount_munge_key_disk) ;;
  setup_jwt_key ;;
  setup_munge_key ;;
  setup_sudoers ;;
  setup_network_storage env ;;
  run_custom_scripts ;;
  let! l := lookup in
  when (negb (cloudsql_secret (cfg l))) configure_mysql ;;
  run30 "systemctl enable slurmdbd" ;;
  run30 "systemctl restart slurmdbd" ;;
  sleep 5 ;;
  add_cluster ;;
  run30 "systemctl enable slurmctld" ;;
  run30 "systemctl restart slurmctld" ;;
  run30 "systemctl enable slurmrestd" ;;
  run30 "systemctl restart slurmrestd" ;;
  run30 "systemctl enable nfs-server" ;;
  run30 "systemctl start nfs-server" ;;
  setup_nfs_exports env ;;
  run30 "systemctl enable --now slurmcmd.timer" ;;
  log_at INFO "Check status of cluster services" ;;
  run30 "systemctl status munge" ;;
  run30 "systemctl status slurmdbd" ;;
  run30 "systemctl status slurmctld" ;;
  run30 "systemctl status slurmrestd" ;;
  sync_slurm env ;;
  run30 "systemctl enable slurm_load_bq.timer" ;;
  run30 "systemctl start slurm_load_bq.timer" ;;
  run30 "systemctl status slurm_load_bq.timer" ;;
  setup_maintenance_script ;;
  log_at INFO "Done setting up controller".

(** [slurmctld_host] and the first option of [sackd] and [slurmd]. *)
Definition conf_server (l : Lookup) : string :=
  let slurmctld_host :=
    if Py.truthy (control_addr l)
    then control_host l +:+ "(" +:+ default EmptyString (control_addr l) +:+ ")"
    else control_host l in
  "--conf-server=" +:+ Py.dq +:+ slurmctld_host +:+ ":" +:+ control_host_port l +:+ Py.dq.

Definition setup_login : M unit :=
  log_at INFO "Setting up login" ;;
  let! l := lookup in
  let sackd_options := [conf_server l] in
  let sysconf := "SACKD_OPTIONS='" +:+ Py.join " " sackd_options +:+ "'" in
  update_system_config "sackd" sysconf ;;
  install_custom_scripts env ;;
  setup_network_storage env ;;
  setup_sudoers ;;
  run_ "systemctl restart munge" ;;
  run30 "systemctl enable sackd" ;;
  run30 "systemctl restart sackd" ;;
  run30 "systemctl enable --now slurmcmd.timer" ;;
  run_custom_scripts ;;
  log_at INFO "Check status of cluster services" ;;
  run30 "systemctl status munge" ;;
  run30 "systemctl status sackd" ;;
  log_at INFO "Done setting up login".

(** Lines 526 to 538 of [setup_compute]: the options of [slurmd]. *)
Definition slurmd_options_of : M (list string) :=
  let! l := lookup in
  let slurmd_options := [conf_server l] in
  let! slurmd_feature :=
    try_except
      (let! v := instance_metadata env "attributes/slurmd_feature" in ret (Some v))
      (fun _ => ret None) in
  match slurmd_feature with
  | Some feature =>
      ret (slurmd_options
           ++ ["--conf=" +:+ Py.dq +:+ "Feature=" +:+ feature +:+ Py.dq]
           ++ ["-Z"])
  | None => ret slurmd_options
  end.

(** Lines 519 to 522 of [setup_compute]: what comes before the options. *)
Definition compute_identity : M unit :=
  log_at INFO "Setting up compute" ;;
  let! l := lookup in
  when (hybrid (cfg l)) change_uid_gid_slurm ;;
  chown_slurm env (Py.joinpath (dirs_scripts env) "config.yaml") (Some 384).

(** Lines 542 to 563 of [setup_compute]: what comes after the service
    environment is written. *)
Definition compute_services : M unit :=
  install_custom_scripts env ;;
  setup_nss_slurm ;;
  setup_network_storage env ;;
  let! r := run "lspci | grep --ignore-case 'NVIDIA' | wc -l"
                None (check_default env) true in
  let has_gpu := returncode r in
  when (negb (has_gpu =? 0)) (run_ "nvidia-smi") ;;
  run_custom_scripts ;;
  setup_sudoers ;;
  run30 "systemctl restart munge" ;;
  run30 "systemctl enable slurmd" ;;
  run30 "systemctl restart slurmd" ;;
  run30 "systemctl enable --now slurmcmd.timer" ;;
  log_at INFO "Check status of cluster services" ;;
  run30 "systemctl status munge" ;;
  run30 "systemctl status slurmd" ;;
  log_at INFO "Done setting up compute".

Definition setup_compute : M unit :=
  compute_identity ;;
  let! slurmd_options := slurmd_options_of in
  let sysconf := "SLURMD_OPTIONS='" +:+ Py.join " " slurmd_options +:+ "'" in
  update_system_config "slurmd" sysconf ;;
  compute_services.

(** The document of the logging agent is read, extended and written back by
    [cloud_ops_add_cluster_info]. *)
Definition setup_cloud_ops : M unit :=
  let! r := run "systemctl is-active --quiet google-cloud-ops-agent.service"
                None false false in
  let cloudOpsStatus := returncode r in
  if negb (cloudOpsStatus =? 0) then ret tt
  else
    cloud_ops_add_cluster_info env ;;
    run30 "systemctl restart google-cloud-ops-agent.service".

(** ** ConfigAcquirer *)

(** A program that may run forever: [None] when the fuel is used up before
    it ends. *)
Definition P (A : Type) : Type := World → option (result A * World).

Definition lift {A} (c : M A) : P A := fun w => Some (c w).

Definition bindP {A B} (c : P A) (k : A → P B) : P B :=
  fun w =>
    match c w with
    | Some (Ok a, w') => k a w'
    | Some (Raise e, w') => Some (Raise e, w')
    | None => None
    end.

(** One call of [util.fetch_config]. *)
Definition fetch (bucket : option string) : M Cfg :=
  fun w => (fetch_config env (fetches w) bucket, set_fetches S w).

(** The body of the [try] of [get_config]. *)
Definition get_config_try (bucket : option string) : M unit :=
  let! c := fetch bucket in
  update_config c ;;
  when (bool_decide (is_Some bucket)) set_hybrid_setup.

(** The two [except] clauses. *)
Definition get_config_except (sleep_seconds : Z) (e : exn) : M unit :=
  match e with
  | DeffetiveStoredConfigError msg =>
      log_at WARNING ("config is not ready yet: " +:+ msg +:+ ", sleeping for "
                      +:+ pretty sleep_seconds +:+ "s")
  | _ =>
      log_at ERROR ("unexpected error while fetching config, sleeping for "
                    +:+ pretty sleep_seconds +:+ "s")
  end.

(** [while True]: one unit of fuel for each turn of the loop. *)
Fixpoint get_config_loop (fuel : nat) (bucket : option string) (sleep_seconds : Z) : P unit :=
  fun w =>
    match fuel with
    | O => None
    | S fuel' =>
        match get_config_try bucket w with
        | (Ok _, w') => Some (Ok tt, w')
        | (Raise e, w') =>
            match (get_config_except sleep_seconds e ;; sleep sleep_seconds) w' with
            | (Ok _, w'') => get_config_loop fuel' bucket sleep_seconds w''
            | (Raise e', w'') => Some (Raise e', w'')
            end
        end
    end.

Definition get_config (fuel : nat) (bucket : option string) : P unit :=
  let sleep_seconds := 5 in
  bindP (get_config_loop fuel bucket sleep_seconds)
        (fun _ => lift (log_at INFO "Config fetched")).

Definition setup_hybrid (fuel : nat) (bucket : option string) : P unit :=
  bindP (lift (log_at INFO "Starting hybrid setup, fetching config")) (fun _ =>
  bindP (get_config fuel bucket) (fun _ =>
  lift (log_at INFO "Generating the config files" ;;
        gen_controller_configs env ;;
        log_at INFO "Success"))).

(** ** The run *)

(** [d.get(key, default)] on a dict that lists its items. *)
Fixpoint dict_get {A} (d : list (string * A)) (key : string) (default : A) : A :=
  match d with
  | [] => default
  | (k, v) :: d' => if String.eqb k key then v else dict_get d' key default
  end.

(** Lines 629 to 635: the table of the roles and its default. *)
Definition dispatch : M unit :=
  let! l := lookup in
  dict_get [ ("controller", setup_controller);
             ("compute", setup_compute);
             ("login", setup_login) ]
           (instance_role l)
           (log_at CRITICAL ("Unknown node role: " +:+ instance_role l)).

(** [main] up to the dispatch on the role. *)
Definition prologue (fuel : nat) : P unit :=
  bindP (lift (start_motd ;; log_at INFO "Starting setup, fetching config")) (fun _ =>
  bindP (get_config fuel None) (fun _ =>
  lift (setup_cloud_ops ;; configure_dirs))).

Definition main (fuel : nat) : P unit :=
  bindP (prologue fuel) (fun _ => lift (dispatch ;; end_motd true)).

(** The three [except] clauses of the script: every one logs and signals
    the failure. *)
Definition top_except (e : exn) : M unit :=
  match e with
  | TimeoutExpired cmd timeout out err =>
      log_at ERROR ("TimeoutExpired:
    command=" +:+ cmd +:+ "
    timeout=" +:+ Py.str_opt timeout +:+ "
    stdout:
" +:+ Py.strip out +:+ "
    stderr:
" +:+ Py.strip err +:+ "
") ;;
      log_at ERROR "Aborting setup..." ;;
      failed_motd
  | CalledProcessError rc cmd out err =>
      log_at ERROR ("CalledProcessError:
    command=" +:+ cmd +:+ "
    returncode=" +:+ pretty rc +:+ "
    stdout:
" +:+ Py.strip out +:+ "
    stderr:
" +:+ Py.strip err +:+ "
") ;;
      log_at ERROR "Aborting setup..." ;;
      failed_motd
  | _ =>
      log_at ERROR "Aborting setup..." ;;
      failed_motd
  end.

(** The script, after the arguments are read. *)
Definition script (fuel : nat) (hybrid_arg : bool) (bucket : option string) : P unit :=
  fun w =>
    match (if hybrid_arg then setup_hybrid fuel bucket else main fuel) w with
    | Some (Ok _, w') => Some (Ok tt, w')
    | Some (Raise e, w') => Some (top_except e w')
    | None => None
    end.

End Setup.


(** ** Vocabulary of the statements *)

Section Vocabulary.

Context (env : Env).

(** The command of the cluster registration and its call. *)
Definition add_cluster_cmd (w : World) : string :=
  (slurmdirs_prefix env +:+ "/bin/sacctmgr -i") +:+ " add cluster "
  +:+ slurm_cluster_name (cfg (lkp w)).

Definition add_cluster_call (w : World) : Call :=
  mkCall (add_cluster_cmd w) (Some 30) false false.

(** The call that runs a hook script under a configuration. *)
Definition script_call (c : Cfg) (script : string) : Call :=
  mkCall script (script_timeout c script) false true.

(** The error of a hook script, if its outcome is one: it could not be
    started, it ran out of time, or it exited with a non-zero status. *)
Definition script_error (c : Cfg) (script : string) (o : Outcome) : option exn :=
  match o with
  | Exited r =>
      if returncode r =? 0 then None
      else Some (CalledProcessError (returncode r) script (stdout r) (stderr r))
  | TimedOut out err => Some (TimeoutExpired script (script_timeout c script) out err)
  | NotExecutable => Some (OSError script)
  end.

(** Every script of the list, run in order after the commands [h], exits
    with status 0. *)
Fixpoint scripts_ok (h : list Call) (c : Cfg) (l : list string) : Prop :=
  match l with
  | [] => True
  | s :: l' =>
      script_error c s (exec env h (script_call c s)) = None
      ∧ scripts_ok (h ++ [script_call c s]) c l'
  end.

(** The record that a failed attempt to fetch the configuration logs. *)
Definition retry_record (e : exn) : Level * string :=
  match e with
  | DeffetiveStoredConfigError msg =>
      (WARNING, "config is not ready yet: " +:+ msg +:+ ", sleeping for 5s")
  | _ => (ERROR, "unexpected error while fetching config, sleeping for 5s")
  end.

(** The timeout of the scripts of a category as the specification resolves
    it, from the value configured under the key of the category: the value
    when it is positive, no timeout when it is zero or negative, and 300
    seconds when the key is not set. *)
Definition timeout_by_spec (c : Cfg) (key : string) : option Z :=
  match cfg_dict c !! key with
  | Some v => if 0 <? v then Some v else None
  | None => Some 300
  end.

(** An id that a file can have: a value of [uid_t] other than its -1. *)
Definition is_id (id : Z) : Prop := 0 ≤ id ≤ 4294967294.

(** What a path stands for when the links at it are followed, and the file
    or directory that examining and re-owning the path works on. *)
Definition target (w : World) (p : string) : string :=
  default p (follow 40 w p).

Definition targets (w : World) (ps : list string) : list string :=
  map (target w) ps.

(** The path can be examined: the links at it end at something that has an
    owner. *)
Definition examinable (w : World) (p : string) : Prop :=
  ∃ q, follow 40 w p = Some q ∧ is_Some (owner w !! q).

(** The owner and group that the remap gives to an entry: an id changes
    when no previous id was given for it or when it is the previous id. *)
Definition remap (uid gid previous_uid previous_gid : Z) (st : Z * Z) : Z * Z :=
  (if (previous_uid =? -1) || (st.1 =? previous_uid) then uid else st.1,
   if (previous_gid =? -1) || (st.2 =? previous_gid) then gid else st.2).

(** The paths of everything below a directory, by its listing. *)
Fixpoint below (top : string) (t : tree) : list string :=
  match t with
  | File n => [Py.joinpath top n]
  | Dir n children =>
      let here := Py.joinpath top n in
      here :: flat_map (below here) children
  end.

Definition tname (t : tree) : string :=
  match t with
  | File n => n
  | Dir n _ => n
  end.

(** The root of a subtree and all its descendants. *)
Definition subtree (path : string) : list string :=
  path :: flat_map (below path) (scandir env path).

(** The paths that [recursive_chown] hands to [_my_chown], in order. *)
Definition triple_paths (tr : string * list string * list string) : list string :=
  let '(root, dirs, files) := tr in
  map (Py.joinpath root) dirs ++ map (Py.joinpath root) files.

Definition chown_paths (path : string) : list string :=
  path :: flat_map triple_paths (os_walk env path).

(** A world with another ownership table. *)
Definition with_owner (o : gmap string (Z * Z)) (w : World) : World :=
  set_owner (fun _ => o) w.

(** The lines of the mount table that are for an entry: those that start
    with it. *)
Definition matching_lines (fstab_entry content : string) : list string :=
  List.filter (String.prefix fstab_entry) (Py.readlines content).

(** No line terminator in a string. *)
Fixpoint no_newline (s : string) : bool :=
  match s with
  | EmptyString => true
  | String c s' => negb (Ascii.eqb c Py.LF) && negb (Ascii.eqb c Py.CR) && no_newline s'
  end.

(** A text whose last line, if there is one, is terminated by LF. *)
Fixpoint terminated (s : string) : bool :=
  match s with
  | EmptyString => true
  | String c EmptyString => Ascii.eqb c Py.LF
  | String _ s' => terminated s'
  end.

(** The broadcasts of a completed run: the banner of completion, and for
    every node but the controller the note on the home directory. *)
Definition complete_calls (l : Lookup) : list Call :=
  mkCall ("wall -n '*** Slurm " +:+ instance_role l +:+ " setup complete ***'")
         (Some 30) (check_default env) false
  :: (if is_controller l then []
      else [mkCall "wall -n '
/home on the controller was mounted over the existing /home.
Log back in to ensure your home directory is correct.
'" (Some 30) (check_default env) false]).

(** The commands that rename the group and the user. *)
Definition groupmod_call (gid : Z) : Call :=
  mkCall ("groupmod -g " +:+ pretty gid +:+ " slurm") None (check_default env) false.

Definition usermod_call (uid : Z) : Call :=
  mkCall ("usermod -u " +:+ pretty uid +:+ " slurm") None (check_default env) false.


(** Every command of the list, run in order after the commands [h], exits
    with status 0. *)
Fixpoint calls_ok (h : list Call) (cs : list Call) : Prop :=
  match cs with
  | [] => True
  | c :: cs' =>
      (∃ r, exec env h c = Exited r ∧ returncode r = 0)
      ∧ calls_ok (h ++ [c]) cs'
  end.


End Vocabulary.

(** ** A sample host *)

Module Sample.

Definition done : Outcome := Exited (mkCompleted 0 EmptyString EmptyString).

Definition cfg0 : Cfg :=
  mkCfg {[ "controller_startup_scripts_timeout" := 600;
           "compute_startup_scripts_timeout" := 0 ]}
        (Some "state-disk") false "hpc" true 1001 1001 "/var/log/slurm".

Definition host (role : string) : Lookup :=
  mkLookup cfg0 role (String.eqb role "controller") (String.eqb role "login")
           false false "ctl0" None "6820" "node0".

(** A host whose collaborators do nothing, with the given answers of the
    commands, of the configuration store and of the metadata server; a
    command whose caller does not say is checked. *)
Definition env_of (answers : list Call → Call → Outcome)
    (store : nat → option string → result Cfg)
    (metadata : string → M string) : Env :=
  mkEnv answers true store metadata
        (fun d => if String.eqb d "/slurm/custom_scripts/controller.d"
                  then [("/slurm/custom_scripts/controller.d/a.sh", true);
                        ("/slurm/custom_scripts/controller.d/old.sh.disabled", true);
                        ("/slurm/custom_scripts/controller.d/lib", false)]
                  else [])
        (fun d => if String.eqb d "/var/lib/slurm"
                  then [File ".bashrc"; Dir "jobs" [File "alice.out"]]
                  else [])
        "/slurm" "/slurm/scripts" "/slurm/custom_scripts" "/etc/munge"
        "/var/log/slurm"
        ["/slurm"; "/slurm/scripts"; "/slurm/custom_scripts"; "/etc/munge";
         "/var/log/slurm"]
        "/usr/local" "/usr/local/etc/slurm" "/var/spool/slurm" "/var/lib/slurm"
        [("prefix", "/usr/local"); ("etc", "/usr/local/etc/slurm");
         ("state", "/var/spool/slurm"); ("home", "/var/lib/slurm")]
        "/slurm/scripts"
        (ret tt) (ret tt) (ret tt) (ret tt) (ret tt)
        (fun _ _ => ret tt) (fun p => makedirs p) (fun _ _ _ => ret tt) (ret tt)
        "/slurm/scripts/setup.log".

Definition all_done : list Call → Call → Outcome := fun _ _ => done.

Definition ready : nat → option string → result Cfg := fun _ _ => Ok cfg0.

Definition no_metadata : string → M string :=
  fun key => raise (Exception key).

(** The registration command answering that the cluster is there. *)
Definition exists_reply : CompletedProcess :=
  mkCompleted 1 " This cluster hpc already exists.  Not adding." EmptyString.

Definition already : list Call → Call → Outcome := fun _ _ => Exited exists_reply.

(** Three hook scripts; the second exits with status 3. *)
Definition hooks : list string :=
  ["/slurm/custom_scripts/controller.d/a.sh";
   "/slurm/custom_scripts/controller.d/b.sh";
   "/slurm/custom_scripts/controller.d/c.sh"].

Definition second_fails : list Call → Call → Outcome :=
  fun _ c =>
    if String.eqb (c_cmd c) "/slurm/custom_scripts/controller.d/b.sh"
    then Exited (mkCompleted 3 EmptyString "boom")
    else done.

(** A store that is not ready at the first two attempts. *)
Definition not_ready_twice : nat → option string → result Cfg :=
  fun n _ =>
    if (n <? 2)%nat then Raise (DeffetiveStoredConfigError "config.yaml is empty")
    else Ok cfg0.

Definition env0 : Env := env_of all_done ready no_metadata.

Definition world0 (role : string) : World :=
  mkWorld [] [] [] ∅ ∅ ∅ ∅ ∅ (Some 981) (Some 981) 0 (host role).

(** Entries of three owners below the home directory. *)
Definition world_10_20_30 : World :=
  mkWorld [] [] [] ∅ ∅ ∅
          {[ "/var/lib/slurm" := (10, 10);
             "/var/lib/slurm/.bashrc" := (10, 20);
             "/var/lib/slurm/jobs" := (20, 20);
             "/var/lib/slurm/jobs/alice.out" := (30, 30) ]}
          ∅ (Some 10) (Some 10) 0 (host "compute").

(** The home of the identity 981 with a file of user 2000 in it. *)
Definition world_home : World :=
  mkWorld [] [] [] ∅ ∅ ∅
          {[ "/var/lib/slurm" := (981, 981);
             "/var/lib/slurm/.bashrc" := (981, 981);
             "/var/lib/slurm/jobs" := (981, 981);
             "/var/lib/slurm/jobs/alice.out" := (2000, 2000);
             "/usr/local/etc/slurm" := (981, 981);
             "/var/log/slurm" := (0, 981);
             "/slurm" := (981, 981) ]}
          ∅ (Some 981) (Some 981) 0 (host "compute").

(** A controller with a formatted state disk and a mount table of one
    line. *)
Definition disk_answers : list Call → Call → Outcome :=
  fun _ c =>
    if String.prefix "realpath " (c_cmd c)
    then Exited (mkCompleted 0 "/dev/sdb
" EmptyString)
    else if String.prefix "file -s " (c_cmd c)
    then Exited (mkCompleted 0 "/dev/sdb: Linux rev 1.0 ext4 filesystem data
" EmptyString)
    else done.

Definition env_disk : Env := env_of disk_answers ready no_metadata.

Definition fstab0 : string := "UUID=6e3f / ext4 defaults 0 1
".

Definition world_fstab : World :=
  mkWorld [] [] [] {[ "/etc/fstab" := fstab0 ]} ∅ ∅ ∅ ∅ (Some 981) (Some 981) 0
          (host "controller").

Definition munge_line : string := "/var/spool/slurm/munge /etc/munge none bind 0 0
".

Definition state_line : string :=
  "/dev/disk/by-id/google-state-disk /var/spool/slurm ext4 defaults 0 0
".

(** A node at boot, with the auxiliary script in place. *)
Definition world_boot (role : string) : World :=
  mkWorld [] [] [] {[ "/slurm/scripts/sort_nodes.py" := "#!/usr/bin/env python3" ]}
          ∅ {[ "/etc"; "/usr/local/bin" ]} ∅ ∅ (Some 981) (Some 981) 0 (host role).

(** A node where [/etc/slurm] is a link to a directory that is gone. *)
Definition world_dangling : World :=
  mkWorld [] [] [] {[ "/slurm/scripts/sort_nodes.py" := "#!/usr/bin/env python3" ]}
          {[ "/etc/slurm" := "/opt/slurm-23.02/etc" ]}
          ∅ ∅ ∅ (Some 981) (Some 981) 0 (host "controller").

End Sample.

(** ** The document of the logging agent *)

(** What [yaml.safe_load] returns, as far as [setup_cloud_ops] looks at it:
    a tree of mappings (in the order of the document), sequences and
    scalars, where a string stands for every scalar that is not null (none
    of them can be indexed by a key or appended to).  Two places of the tree
    are taken to share nothing: the document has no aliases. *)
Inductive yaml : Type :=
| YNull
| YStr (s : string)
| YList (items : list yaml)
| YDict (items : list (string * yaml)).

(** [d[key]] on the items of a mapping. *)
Fixpoint dict_find (items : list (string * yaml)) (key : string) : option yaml :=
  match items with
  | [] => None
  | (k, v) :: items' => if String.eqb k key then Some v else dict_find items' key
  end.

(** [d[key] = v] on the items of a mapping: a key that is there keeps its
    place, a new key goes to the end. *)
Fixpoint dict_set (items : list (string * yaml)) (key : string) (v : yaml)
  : list (string * yaml) :=
  match items with
  | [] => [(key, v)]
  | (k, v') :: items' =>
      if String.eqb k key then (k, v) :: items' else (k, v') :: dict_set items' key v
  end.

(** [doc[key]]: a mapping without the key raises [KeyError]; what is not a
    mapping cannot be indexed by a string. *)
Definition getitem (doc : yaml) (key : string) : result yaml :=
  match doc with
  | YDict items =>
      match dict_find items key with
      | Some v => Ok v
      | None => Raise (KeyError key)
      end
  | _ => Raise (Exception "TypeError")
  end.

(** [doc[key] = v]. *)
Definition setitem (key : string) (v : yaml) (doc : yaml) : result yaml :=
  match doc with
  | YDict items => Ok (YDict (dict_set items key v))
  | _ => Raise (Exception "TypeError")
  end.

(** [doc.append(v)]. *)
Definition append (v : yaml) (doc : yaml) : result yaml :=
  match doc with
  | YList items => Ok (YList (items ++ [v]))
  | _ => Raise (Exception "AttributeError")
  end.

(** [doc[k1][k2]...[kn]]. *)
Fixpoint get_path (path : list string) (doc : yaml) : result yaml :=
  match path with
  | [] => Ok doc
  | k :: path' =>
      match getitem doc k with
      | Ok v => get_path path' v
      | Raise e => Raise e
      end
  end.

(** The object at [doc[k1]...[kn]] changed in place by [f]: the subscripts
    are evaluated first, from the left. *)
Fixpoint modify_at (path : list string) (f : yaml → result yaml) (doc : yaml)
  : result yaml :=
  match path with
  | [] => f doc
  | k :: path' =>
      match getitem doc k with
      | Ok v =>
          match modify_at path' f v with
          | Ok v' => setitem k v' doc
          | Raise e => Raise e
          end
      | Raise e => Raise e
      end
  end.

(** Lines 577 to 587: the processor that labels the records. *)
Definition cluster_info (cluster_name hostname : string) : yaml :=
  YDict [ ("type", YStr "modify_fields");
          ("fields",
           YDict [ ("labels." +:+ Py.dq +:+ "cluster_name" +:+ Py.dq,
                    YDict [("static_value", YStr cluster_name)]);
                   ("labels." +:+ Py.dq +:+ "hostname" +:+ Py.dq,
                    YDict [("static_value", YStr hostname)]) ]) ].

Definition processors_path : list string := ["logging"; "processors"].

Definition pipeline_path (pipeline : string) : list string :=
  ["logging"; "service"; "pipelines"; pipeline; "processors"].

(** Lines 589 to 591: the three statements that change the document. *)
Definition add_cluster_info (l : Lookup) (file : yaml) : result yaml :=
  match modify_at processors_path
          (setitem "add_cluster_info" (cluster_info (slurm_cluster_name (cfg l)) (hostname l)))
          file with
  | Raise e => Raise e
  | Ok file1 =>
      match modify_at (pipeline_path "slurmlog_pipeline")
              (append (YStr "add_cluster_info")) file1 with
      | Raise e => Raise e
      | Ok file2 =>
          modify_at (pipeline_path "slurmlog2_pipeline")
            (append (YStr "add_cluster_info")) file2
      end
  end.

(** The keys of a mapping, in order. *)
Definition keys (doc : yaml) : list string :=
  match doc with
  | YDict items => map fst items
  | _ => []
  end.

(** ** More vocabulary *)

Section Answers.

Context (env : Env).

(** Every command of the list, run in order after the commands [h],
    completes, with status 0 where the call checks the status. *)
Fixpoint answered (h : list Call) (cs : list Call) : Prop :=
  match cs with
  | [] => True
  | c :: cs' =>
      (∃ r, exec env h c = Exited r ∧ (c_check c = true → returncode r = 0))
      ∧ answered (h ++ [c]) cs'
  end.

(** [run(cmd, timeout=30)], [run(cmd, timeout=30, check=False)] and
    [run(cmd)] as calls. *)
Definition call30 (cmd : string) : Call := mkCall cmd (Some 30) (check_default env) false.
Definition call30_unchecked (cmd : string) : Call := mkCall cmd (Some 30) false false.
Definition call_ (cmd : string) : Call := mkCall cmd None (check_default env) false.

Definition mysql_cmd (q : string) : string :=
  "mysql -u root -e" +:+ " " +:+ Py.dq +:+ q +:+ Py.dq +:+ ";".

(** The commands of [configure_mysql], in order. *)
Definition mysql_calls (l : Lookup) : list Call :=
  [ call30 "systemctl enable mariadb";
    call30 "systemctl restart mariadb";
    call30_unchecked (mysql_cmd "drop user 'slurm'@'localhost'");
    call30 (mysql_cmd "create user 'slurm'@'localhost'");
    call30 (mysql_cmd "grant all on slurm_acct_db.* TO 'slurm'@'localhost'");
    call30_unchecked (mysql_cmd ("drop user 'slurm'@'" +:+ control_host l +:+ "'"));
    call30 (mysql_cmd ("create user 'slurm'@'" +:+ control_host l +:+ "'"));
    call30 (mysql_cmd ("grant all on slurm_acct_db.* TO 'slurm'@'"
                       +:+ control_host l +:+ "'")) ].

Definition mysql_cnf (w : World) : string :=
  Py.joinpath (if path_exists w "/etc/my.cnf.d" then "/etc/my.cnf.d"
               else "/etc/mysql/conf.d") "mysql_slurm.cnf".

Definition mysql_cnf_text : string := "
[mysqld]
bind-address=127.0.0.1
innodb_buffer_pool_size=1024M
innodb_log_file_size=64M
innodb_lock_wait_timeout=900
".





(** The mount table after the test for an entry and the append. *)
Definition fstab_after (fstab_entry options content : string) : string :=
  if Py.list_in fstab_entry (Py.readlines content) then content
  else content +:+ fstab_entry +:+ options.

(** The banner of a failed run and its broadcast. *)
Definition failed_wall_msg : string :=
  "*** Slurm setup failed! Please view log: " +:+ get_log_path env +:+ " ***".

Definition failed_motd_text : string :=
  MOTD_HEADER +:+ failed_wall_msg +:+ "

".

(** The record of a rename that failed. *)
Definition rename_error (what : string) (r : CompletedProcess) : Level * string :=
  (ERROR, "Cannot change the " +:+ what +:+ " of slurm rc=" +:+ pretty (returncode r)
          +:+ " stdout=" +:+ stdout r +:+ " stderr=" +:+ stderr r).

(** The text of the sudoers file. *)
Definition sudoers_text : string := "
# Allow SlurmUser to manage the slurm daemons
slurm ALL= NOPASSWD: /usr/bin/systemctl restart slurmd.service
slurm ALL= NOPASSWD: /usr/bin/systemctl restart sackd.service
slurm ALL= NOPASSWD: /usr/bin/systemctl restart slurmctld.service
".

End Answers.

Module Sample2.

(** The document of an agent with the two pipelines of the cluster. *)
Definition agent_doc : yaml :=
  YDict [ ("logging",
           YDict [ ("receivers", YDict [("slurmlog", YDict [("type", YStr "files")])]);
                   ("processors", YDict [("parse", YDict [("type", YStr "parse_json")])]);
                   ("service",
                    YDict [("pipelines",
                            YDict [ ("slurmlog_pipeline",
                                     YDict [ ("receivers", YList [YStr "slurmlog"]);
                                             ("processors", YList [YStr "parse"]) ]);
                                    ("slurmlog2_pipeline",
                                     YDict [ ("receivers", YList [YStr "slurmlog2"]);
                                             ("processors", YList []) ]) ])]) ]);
          ("metrics", YNull) ].

(** Answers of a host whose [drop user] commands and whose monitoring agent
    report failure. *)
Definition grumpy : list Call → Call → Outcome :=
  fun _ c =>
    if Py.str_in "drop user" (c_cmd c) || Py.str_in "is-active" (c_cmd c)
    then Exited (mkCompleted 1 EmptyString "ERROR 1396")
    else Sample.done.

Definition env_grumpy : Env := Sample.env_of grumpy Sample.ready Sample.no_metadata.

(** Answers of a host on which no command can be started. *)
Definition broken : list Call → Call → Outcome := fun _ _ => NotExecutable.

Definition env_broken : Env := Sample.env_of broken Sample.ready Sample.no_metadata.

(** A store that is never ready. *)
Definition never_ready : nat → option string → result Cfg :=
  fun _ _ => Raise (DeffetiveStoredConfigError "config.yaml is empty").

(** Answers of a host whose [groupmod] fails. *)
Definition no_groupmod : list Call → Call → Outcome :=
  fun _ c =>
    if String.prefix "groupmod" (c_cmd c)
    then Exited (mkCompleted 4 EmptyString "groupmod: GID '1001' already exists")
    else Sample.done.

Definition env_no_groupmod : Env :=
  Sample.env_of no_groupmod Sample.ready Sample.no_metadata.

(** A host with the directory of the service defaults of Debian. *)
Definition world_debian : World :=
  mkWorld [] [] [] ∅ ∅ {[ "/etc/default" ]} ∅ ∅ (Some 981) (Some 981) 0
          (Sample.host "login").

(** A host where a regular file is at the path of the directory of the
    service defaults. *)
Definition world_sysconfig_file : World :=
  mkWorld [] [] [] {[ "/etc/sysconfig" := "# moved to /etc/default" ]} ∅ {[ "/etc" ]}
          ∅ ∅ (Some 981) (Some 981) 0 (Sample.host "login").

(** A host with the directory of the sudoers files, and one where the file
    of the identity is a link into the directory of the site. *)
Definition world_sudoers : World :=
  mkWorld [] [] [] ∅ ∅ {[ "/etc/sudoers.d" ]} ∅ ∅ (Some 981) (Some 981) 0
          (Sample.host "login").

Definition world_sudoers_link : World :=
  mkWorld [] [] [] ∅ {[ "/etc/sudoers.d/slurm" := "/site/sudoers/slurm" ]}
          {[ "/etc/sudoers.d"; "/site/sudoers" ]} ∅ ∅ (Some 981) (Some 981) 0
          (Sample.host "login").

(** A controller with the directory of the options of the database
    server. *)
Definition world_mysql : World :=
  mkWorld [] [] [] ∅ ∅ {[ "/etc/mysql/conf.d" ]} ∅ ∅ (Some 981) (Some 981) 0
          (Sample.host "controller").

(** The sample host with other answers to what the script asks of it. *)
Definition with_check_default (b : bool) (e : Env) : Env :=
  mkEnv (exec e) b (fetch_config e) (instance_metadata e) (rglob e) (scandir e)
        (dirs_slurm e) (dirs_scripts e) (dirs_custom_scripts e) (dirs_munge e)
        (dirs_log e) (dirs_values e) (slurmdirs_prefix e) (slurmdirs_etc e)
        (slurmdirs_state e) (slurmdirs_home e) (slurmdirs_items e) (scripts_dir e)
        (install_custom_scripts e) (gen_controller_configs e) (setup_network_storage e)
        (setup_nfs_exports e) (sync_slurm e) (chown_slurm e) (mkdirp e) (shutil_chown e)
        (cloud_ops_add_cluster_info e) (get_log_path e).

Definition with_rglob (f : string → list (string * bool)) (e : Env) : Env :=
  mkEnv (exec e) (check_default e) (fetch_config e) (instance_metadata e) f (scandir e)
        (dirs_slurm e) (dirs_scripts e) (dirs_custom_scripts e) (dirs_munge e)
        (dirs_log e) (dirs_values e) (slurmdirs_prefix e) (slurmdirs_etc e)
        (slurmdirs_state e) (slurmdirs_home e) (slurmdirs_items e) (scripts_dir e)
        (install_custom_scripts e) (gen_controller_configs e) (setup_network_storage e)
        (setup_nfs_exports e) (sync_slurm e) (chown_slurm e) (mkdirp e) (shutil_chown e)
        (cloud_ops_add_cluster_info e) (get_log_path e).

(** A compute node where the operator has put a directory [controller.d]
    below [compute.d]. *)
Definition env_nested : Env :=
  with_rglob (fun d => if String.eqb d "/slurm/custom_scripts/compute.d"
                       then [("/slurm/custom_scripts/compute.d/controller.d", false);
                             ("/slurm/custom_scripts/compute.d/controller.d/a.sh", true)]
                       else [])
             Sample.env0.

(** The home of the identity 10, where [.bashrc] is a link to the file of
    the skeleton, which is outside the home. *)
Definition world_linked : World :=
  mkWorld [] [] [] ∅
          {[ "/var/lib/slurm/.bashrc" := "/etc/skel/.bashrc" ]} ∅
          {[ "/var/lib/slurm" := (10, 10);
             "/etc/skel/.bashrc" := (10, 20);
             "/var/lib/slurm/jobs" := (20, 20);
             "/var/lib/slurm/jobs/alice.out" := (30, 30) ]}
          ∅ (Some 10) (Some 10) 0 (Sample.host "compute").

(** A compute node of the hybrid kind before its setup: the directories of
    the identity 981, and the directories of the system that the setup
    writes to. *)
Definition world_compute : World :=
  mkWorld [] [] [] ∅ ∅ {[ "/etc"; "/etc/sysconfig"; "/etc/sudoers.d" ]}
          {[ "/var/lib/slurm" := (981, 981);
             "/var/lib/slurm/.bashrc" := (981, 981);
             "/var/lib/slurm/jobs" := (981, 981);
             "/var/lib/slurm/jobs/alice.out" := (2000, 2000);
             "/usr/local/etc/slurm" := (981, 981);
             "/var/log/slurm" := (0, 981);
             "/slurm" := (981, 981) ]}
          ∅ (Some 981) (Some 981) 0 (Sample.host "compute").

(** A metadata server that knows the attribute. *)
Definition gpu_metadata : string → M string := fun _ => ret "gpu".


Definition world_etc_file : World :=
  mkWorld [] [] [] {[ "/etc/slurm" := "ClusterName=hpc" ]} ∅ {[ "/usr/local/etc/slurm" ]}
          ∅ ∅ (Some 981) (Some 981) 0 (Sample.host "controller").

(** Answers of a host whose [ln] fails because the link is there. *)
Definition ln_fails : list Call → Call → Outcome :=
  fun _ c =>
    if String.prefix "ln -s" (c_cmd c)
    then Exited (mkCompleted 1 EmptyString "ln: failed to create symbolic link: File exists")
    else Sample.done.

Definition env_ln_fails : Env := Sample.env_of ln_fails Sample.ready Sample.no_metadata.

End Sample2.
(** ** The string functions on examples *)

Example name_of_script : Py.name "/slurm/custom_scripts/controller.d/a.sh" = "a.sh".
Proof. reflexivity. Qed.

Example disabled_suffix :
  Py.endswith "10-tune.sh.disabled" ".disabled" = true
  ∧ Py.endswith "10-tune.sh" ".disabled" = false.
Proof. split; reflexivity. Qed.

Example readlines_keeps_terminators :
  Py.readlines (String "a" (String Py.LF (String "b" (String Py.CR (String Py.LF "c")))))
  = [String "a" (String Py.LF EmptyString); String "b" (String Py.LF EmptyString); "c"].
Proof. reflexivity. Qed.

Example strip_output : Py.strip (String " " (String "x" (String Py.LF EmptyString))) = "x".
Proof. reflexivity. Qed.

Example already_exists_in :
  Py.str_in "already exists" " This cluster hpc already exists.  Not adding." = true
  ∧ Py.str_in "already exists" "Adding Cluster(s)" = false.
Proof. split; reflexivity. Qed.

Example discover_skips_disabled :
  discover Sample.env0 (custom_dirs_of Sample.env0 (Sample.host "controller"))
  = ["/slurm/custom_scripts/controller.d/a.sh"]
  ∧ timeout_key "/slurm/custom_scripts/nodeset.d/gpu/a.sh"
    = Some "compute_startup_scripts_timeout"
  ∧ timeout_key "/slurm/custom_scripts/compute.d/controller.d/a.sh"
    = Some "controller_startup_scripts_timeout".
Proof. repeat split; reflexivity. Qed.

(** ** Reasoning about programs of the monad *)

Lemma bind_ok {A B} (c : M A) (k : A → M B) w a w' :
  c w = (Ok a, w') → bind c k w = k a w'.
Proof. unfold bind. intros ->. reflexivity. Qed.

Lemma bind_raise {A B} (c : M A) (k : A → M B) w e w' :
  c w = (Raise e, w') → bind c k w = (Raise e, w').
Proof. unfold bind. intros ->. reflexivity. Qed.

Lemma for_each_app {A} (l1 l2 : list A) (body : A → M unit) w :
  for_each (l1 ++ l2) body w = (for_each l1 body ;; for_each l2 body) w.
Proof.
  revert w. induction l1 as [|x l1 IH]; intros w; simpl.
  - reflexivity.
  - unfold bind in *. destruct (body x w) as [[[]|e] w1]; [|reflexivity].
    apply IH.
Qed.

(** ** Strings *)

Lemma append_assoc (a b c : string) : (a +:+ b) +:+ c = a +:+ (b +:+ c).
Proof.
  induction a as [|x a IH]; [reflexivity|].
  change (String x ((a +:+ b) +:+ c) = String x (a +:+ (b +:+ c))). by rewrite IH.
Qed.

Lemma append_length (a b : string) :
  String.length (a +:+ b) = (String.length a + String.length b)%nat.
Proof.
  induction a as [|x a IH]; [reflexivity|].
  change (S (String.length (a +:+ b)) = S (String.length a + String.length b)).
  by rewrite IH.
Qed.

(** ** Links and files *)

(** Following the links asks for the links only. *)
Lemma follow_ext (n : nat) (v w : World) (p : string) :
  links v = links w → follow n v p = follow n w p.
Proof.
  intros H. revert p. induction n as [|n IH]; intros p; cbn [follow]; rewrite H.
  - reflexivity.
  - destruct (links w !! p); [apply IH|reflexivity].
Qed.

Lemma target_ext (v w : World) (p : string) :
  links v = links w → target v p = target w p.
Proof. intros H. unfold target. by rewrite (follow_ext 40 v w p H). Qed.

Lemma target_follow (w : World) (p q : string) :
  follow 40 w p = Some q → target w p = q.
Proof. unfold target. by intros ->. Qed.


(** A write that can be done puts the text in the file that the path
    stands for; one that cannot be done raises and changes nothing. *)
Lemma write_text_ok (p q s : string) (w : World) :
  open_w w p = Ok q → write_text p s w = (Ok tt, set_files (<[q := s]>) w).
Proof. unfold write_text. by intros ->. Qed.

Lemma write_text_raise (p s : string) (e : exn) (w : World) :
  open_w w p = Raise e → write_text p s w = (Raise e, w).
Proof. unfold write_text. by intros ->. Qed.

(** Whether a file can be written depends on the links, the directories
    and the files only. *)
Lemma open_w_ext (v w : World) (p : string) :
  links v = links w → folders v = folders w → files v = files w →
  open_w v p = open_w w p.
Proof.
  intros Hl Hd Hf. unfold open_w. rewrite (follow_ext 40 v w p Hl).
  destruct (follow 40 w p) as [q|]; [|reflexivity].
  rewrite (follow_ext 40 v w _ Hl), Hd, Hf. reflexivity.
Qed.

(** A file that was written can be written again. *)
Lemma open_w_written (p q s : string) (w : World) :
  open_w w p = Ok q → open_w (set_files (<[q := s]>) w) p = Ok q.
Proof.
  intros H.
  assert (Hf : ∀ x, follow 40 (set_files (<[q := s]>) w) x = follow 40 w x)
    by (intros x; by apply follow_ext).
  unfold open_w in *. rewrite Hf.
  destruct (follow 40 w p) as [t|]; [|discriminate].
  rewrite Hf.
  destruct (follow 40 w (Py.dirname t)) as [d|]; [|discriminate].
  cbn [folders set_files].
  destruct (bool_decide (d ∈ folders w)); [exact H|].
  destruct (bool_decide (is_Some (files w !! d))); discriminate.
Qed.

(** The directory of the service defaults. *)
Lemma update_system_config_run (file content : string) (w : World) :
  update_system_config file content w
  = (if path_exists w "/etc/sysconfig"
     then write_text ("/etc/sysconfig/" +:+ file) content
     else if path_exists w "/etc/default"
          then write_text ("/etc/default/" +:+ file) content
          else raise (Exception "Cannot determine system configuration directory.")) w.
Proof.
  unfold update_system_config, bind, get. cbv beta iota.
  destruct (path_exists w "/etc/sysconfig"); [reflexivity|].
  destruct (path_exists w "/etc/default"); reflexivity.
Qed.

(** ** Cluster registration *)

Section Registration.

Context (env : Env).

(** C4. Whatever the registration command returns, the registration step
    raises exactly when the return code is greater than 1 and the captured
    output does not contain "already exists"; the error raised is the one
    of the command.  An output with "already exists" is logged and the step
    returns, and in every other case it returns as well; nothing but the
    command and that log record is added to the world. *)
Theorem add_cluster_escalates (w : World) (r : CompletedProcess) :
  exec env (calls w) (add_cluster_call env w) = Exited r →
  let w1 := set_calls (fun h => h ++ [add_cluster_call env w]) w in
  ((∃ e, (add_cluster env w).1 = Raise e)
   ↔ (1 < returncode r ∧ Py.str_in "already exists" (stdout r) = false))
  ∧ (Py.str_in "already exists" (stdout r) = true →
     add_cluster env w = (Ok tt, set_log (fun l => l ++ [(INFO, stdout r)]) w1))
  ∧ (Py.str_in "already exists" (stdout r) = false → returncode r ≤ 1 →
     add_cluster env w = (Ok tt, w1))
  ∧ (Py.str_in "already exists" (stdout r) = false → 1 < returncode r →
     add_cluster env w =
     (Raise (CalledProcessError (returncode r) (add_cluster_cmd env w) (stdout r) (stderr r)), w1)).
Proof.
  intros Hexec w1.
  assert (Hrun : add_cluster env w =
                 (if Py.str_in "already exists" (stdout r)
                  then log_at INFO (stdout r)
                  else if 1 <? returncode r
                       then check_returncode (add_cluster_cmd env w) r
                       else ret tt) w1).
  { unfold add_cluster, bind, lookup, run. 
    change (mkCall _ (Some 30) false false) with (add_cluster_call env w).
    rewrite Hexec. reflexivity. }
  rewrite Hrun. clear Hrun.
  destruct (Py.str_in "already exists" (stdout r)) eqn:Hin.
  - split; [split|].
    + intros [e He]. discriminate He.
    + intros [_ ?]. discriminate.
    + split; [done|]. split; intros ?; discriminate.
  - destruct (Z.ltb_spec 1 (returncode r)) as [Hgt|Hle].
    + assert (Hnz : (returncode r =? 0) = false) by (apply Z.eqb_neq; lia).
      unfold check_returncode. rewrite Hnz.
      split; [split|].
      * intros _. done.
      * intros _. eauto.
      * split; [intros ?; discriminate|]. split; [intros _ ?; lia|done].
    + split; [split|].
      * intros [e He]. discriminate He.
      * intros [? _]. lia.
      * split; [intros ?; discriminate|]. split; [done|intros _ ?; lia].
Qed.

End Registration.

(** At a sample controller whose registration command answers with status 1
    and "already exists", the step returns. *)
Lemma add_cluster_escalates_witness :
  let env := Sample.env_of Sample.already Sample.ready Sample.no_metadata in
  let w := Sample.world0 "controller" in
  exec env (calls w) (add_cluster_call env w) = Exited Sample.exists_reply
  ∧ (add_cluster env w).1 = Ok tt.
Proof.
  intros env w. split; [reflexivity|].
  destruct (add_cluster_escalates env w Sample.exists_reply eq_refl) as (_ & H & _).
  rewrite (H eq_refl). reflexivity.
Defined.

(** ** Timeouts of the hook scripts *)

Section Timeouts.

Context (env : Env).

Lemma effective_timeout_pos (v : Z) : 0 < v → effective_timeout v = Some v.
Proof.
  intros Hv. unfold effective_timeout.
  destruct (Z.eqb_spec v 0); [lia|]. destruct (Z.ltb_spec v 0); [lia|]. reflexivity.
Qed.

Lemma effective_timeout_nonpos (v : Z) : v ≤ 0 → effective_timeout v = None.
Proof.
  intros Hv. unfold effective_timeout.
  destruct (Z.eqb_spec v 0); [reflexivity|]. destruct (Z.ltb_spec v 0); [reflexivity|lia].
Qed.

(** What one turn of the loop does: the record of the start, the call with
    the timeout of the script, and then by the outcome of the command. *)
Lemma run_script_unfold (script : string) (w : World) :
  let c := cfg (lkp w) in
  let timeout := script_timeout c script in
  let w1 := set_calls (fun h => h ++ [script_call c script])
              (set_log (fun l => l ++ [(INFO, "running script " +:+ Py.name script
                                              +:+ " with timeout=" +:+ Py.str_opt timeout)]) w) in
  ∃ w', run_script env script w =
        (match script_error c script (exec env (calls w) (script_call c script)) with
         | None => Ok tt
         | Some e => Raise e
         end, w')
        ∧ calls w' = calls w1 ∧ lkp w' = lkp w ∧ files w' = files w
        ∧ links w' = links w ∧ owner w' = owner w
        ∧ ∃ more, log w' = log w1 ++ more.
Proof.
  intros c timeout w1.
  unfold run_script, try_except, bind, lookup, log_at, modify, run, check_returncode, raise, ret.
  cbn [fst snd calls lkp set_log set_calls log].
  fold c. fold timeout. change (mkCall script timeout false true) with (script_call c script).
  destruct (exec env (calls w) (script_call c script)) as [r|out err|] eqn:Hx; cbn.
  - destruct (returncode r =? 0) eqn:Hrc; cbn;
      (eexists; split; [reflexivity|]; cbn; repeat split; try reflexivity; eexists; rewrite <- ?app_assoc; reflexivity).
  - eexists; split; [reflexivity|]; cbn; repeat split; try reflexivity; eexists; rewrite <- ?app_assoc; reflexivity.
  - eexists; split; [reflexivity|]; cbn; repeat split; try reflexivity; eexists; rewrite <- ?app_assoc; reflexivity.
Qed.

Lemma prefix_append (n b : string) : String.prefix n (n +:+ b) = true.
Proof.
  induction n as [|c n IH]; [by destruct b|].
  change (String c n +:+ b) with (String c (n +:+ b)).
  simpl. destruct (Ascii.ascii_dec c c); [exact IH|contradiction].
Qed.

Lemma str_in_prefix (n s : string) : String.prefix n s = true → Py.str_in n s = true.
Proof. intros H. destruct s; cbn [Py.str_in]; rewrite H; reflexivity. Qed.

Lemma str_in_append (n a b : string) : Py.str_in n (a +:+ n +:+ b) = true.
Proof.
  induction a as [|c a IH].
  - apply str_in_prefix. exact (prefix_append n b).
  - change (String c a +:+ n +:+ b) with (String c (a +:+ n +:+ b)).
    cbn [Py.str_in]. rewrite IH. apply orb_true_r.
Qed.

(** A path with the marker of the controller scripts selects their key,
    wherever the marker is. *)
Lemma timeout_key_controller (script : string) :
  Py.str_in "/controller.d/" script = true →
  timeout_key script = Some "controller_startup_scripts_timeout".
Proof. unfold timeout_key. by intros ->. Qed.

(** What the code does with the value under a key is what the
    specification says. *)
Lemma effective_timeout_by_spec (c : Cfg) (key : string) :
  effective_timeout (cfg_get c key 300) = timeout_by_spec c key.
Proof.
  unfold cfg_get, timeout_by_spec. destruct (cfg_dict c !! key) as [v|]; [|reflexivity].
  destruct (Z.ltb_spec 0 v) as [Hv|Hv].
  - by apply effective_timeout_pos.
  - by apply effective_timeout_nonpos.
Qed.

Lemma script_timeout_of_key (c : Cfg) (script key : string) :
  timeout_key script = Some key → script_timeout c script = timeout_by_spec c key.
Proof.
  intros Hk. unfold script_timeout, configured_timeout. rewrite Hk.
  apply effective_timeout_by_spec.
Qed.

(** C5, as the code has it.  The category of a script is read off its
    path, by the first of the markers [/controller.d/], [/compute.d/] or
    [/nodeset.d/], [/login.d/] that is found anywhere in it.  So a script
    below [controller.d] is run under the timeout of the controller key; a
    script below [compute.d] or [nodeset.d] under that of the compute key,
    and a script below [login.d] under that of the login key, as long as no
    marker that is looked for earlier is in their path; a path with the
    marker of the controller has the timeout of the controller key whatever
    directory it was found below.  The timeout under a key is resolved as
    the specification says (the positive value, none for zero or less, 300
    seconds when unset), as it is 300 seconds for a path with no marker, and
    the command of the script is run with exactly that timeout. *)
Theorem script_timeout_precedence (c : Cfg) (custom_dir rest : string) :
  let below (category : string) :=
    custom_dir +:+ "/" +:+ category +:+ "/" +:+ rest in
  script_timeout c (below "controller.d")
  = timeout_by_spec c "controller_startup_scripts_timeout"
  ∧ (Py.str_in "/controller.d/" (below "compute.d") = false →
     script_timeout c (below "compute.d")
     = timeout_by_spec c "compute_startup_scripts_timeout")
  ∧ (Py.str_in "/controller.d/" (below "nodeset.d") = false →
     script_timeout c (below "nodeset.d")
     = timeout_by_spec c "compute_startup_scripts_timeout")
  ∧ (Py.str_in "/controller.d/" (below "login.d") = false →
     Py.str_in "/compute.d/" (below "login.d") = false →
     Py.str_in "/nodeset.d/" (below "login.d") = false →
     script_timeout c (below "login.d")
     = timeout_by_spec c "login_startup_scripts_timeout")
  ∧ (∀ script, Py.str_in "/controller.d/" script = true →
               script_timeout c script
               = timeout_by_spec c "controller_startup_scripts_timeout")
  ∧ (∀ script, Py.str_in "/controller.d/" script = false →
               Py.str_in "/compute.d/" script = false →
               Py.str_in "/nodeset.d/" script = false →
               Py.str_in "/login.d/" script = false →
               script_timeout c script = Some 300)
  ∧ (∀ script w, cfg (lkp w) = c →
                 calls (run_script env script w).2
                 = calls w ++ [mkCall script (script_timeout c script) false true]).
Proof.
  intros below.
  assert (Hin : ∀ category, Py.str_in ("/" +:+ category +:+ "/") (below category) = true).
  { intros category. subst below. cbv beta.
    pose proof (str_in_append ("/" +:+ category +:+ "/") custom_dir rest) as H.
    rewrite ?append_assoc in H. rewrite ?append_assoc. exact H. }
  split; [|split; [|split; [|split; [|split; [|split]]]]].
  - apply script_timeout_of_key, timeout_key_controller. exact (Hin "controller.d").
  - intros Hc. apply script_timeout_of_key. unfold timeout_key.
    rewrite Hc. change "/compute.d/" with ("/" +:+ "compute.d" +:+ "/").
    by rewrite (Hin "compute.d").
  - intros Hc. apply script_timeout_of_key. unfold timeout_key.
    rewrite Hc. change "/nodeset.d/" with ("/" +:+ "nodeset.d" +:+ "/").
    rewrite (Hin "nodeset.d"). by rewrite orb_true_r.
  - intros Hc Hcomp Hn. apply script_timeout_of_key. unfold timeout_key.
    rewrite Hc, Hcomp, Hn. change "/login.d/" with ("/" +:+ "login.d" +:+ "/").
    by rewrite (Hin "login.d").
  - intros script Hc. by apply script_timeout_of_key, timeout_key_controller.
  - intros script Hc Hcomp Hn Hl. unfold script_timeout, configured_timeout, timeout_key.
    rewrite Hc, Hcomp, Hn, Hl. reflexivity.
  - intros script w <-. destruct (run_script_unfold script w) as (w' & -> & Hc & _).
    cbn. rewrite Hc. reflexivity.
Qed.

End Timeouts.

(** With 600 configured for the controller scripts, 0 for the compute
    scripts and nothing for the login scripts: a script of the controller
    has 600 seconds, a script of a compute node or of a nodeset has no
    timeout, and a script of a login node has 300 seconds. *)
Lemma script_timeout_precedence_witness :
  script_timeout Sample.cfg0 "/slurm/custom_scripts/controller.d/a.sh" = Some 600
  ∧ script_timeout Sample.cfg0 "/slurm/custom_scripts/compute.d/a.sh" = None
  ∧ script_timeout Sample.cfg0 "/slurm/custom_scripts/nodeset.d/a.sh" = None
  ∧ script_timeout Sample.cfg0 "/slurm/custom_scripts/login.d/a.sh" = Some 300.
Proof.
  destruct (script_timeout_precedence Sample.env0 Sample.cfg0 "/slurm/custom_scripts" "a.sh")
    as (Hc & Hcomp & Hn & Hl & _).
  split; [exact Hc|]. split; [exact (Hcomp eq_refl)|]. split; [exact (Hn eq_refl)|].
  exact (Hl eq_refl eq_refl eq_refl).
Defined.

(** C5 as it is stated does not hold: the timeout is not always the one of
    the category of the script.  On a compute node with a directory
    [controller.d] below [compute.d], the script in it is found as a script
    of the category compute, for which 0 is configured (no timeout), and it
    is run with the 600 seconds of the controller scripts. *)
Lemma nested_script_takes_controller_timeout :
  let env := Sample2.env_nested in
  let w := Sample.world0 "compute" in
  let script := "/slurm/custom_scripts/compute.d/controller.d/a.sh" in
  custom_dirs_of env (lkp w)
  = ["/slurm/custom_scripts/compute.d"; "/slurm/custom_scripts/nodeset.d"]
  ∧ discover env (custom_dirs_of env (lkp w)) = [script]
  ∧ timeout_by_spec (cfg (lkp w)) "compute_startup_scripts_timeout" = None
  ∧ script_timeout (cfg (lkp w)) script = Some 600
  ∧ calls (run_custom_scripts env w).2 = [mkCall script (Some 600) false true].
Proof. cbv zeta. repeat split; vm_compute; reflexivity. Qed.

(** ** The pipeline of the hook scripts *)

Section Pipeline.

Context (env : Env).

(** When every script exits with status 0, all of them are run, in the
    order of the list. *)
Lemma run_scripts_all_ok (l : list string) (w : World) :
  scripts_ok env (calls w) (cfg (lkp w)) l →
  ∃ w', run_scripts env l w = (Ok tt, w')
        ∧ calls w' = calls w ++ map (script_call (cfg (lkp w))) l
        ∧ lkp w' = lkp w.
Proof.
  revert w. induction l as [|s l IH]; intros w Hok.
  - exists w. cbn. rewrite app_nil_r. done.
  - destruct Hok as [Hs Hl].
    destruct (run_script_unfold env s w) as (w1 & Hrun & Hc & Hk & _).
    rewrite Hs in Hrun. cbn in Hc.
    destruct (IH w1) as (w' & Hrest & Hc' & Hk').
    { rewrite Hk, Hc. exact Hl. }
    exists w'. split; [|split].
    + unfold run_scripts in *. cbn. unfold bind. rewrite Hrun. exact Hrest.
    + rewrite Hc', Hc, Hk. cbn. rewrite <- app_assoc. reflexivity.
    + congruence.
Qed.

(** C6. The hook scripts are run one after the other in the order of the
    list.  When the scripts before [s] exit with status 0 and [s] cannot be
    started, runs out of time or exits with a non-zero status, the run
    raises the error of [s], and the commands run are those of the scripts
    before [s] and of [s], in order: none of the scripts after [s] is
    run. *)
Theorem run_scripts_fail_fast (pre post : list string) (s : string) (e : exn) (w : World) :
  let c := cfg (lkp w) in
  scripts_ok env (calls w) c pre →
  script_error c s (exec env (calls w ++ map (script_call c) pre) (script_call c s)) = Some e →
  (∃ w1, run_scripts env pre w = (Ok tt, w1)
         ∧ calls w1 = calls w ++ map (script_call c) pre)
  ∧ (∃ w', run_scripts env (pre ++ s :: post) w = (Raise e, w')
           ∧ calls w' = calls w ++ map (script_call c) pre ++ [script_call c s]).
Proof.
  intros c Hpre Hs.
  destruct (run_scripts_all_ok pre w Hpre) as (w1 & Hrun & Hc & Hk).
  split; [eauto|].
  destruct (run_script_unfold env s w1) as (w2 & Hrun2 & Hc2 & _).
  rewrite Hk, Hc in Hrun2. fold c in Hrun2. rewrite Hs in Hrun2.
  exists w2. split.
  - unfold run_scripts in *. rewrite for_each_app. unfold bind at 1. rewrite Hrun.
    cbn. unfold bind. rewrite Hrun2. reflexivity.
  - rewrite Hc2. cbn. rewrite Hc, Hk. fold c. rewrite <- app_assoc. reflexivity.
Qed.

End Pipeline.

(** Three hook scripts of which the second exits with status 3: the run
    raises its error and the third script is not run. *)
Lemma run_scripts_fail_fast_witness :
  let env := Sample.env_of Sample.second_fails Sample.ready Sample.no_metadata in
  let w := Sample.world0 "controller" in
  ∃ w', run_scripts env Sample.hooks w
        = (Raise (CalledProcessError 3 "/slurm/custom_scripts/controller.d/b.sh"
                                     EmptyString "boom"), w')
        ∧ map c_cmd (calls w') = ["/slurm/custom_scripts/controller.d/a.sh";
                                  "/slurm/custom_scripts/controller.d/b.sh"].
Proof.
  intros env w.
  destruct (run_scripts_fail_fast env
              ["/slurm/custom_scripts/controller.d/a.sh"]
              ["/slurm/custom_scripts/controller.d/c.sh"]
              "/slurm/custom_scripts/controller.d/b.sh"
              (CalledProcessError 3 "/slurm/custom_scripts/controller.d/b.sh"
                                  EmptyString "boom") w)
    as (_ & w' & Hrun & Hcalls).
  - split; [reflexivity|exact I].
  - reflexivity.
  - exists w'. split; [exact Hrun|]. rewrite Hcalls. reflexivity.
Defined.

(** ** The options of slurmd *)

Section SlurmdOptions.

Context (env : Env).

(** With a value of the attribute, the two options of the feature follow
    the server option. *)
Lemma slurmd_feature_given (w w1 : World) (feature : string) :
  instance_metadata env "attributes/slurmd_feature" w = (Ok feature, w1) →
  slurmd_options_of env w
  = (Ok [conf_server (lkp w);
         "--conf=" +:+ Py.dq +:+ "Feature=" +:+ feature +:+ Py.dq;
         "-Z"], w1).
Proof.
  intros Hmd. unfold slurmd_options_of, bind, lookup, try_except, ret. cbn.
  rewrite Hmd. reflexivity.
Qed.

(** When fetching the attribute raises, the options are the server option
    alone. *)
Lemma slurmd_feature_raises (w w1 : World) (e : exn) :
  instance_metadata env "attributes/slurmd_feature" w = (Raise e, w1) →
  slurmd_options_of env w = (Ok [conf_server (lkp w)], w1).
Proof.
  intros Hmd. unfold slurmd_options_of, bind, lookup, try_except, ret. cbn.
  rewrite Hmd. reflexivity.
Qed.

(** C10. On a compute node whose steps before the options have returned,
    when fetching the attribute [slurmd_feature] raises, whatever the
    exception, the setup does not raise for it: it goes on, from the world
    that the failed fetch leaves, with writing the service environment and
    with the steps after it.  The line written is the assignment of the
    server option alone, without the feature option and without [-Z]: where
    the file of the service can be written, below [/etc/sysconfig] or, when
    that is not there, below [/etc/default], the setup continues with
    exactly that line in the file.  With a value of the attribute, the line
    written has the two options of the feature after the server option. *)
Theorem slurmd_feature_error_swallowed (w w1 w2 : World) (e : exn) :
  let line := "SLURMD_OPTIONS='" +:+ conf_server (lkp w1) +:+ "'" in
  compute_identity env w = (Ok tt, w1) →
  instance_metadata env "attributes/slurmd_feature" w1 = (Raise e, w2) →
  setup_compute env w
  = (update_system_config "slurmd" line ;; compute_services env) w2
  ∧ (∀ q, path_exists w2 "/etc/sysconfig" = true →
          open_w w2 "/etc/sysconfig/slurmd" = Ok q →
          setup_compute env w = compute_services env (set_files (<[q := line]>) w2))
  ∧ (∀ q, path_exists w2 "/etc/sysconfig" = false →
          path_exists w2 "/etc/default" = true →
          open_w w2 "/etc/default/slurmd" = Ok q →
          setup_compute env w = compute_services env (set_files (<[q := line]>) w2))
  ∧ (∀ v v' feature,
       instance_metadata env "attributes/slurmd_feature" v = (Ok feature, v') →
       slurmd_options_of env v
       = (Ok [conf_server (lkp v);
              "--conf=" +:+ Py.dq +:+ "Feature=" +:+ feature +:+ Py.dq;
              "-Z"], v')).
Proof.
  intros line Hid Hmd.
  assert (Hrun : setup_compute env w
                 = (update_system_config "slurmd" line ;; compute_services env) w2).
  { unfold setup_compute. rewrite (bind_ok _ _ _ _ _ Hid). cbv beta.
    rewrite (bind_ok _ _ _ _ _ (slurmd_feature_raises w1 w2 e Hmd)). reflexivity. }
  split; [exact Hrun|]. split; [|split].
  - intros q Hex Hq. rewrite Hrun. unfold bind.
    rewrite update_system_config_run, Hex, (write_text_ok _ q _ _ Hq). reflexivity.
  - intros q Hex Hex' Hq. rewrite Hrun. unfold bind.
    rewrite update_system_config_run, Hex, Hex', (write_text_ok _ q _ _ Hq). reflexivity.
  - intros v v' feature Hv. exact (slurmd_feature_given v v' feature Hv).
Qed.

End SlurmdOptions.

(** A compute node whose metadata server raises on every key: the setup
    runs to its end, and the service environment of [slurmd] holds the
    server option alone. *)
Lemma slurmd_feature_error_swallowed_witness :
  let run := setup_compute Sample.env0 Sample2.world_compute in
  run.1 = Ok tt
  ∧ files run.2 !! "/etc/sysconfig/slurmd"
    = Some ("SLURMD_OPTIONS='--conf-server=" +:+ Py.dq +:+ "ctl0:6820" +:+ Py.dq +:+ "'")
  ∧ last (log run.2) = Some (INFO, "Done setting up compute").
Proof.
  cbv zeta.
  destruct (compute_identity Sample.env0 Sample2.world_compute)
    as [[[]|e] w1] eqn:Hid; try (vm_compute in Hid; discriminate Hid).
  destruct (slurmd_feature_error_swallowed Sample.env0 Sample2.world_compute w1 w1
              (Exception "attributes/slurmd_feature") Hid eq_refl) as (_ & H & _).
  rewrite (H "/etc/sysconfig/slurmd");
    try (vm_compute in Hid; inversion Hid; vm_compute; reflexivity).
  vm_compute in Hid. inversion Hid. vm_compute. repeat split; reflexivity.
Defined.

(** ** Acquiring the configuration *)

Section Acquire.

Context (env : Env).

Lemma get_config_except_record (e : exn) (w : World) :
  get_config_except 5 e w = (Ok tt, set_log (fun l => l ++ [retry_record e]) w).
Proof. destruct e; reflexivity. Qed.

(** The loop, on a store that raises [es] in turn and then answers [c]. *)
Lemma get_config_loop_retries (bucket : option string) (es : list exn) (c : Cfg) :
  ∀ (fuel : nat) (w : World),
    (∀ i e, es !! i = Some e → fetch_config env (fetches w + i)%nat bucket = Raise e) →
    fetch_config env (fetches w + length es)%nat bucket = Ok c →
    (length es < fuel)%nat →
    ∃ w', get_config_loop env fuel bucket 5 w = Some (Ok tt, w')
          ∧ sleeps w' = sleeps w ++ replicate (length es) 5
          ∧ cfg (lkp w') = c
          ∧ fetches w' = (fetches w + S (length es))%nat
          ∧ log w' = log w ++ map retry_record es
          ∧ hybrid_setup (lkp w') = (if bucket is Some _ then true else hybrid_setup (lkp w))
          ∧ calls w' = calls w ∧ files w' = files w.
Proof.
  induction es as [|e es IH]; intros fuel w Hes Hc Hfuel.
  - destruct fuel as [|fuel]; [cbn in Hfuel; lia|].
    cbn [length] in Hc. rewrite Nat.add_0_r in Hc.
    cbn [get_config_loop]. unfold get_config_try, fetch, bind. rewrite Hc.
    destruct bucket; cbn; (eexists; split; [reflexivity|]);
      cbn; rewrite ?app_nil_r; repeat split; try reflexivity; lia.
  - destruct fuel as [|fuel]; [cbn in Hfuel; lia|].
    assert (He : fetch_config env (fetches w) bucket = Raise e).
    { rewrite <- (Nat.add_0_r (fetches w)). apply Hes. reflexivity. }
    cbn [get_config_loop]. unfold get_config_try at 1, fetch at 1, bind at 1. rewrite He.
    unfold bind. rewrite get_config_except_record. cbn [sleep modify].
    set (w2 := set_sleeps _ _).
    destruct (IH fuel w2) as (w' & Hrun & Hsl & Hcfg & Hf & Hlog & Hhy & Hcalls & Hfiles).
    + intros i e' Hi. subst w2. cbn [fetches set_sleeps set_log set_fetches].
      replace (S (fetches w) + i)%nat with (fetches w + S i)%nat by lia.
      apply Hes. exact Hi.
    + subst w2. cbn [fetches set_sleeps set_log set_fetches].
      replace (S (fetches w) + length es)%nat with (fetches w + length (e :: es))%nat
        by (cbn; lia).
      exact Hc.
    + cbn in Hfuel. lia.
    + exists w'. split; [exact Hrun|].
      subst w2. cbn in *. rewrite Hsl, Hf, Hlog, Hhy, <- !app_assoc.
      repeat split; try done; lia.
Qed.

(** C7. On a store that raises [es], one exception for each of the first
    attempts, and then yields the configuration [c], the acquirer does not
    raise and returns once there is fuel for one more turn than failures;
    it has slept 5 seconds once for each failed attempt and not after the
    successful one, has logged one record for each failure (a warning for a
    configuration that is not ready, an error otherwise) and the final
    record, and [c] is the active configuration when it returns. *)
Theorem get_config_retries (bucket : option string) (es : list exn) (c : Cfg)
    (fuel : nat) (w : World) :
  (∀ i e, es !! i = Some e → fetch_config env (fetches w + i)%nat bucket = Raise e) →
  fetch_config env (fetches w + length es)%nat bucket = Ok c →
  (length es < fuel)%nat →
  ∃ w', get_config env fuel bucket w = Some (Ok tt, w')
        ∧ sleeps w' = sleeps w ++ replicate (length es) 5
        ∧ cfg (lkp w') = c
        ∧ fetches w' = (fetches w + S (length es))%nat
        ∧ log w' = log w ++ map retry_record es ++ [(INFO, "Config fetched")]
        ∧ calls w' = calls w.
Proof.
  intros Hes Hc Hfuel.
  destruct (get_config_loop_retries bucket es c fuel w Hes Hc Hfuel)
    as (w1 & Hrun & Hsl & Hcfg & Hf & Hlog & _ & Hcalls & _).
  unfold get_config, bindP. rewrite Hrun. unfold lift.
  eexists. split; [reflexivity|].
  cbn. rewrite Hlog, <- app_assoc. done.
Qed.

End Acquire.

(** A store that is not ready twice and then succeeds: two sleeps of 5
    seconds, two warnings, and the configuration installed. *)
Lemma get_config_retries_witness :
  let env := Sample.env_of Sample.all_done Sample.not_ready_twice Sample.no_metadata in
  ∃ w', get_config env 3 None (Sample.world0 "compute") = Some (Ok tt, w')
        ∧ sleeps w' = [5; 5]
        ∧ cfg (lkp w') = Sample.cfg0
        ∧ map fst (log w') = [WARNING; WARNING; INFO].
Proof.
  intros env.
  destruct (get_config_retries env None
              [DeffetiveStoredConfigError "config.yaml is empty";
               DeffetiveStoredConfigError "config.yaml is empty"]
              Sample.cfg0 3 (Sample.world0 "compute"))
    as (w' & Hrun & Hsl & Hcfg & _ & Hlog & _).
  - intros [|[|i]] e H; cbn in H; inversion H; reflexivity.
  - reflexivity.
  - cbn. lia.
  - exists w'. rewrite Hsl, Hlog. repeat split; try assumption; reflexivity.
Defined.

(** ** Recursive ownership remapping *)

Section TreeInduction.

Variable Q : tree → Prop.
Hypothesis Q_file : ∀ n, Q (File n).
Hypothesis Q_dir : ∀ n children, Forall Q children → Q (Dir n children).

Lemma tree_nested_ind : ∀ t, Q t.
Proof.
  fix IH 1. intros [n|n children].
  - apply Q_file.
  - apply Q_dir. induction children as [|c children IHc]; constructor.
    + apply IH.
    + exact IHc.
Qed.

End TreeInduction.

Lemma for_each_ext {A} (l : list A) (f g : A → M unit) :
  (∀ x w, f x w = g x w) → ∀ w, for_each l f w = for_each l g w.
Proof.
  intros Hfg. induction l as [|x l IH]; intros w; cbn; [reflexivity|].
  unfold bind. rewrite Hfg. destruct (g x w) as [[[]|e] w1]; [apply IH|reflexivity].
Qed.

Lemma for_each_map {A B} (h : A → B) (l : list A) (body : B → M unit) :
  ∀ w, for_each (map h l) body w = for_each l (fun x => body (h x)) w.
Proof.
  induction l as [|x l IH]; intros w; cbn; [reflexivity|].
  unfold bind. destruct (body (h x) w) as [[[]|e] w1]; [apply IH|reflexivity].
Qed.

Lemma for_each_flat_map {A B} (h : A → list B) (l : list A) (body : B → M unit) :
  ∀ w, for_each (flat_map h l) body w = for_each l (fun x => for_each (h x) body) w.
Proof.
  induction l as [|x l IH]; intros w; cbn; [reflexivity|].
  rewrite for_each_app. unfold bind.
  destruct (for_each (h x) body w) as [[[]|e] w1]; [apply IH|reflexivity].
Qed.

Section Remap.

Context (env : Env) (uid gid previous_uid previous_gid : Z).

#[local] Abbreviation f := (remap uid gid previous_uid previous_gid).
#[local] Abbreviation chown1 := (fun p => _my_chown p uid gid previous_uid previous_gid).

(** Applying the remap twice gives what applying it once gives. *)
Lemma remap_idemp (st : Z * Z) : f (f st) = f st.
Proof.
  destruct st as [u g]. unfold remap. cbn [fst snd].
  f_equal.
  - destruct (previous_uid =? -1) eqn:Hn; cbn; [reflexivity|].
    destruct (Z.eqb_spec u previous_uid) as [->|Hne].
    + destruct (uid =? previous_uid); reflexivity.
    + destruct (Z.eqb_spec u previous_uid); [contradiction|reflexivity].
  - destruct (previous_gid =? -1) eqn:Hn; cbn; [reflexivity|].
    destruct (Z.eqb_spec g previous_gid) as [->|Hne].
    + destruct (gid =? previous_gid); reflexivity.
    + destruct (Z.eqb_spec g previous_gid); [contradiction|reflexivity].
Qed.


Lemma with_owner_id (w : World) : with_owner (owner w) w = w.
Proof. destruct w. reflexivity. Qed.


(** What [stat] answers, in terms of the ownership table. *)
Lemma stat_ok (p q : string) (st : Z * Z) (w : World) :
  follow 40 w p = Some q → owner w !! q = Some st → stat p w = (Ok st, w).
Proof. intros Hq Hst. unfold stat. by rewrite Hq, Hst. Qed.


Lemma id_in_range_id (id : Z) : is_id id → id_in_range id = true ∧ id_kept id = false.
Proof.
  unfold is_id, id_in_range, id_kept. intros H. split.
  - apply andb_true_iff. split; apply Z.leb_le; lia.
  - apply orb_false_iff. split; apply Z.eqb_neq; lia.
Qed.

(** One call of [_my_chown] on a path that can be examined: what the path
    stands for is remapped. *)
Lemma my_chown_remaps (p q : string) (st : Z * Z) (w : World) :
  is_id uid → is_id gid → follow 40 w p = Some q → owner w !! q = Some st →
  _my_chown p uid gid previous_uid previous_gid w
  = (Ok tt, with_owner (<[q := f st]> (owner w)) w).
Proof.
  intros Hu Hg Hq Hst. destruct st as [u g].
  destruct (id_in_range_id uid Hu) as [Ru Ku]. destruct (id_in_range_id gid Hg) as [Rg Kg].
  assert (Hu' : (uid =? -1) = false) by (apply Z.eqb_neq; unfold is_id in Hu; lia).
  assert (Hg' : (gid =? -1) = false) by (apply Z.eqb_neq; unfold is_id in Hg; lia).
  assert (Rm : id_in_range (-1) = true) by reflexivity.
  assert (Km : id_kept (-1) = true) by reflexivity.
  unfold _my_chown, bind. rewrite (stat_ok p q (u, g) w Hq Hst). cbn [fst snd].
  unfold remap. cbn [fst snd].
  destruct ((previous_uid =? -1) || (u =? previous_uid)) eqn:Gu;
    destruct ((previous_gid =? -1) || (g =? previous_gid)) eqn:Gg;
    rewrite ?Hu', ?Hg', ?Z.eqb_refl; cbn [negb orb]; unfold os_chown;
    rewrite ?Ru, ?Rg, ?Rm; cbn [negb]; rewrite ?Hq, ?Hst, ?Ku, ?Kg, ?Km;
    try reflexivity.
  unfold ret. rewrite insert_id by exact Hst. rewrite with_owner_id. reflexivity.
Qed.

(** A sequence of calls of [_my_chown] on paths that can be examined: what
    the paths of the sequence stand for ends remapped, and every other
    entry of the ownership table is as before. *)
Lemma chown_all (ps : list string) :
  is_id uid → is_id gid →
  ∀ w, (∀ p, p ∈ ps → examinable w p) →
       ∃ o', for_each ps chown1 w = (Ok tt, with_owner o' w)
             ∧ ∀ q, o' !! q = if decide (q ∈ targets w ps) then f <$> owner w !! q
                              else owner w !! q.
Proof.
  intros Hu Hg. induction ps as [|p ps IH]; intros w Hall.
  - exists (owner w). cbn. rewrite with_owner_id. split; [reflexivity|].
    intros q. destruct (decide (q ∈ [])) as [Hin|]; [|reflexivity].
    by apply elem_of_nil in Hin.
  - destruct (Hall p) as (t & Ht & [st Hst]); [apply elem_of_cons; by left|].
    pose proof (my_chown_remaps p t st w Hu Hg Ht Hst) as Hp.
    set (w1 := with_owner (<[t := f st]> (owner w)) w) in *.
    assert (Htg : targets w1 ps = targets w ps).
    { unfold targets. apply map_ext. intros x. by apply target_ext. }
    destruct (IH w1) as (o' & Hrun & Ho').
    { intros x Hx. destruct (Hall x) as (q & Hq & Hs); [apply elem_of_cons; by right|].
      exists q. split; [by rewrite (follow_ext 40 w1 w x)|].
      subst w1. cbn. destruct (decide (t = q)) as [->|Hne].
      - rewrite lookup_insert_eq. eauto.
      - by rewrite lookup_insert_ne. }
    exists o'. split.
    + cbn [for_each]. unfold bind. rewrite Hp. rewrite Hrun. reflexivity.
    + intros q. rewrite Ho', Htg. subst w1. cbn [owner with_owner set_owner].
      change (targets w (p :: ps)) with (target w p :: targets w ps).
      rewrite (target_follow w p t Ht).
      destruct (decide (t = q)) as [->|Hne].
      * rewrite lookup_insert_eq, Hst. cbn.
        destruct (decide (q ∈ q :: targets w ps)) as [_|Hn];
          [|exfalso; apply Hn, elem_of_cons; by left].
        destruct (decide (q ∈ targets w ps)); [by rewrite remap_idemp|reflexivity].
      * rewrite lookup_insert_ne by done.
        destruct (decide (q ∈ targets w ps)) as [Hin|Hin];
          destruct (decide (q ∈ t :: targets w ps)) as [Hin'|Hin']; try reflexivity.
        -- exfalso. apply Hin', elem_of_cons. by right.
        -- exfalso. apply elem_of_cons in Hin' as [->|?]; [by apply Hne|by apply Hin].
Qed.

End Remap.

Section Walk.

Context (env : Env).




(** The two nested loops of [recursive_chown] are one loop on the paths. *)
Lemma recursive_chown_flat (path : string) (uid gid previous_uid previous_gid : Z) (w : World) :
  recursive_chown env path uid gid previous_uid previous_gid w
  = for_each (chown_paths env path)
             (fun p => _my_chown p uid gid previous_uid previous_gid) w.
Proof.
  unfold recursive_chown, chown_paths. cbn [for_each]. unfold bind.
  destruct (_my_chown path uid gid previous_uid previous_gid w) as [[[]|e] w1];
    [|reflexivity].
  rewrite for_each_flat_map. apply for_each_ext.
  intros [[root dirs] files] w2. unfold triple_paths.
  rewrite for_each_app. unfold bind. rewrite for_each_map.
  destruct (for_each dirs _ w2) as [[[]|e] w3]; [|reflexivity].
  rewrite for_each_map. reflexivity.
Qed.




End Walk.


(** ** Hybrid identity migration *)


Section Migration.

Context (env : Env).

Lemma run_ok (cmd : string) (timeout : option Z) (check shell : bool)
    (r : CompletedProcess) (w : World) :
  exec env (calls w) (mkCall cmd timeout check shell) = Exited r →
  returncode r = 0 →
  run env cmd timeout check shell w
  = (Ok r, set_calls (fun h => h ++ [mkCall cmd timeout check shell]) w).
Proof.
  intros Hx Hr. unfold run. rewrite Hx, Hr. cbn. rewrite andb_false_r. reflexivity.
Qed.










End Migration.



(** ** The mount table *)

Section MountTable.

Context (env : Env).

Lemma readlines_cons (c : ascii) (s : string) :
  Py.readlines (String c s)
  = if Ascii.eqb c Py.LF then String Py.LF EmptyString :: Py.readlines s
    else if Ascii.eqb c Py.CR then
      match s with
      | String c' s'' =>
          if Ascii.eqb c' Py.LF then String Py.LF EmptyString :: Py.readlines s''
          else String Py.LF EmptyString :: Py.readlines s
      | EmptyString => [String Py.LF EmptyString]
      end
    else
      match Py.readlines s with
      | [] => [String c EmptyString]
      | l :: ls => String c l :: ls
      end.
Proof. reflexivity. Qed.

Lemma append_cons (c : ascii) (a b : string) : String c a +:+ b = String c (a +:+ b).
Proof. reflexivity. Qed.

(** One line, with its terminator, reads as that line. *)
Lemma readlines_line (body : string) :
  no_newline body = true →
  Py.readlines (body +:+ String Py.LF EmptyString) = [body +:+ String Py.LF EmptyString].
Proof.
  induction body as [|c body IH]; intros Hb; [reflexivity|].
  cbn in Hb. apply andb_true_iff in Hb as [Hc Hb].
  apply andb_true_iff in Hc as [Hlf Hcr].
  apply negb_true_iff in Hlf, Hcr.
  rewrite append_cons, readlines_cons, Hlf, Hcr, (IH Hb). reflexivity.
Qed.

Lemma terminated_tail (c : ascii) (s : string) :
  s ≠ EmptyString → terminated (String c s) = terminated s.
Proof. destruct s; [done|reflexivity]. Qed.

Lemma readlines_nonempty (c : ascii) (s : string) : Py.readlines (String c s) ≠ [].
Proof.
  rewrite readlines_cons. destruct (Ascii.eqb c Py.LF); [done|].
  destruct (Ascii.eqb c Py.CR).
  - destruct s as [|c' s]; [done|]. destruct (Ascii.eqb c' Py.LF); done.
  - destruct (Py.readlines s); done.
Qed.

(** What follows a terminated text is read as lines of its own. *)
Lemma readlines_app (a b : string) :
  terminated a = true → Py.readlines (a +:+ b) = Py.readlines a ++ Py.readlines b.
Proof.
  remember (String.length a) as n eqn:Hn. revert a Hn.
  induction n as [n IH] using lt_wf_ind. intros a Hn Ht.
  destruct a as [|c a]; [reflexivity|].
  destruct a as [|c' a].
  { cbn in Ht. rewrite append_cons, !readlines_cons, Ht. reflexivity. }
  rewrite terminated_tail in Ht by done.
  assert (IH1 : Py.readlines (String c' a +:+ b)
                = Py.readlines (String c' a) ++ Py.readlines b).
  { apply (IH (String.length (String c' a))); [subst n; cbn; lia|reflexivity|exact Ht]. }
  rewrite append_cons, (readlines_cons c (String c' a +:+ b)),
    (readlines_cons c (String c' a)).
  destruct (Ascii.eqb c Py.LF).
  { rewrite IH1. reflexivity. }
  destruct (Ascii.eqb c Py.CR).
  - rewrite append_cons.
    destruct (Ascii.eqb c' Py.LF) eqn:Hc'.
    + destruct a as [|c'' a]; [reflexivity|].
      rewrite terminated_tail in Ht by done.
      rewrite (IH (String.length (String c'' a)));
        [reflexivity|subst n; cbn; lia|reflexivity|exact Ht].
    + rewrite <- append_cons, IH1. reflexivity.
  - rewrite IH1. pose proof (readlines_nonempty c' a) as Hne.
    destruct (Py.readlines (String c' a)) as [|l ls]; [done|]. reflexivity.
Qed.

Lemma list_in_app (x : string) (l1 l2 : list string) :
  Py.list_in x (l1 ++ l2) = Py.list_in x l1 || Py.list_in x l2.
Proof. unfold Py.list_in. apply existsb_app. Qed.

(** The entry is never the line that is written for it. *)
Lemma entry_is_not_its_line (fstab_entry options : string) :
  options ≠ EmptyString →
  String.eqb fstab_entry (fstab_entry +:+ options) = false.
Proof.
  intros Hopt. apply String.eqb_neq. intros Heq.
  apply (f_equal String.length) in Heq. rewrite append_length in Heq.
  destruct options; [done|]. cbn in Heq. lia.
Qed.

(** One call on a table without a line that is exactly the entry: the line
    is appended. *)
Lemma ensure_fstab_appends (fstab_entry options content : string) (w : World) :
  files w !! "/etc/fstab" = Some content →
  Py.list_in fstab_entry (Py.readlines content) = false →
  ensure_fstab fstab_entry options w
  = (Ok tt, set_files (<["/etc/fstab" := content +:+ fstab_entry +:+ options]>) w).
Proof.
  intros Hf Hin. unfold ensure_fstab, bind, read_lines. rewrite Hf. cbv beta iota.
  rewrite Hin. unfold when, negb, append_text, modify, set_files. cbv beta iota.
  rewrite Hf. reflexivity.
Qed.

(** The test for the entry does not see the line written for it: on a
    terminated table without a line that is exactly the entry, a first call
    appends the line, and a second call with the same arguments appends it
    once more. *)
Lemma ensure_fstab_appends_again (fstab_entry body content : string) (w : World) :
  let options := body +:+ String Py.LF EmptyString in
  let line := fstab_entry +:+ options in
  files w !! "/etc/fstab" = Some content →
  terminated content = true →
  no_newline (fstab_entry +:+ body) = true →
  Py.list_in fstab_entry (Py.readlines content) = false →
  (ensure_fstab fstab_entry options ;; ensure_fstab fstab_entry options) w
  = (Ok tt, set_files (<["/etc/fstab" := (content +:+ line) +:+ line]>) w).
Proof.
  intros options line Hf Ht Hnl Hin.
  unfold bind. rewrite (ensure_fstab_appends _ _ content w Hf Hin).
  set (w1 := set_files _ w).
  rewrite (ensure_fstab_appends _ _ (content +:+ line) w1).
  - subst w1 line. unfold set_files. cbn. rewrite insert_insert_eq. reflexivity.
  - subst w1. cbn. by rewrite lookup_insert_eq.
  - rewrite readlines_app by exact Ht. rewrite list_in_app, Hin. cbn [orb].
    subst line options. rewrite <- append_assoc.
    rewrite readlines_line by exact Hnl. unfold Py.list_in. cbn [existsb].
    rewrite append_assoc, entry_is_not_its_line; [reflexivity|].
    destruct body; discriminate.
Qed.

End MountTable.

(** C1 does not hold of the code.  On a controller whose mount table has
    one line, none of them for the entries, two runs of the bind mount of
    the munge key leave two lines for its entry in the table, and two runs
    of the mount of the state disk leave two lines for that entry: each run
    tests for a line that is exactly the entry, which the line it writes
    (the entry followed by the mount options) never is. *)
Theorem mount_table_entry_duplicated :
  let env := Sample.env_disk in
  let w := Sample.world_fstab in
  let munge2 := (mount_munge_key_disk env ;; mount_munge_key_disk env) w in
  let state2 := (mount_save_state_disk env ;; mount_save_state_disk env) w in
  matching_lines "/var/spool/slurm/munge /etc/munge" Sample.fstab0 = []
  ∧ munge2.1 = Ok tt
  ∧ files munge2.2 !! "/etc/fstab"
    = Some (Sample.fstab0 +:+ Sample.munge_line +:+ Sample.munge_line)
  ∧ option_map (matching_lines "/var/spool/slurm/munge /etc/munge")
               (files munge2.2 !! "/etc/fstab")
    = Some [Sample.munge_line; Sample.munge_line]
  ∧ state2.1 = Ok tt
  ∧ option_map (matching_lines "/dev/disk/by-id/google-state-disk /var/spool/slurm ext4")
               (files state2.2 !! "/etc/fstab")
    = Some [Sample.state_line; Sample.state_line].
Proof. vm_compute. repeat split; reflexivity. Qed.

(** ** Symbolic links *)

Section Symlinks.

Context (env : Env).

(** Nothing at the path of the link: the link is made. *)
Lemma reconcile_symlink_absent (sl tgt : string) (w : World) :
  lexists w sl = false →
  reconcile_symlink sl tgt w = (Ok tt, set_links (<[sl := tgt]>) w).
Proof.
  intros Hno. unfold reconcile_symlink, bind, get.
  assert (Hsym : is_symlink w sl = false).
  { unfold lexists in Hno. by destruct (is_symlink w sl). }
  rewrite Hsym, andb_false_r. cbn [when]. unfold ret, symlink_to.
  rewrite Hno. reflexivity.
Qed.

(** A link whose target is there: it is removed and made again. *)
Lemma reconcile_symlink_live (sl tgt : string) (w : World) :
  is_symlink w sl = true → path_exists w sl = true →
  files w !! sl = None → sl ∉ folders w →
  ∃ w', reconcile_symlink sl tgt w = (Ok tt, w') ∧ links w' !! sl = Some tgt.
Proof.
  intros Hsym Hex Hfile Hdir. unfold reconcile_symlink, bind, get.
  rewrite Hsym, Hex. cbn [andb when]. unfold unlink. rewrite Hsym.
  unfold symlink_to, lexists, is_symlink. cbn [links files folders set_links].
  assert (Enone : bool_decide (is_Some (None : option string)) = false)
    by (apply bool_decide_eq_false_2; by intros [? ?]).
  rewrite lookup_delete_eq, Hfile, Enone, (bool_decide_eq_false_2 _ Hdir).
  cbn [orb]. eexists. split; [reflexivity|]. cbn. by rewrite lookup_insert_eq.
Qed.

(** A link whose target is missing is not removed, and making the link
    raises: the path is left as it was. *)
Lemma reconcile_symlink_dangling (sl tgt : string) (w : World) :
  is_symlink w sl = true → path_exists w sl = false →
  reconcile_symlink sl tgt w = (Raise (FileExistsError sl), w).
Proof.
  intros Hsym Hex. unfold reconcile_symlink, bind, get.
  rewrite Hsym, Hex. cbn [andb when]. unfold ret, symlink_to, lexists.
  rewrite Hsym. reflexivity.
Qed.

End Symlinks.

(** C9 does not hold of the code.  On a node where [/etc/slurm] is a link
    to a directory that is gone, the link is there, but the reconciliation
    does not remove it: it raises, the configuration of the directories
    raises with it, and the link still points at the old target. *)
Theorem symlink_to_missing_target_not_replaced :
  let env := Sample.env0 in
  let w := Sample.world_dangling in
  is_symlink w "/etc/slurm" = true
  ∧ links w !! "/etc/slurm" = Some "/opt/slurm-23.02/etc"
  ∧ reconcile_symlink "/etc/slurm" (slurmdirs_etc env) w
    = (Raise (FileExistsError "/etc/slurm"), w)
  ∧ (configure_dirs env w).1 = Raise (FileExistsError "/etc/slurm")
  ∧ links (configure_dirs env w).2 !! "/etc/slurm" = Some "/opt/slurm-23.02/etc".
Proof.
  cbv zeta. split; [reflexivity|]. split; [reflexivity|].
  split; [apply reconcile_symlink_dangling; reflexivity|].
  split; vm_compute; reflexivity.
Qed.

(** ** The dispatch on the role *)

Section Dispatch.

Context (env : Env).

(** A role that is none of the three: the default of the table logs at the
    fatal level and does nothing else. *)
Lemma dispatch_unknown (w : World) :
  instance_role (lkp w) ≠ "controller" →
  instance_role (lkp w) ≠ "compute" →
  instance_role (lkp w) ≠ "login" →
  dispatch env w
  = (Ok tt, set_log (fun l => l ++ [(CRITICAL, "Unknown node role: "
                                               +:+ instance_role (lkp w))]) w).
Proof.
  intros H1 H2 H3. unfold dispatch, bind, lookup. cbn [dict_get].
  rewrite !(proj2 (String.eqb_neq _ _)) by (intros Heq; symmetry in Heq; contradiction).
  reflexivity.
Qed.

(** The end of a run whose banner can be written and whose broadcasts
    succeed, and the end of a run whose banner cannot be written. *)
Lemma end_motd_run (w : World) (q : string) :
  open_w w "/etc/motd" = Ok q →
  calls_ok env (calls w) (complete_calls env (lkp w)) →
  end_motd env true w
  = (Ok tt, set_calls (fun h => h ++ complete_calls env (lkp w))
                      (set_files (<[q := MOTD_HEADER]>) w)).
Proof.
  unfold complete_calls. intros Hq [(r & Hx & Hr) Hok].
  unfold end_motd. rewrite (bind_ok _ _ _ _ _ (write_text_ok _ q _ _ Hq)).
  cbn [negb]. unfold bind, lookup.
  set (w1 := set_files _ w).
  change (lkp w1) with (lkp w). 
  rewrite (run_ok env _ _ _ _ r w1 Hx Hr).
  set (w2 := set_calls _ w1). change (lkp w2) with (lkp w).
  destruct (is_controller (lkp w)); cbn [negb when].
  - reflexivity.
  - destruct Hok as [(r' & Hx' & Hr') _].
    unfold bind. rewrite (run_ok env _ _ _ _ r' w2 Hx' Hr').
    unfold ret. subst w2. unfold set_calls. cbn. rewrite <- app_assoc. reflexivity.
Qed.

Lemma end_motd_unwritable (broadcast : bool) (w : World) (e : exn) :
  open_w w "/etc/motd" = Raise e → end_motd env broadcast w = (Raise e, w).
Proof.
  intros He. unfold end_motd. apply bind_raise. by apply write_text_raise.
Qed.

(** C2, as the code has it.  For a role that is none of controller, compute
    and login, the dispatch logs one record at the fatal level (not a
    warning) and returns, leaving the rest of the world as it was: no
    command, no file, no link, no owner is touched.  When the steps before
    the dispatch have returned and the final broadcasts succeed, the run
    goes on as for a known role: where the banner file can be written it
    returns, with the banner of completion written and broadcast, and what
    it leaves differs from the world before the dispatch by that record,
    the banner and the broadcasts only; where the banner file cannot be
    written, the error of the write is raised after the record. *)
Theorem unknown_role_completes (fuel : nat) (w w1 : World) :
  let role := instance_role (lkp w1) in
  let w2 := set_log (fun l => l ++ [(CRITICAL, "Unknown node role: " +:+ role)]) w1 in
  role ≠ "controller" → role ≠ "compute" → role ≠ "login" →
  prologue env fuel w = Some (Ok tt, w1) →
  calls_ok env (calls w1) (complete_calls env (lkp w1)) →
  dispatch env w1 = (Ok tt, w2)
  ∧ main env fuel w
    = Some (match open_w w1 "/etc/motd" with
            | Ok q => (Ok tt, set_calls (fun h => h ++ complete_calls env (lkp w1))
                                        (set_files (<[q := MOTD_HEADER]>) w2))
            | Raise e => (Raise e, w2)
            end).
Proof.
  intros role w2 H1 H2 H3 Hpro Hok.
  pose proof (dispatch_unknown w1 H1 H2 H3) as Hd. fold role in Hd. fold w2 in Hd.
  split; [exact Hd|].
  unfold main, bindP. rewrite Hpro. unfold lift, bind. rewrite Hd.
  rewrite <- (open_w_ext w2 w1 "/etc/motd" eq_refl eq_refl eq_refl).
  destruct (open_w w2 "/etc/motd") as [q|e] eqn:Hq.
  - rewrite (end_motd_run w2 q Hq); [reflexivity|exact Hok].
  - by rewrite (end_motd_unwritable true w2 e Hq).
Qed.

End Dispatch.

(** A node of role "worker": the run completes; the log has the fatal
    record and the banner of completion is in place. *)
Lemma unknown_role_completes_witness :
  ∃ w', main Sample.env0 1 (Sample.world_boot "worker") = Some (Ok tt, w')
        ∧ files w' !! "/etc/motd" = Some MOTD_HEADER
        ∧ last (log w') = Some (CRITICAL, "Unknown node role: worker").
Proof.
  destruct (prologue Sample.env0 1 (Sample.world_boot "worker"))
    as [[[[]|e] w1]|] eqn:Hpro; try (vm_compute in Hpro; discriminate Hpro).
  assert (Hw1 : lkp w1 = Sample.host "worker" ∧ open_w w1 "/etc/motd" = Ok "/etc/motd").
  { vm_compute in Hpro. inversion Hpro. split; vm_compute; reflexivity. }
  destruct Hw1 as [Hl Hq].
  destruct (unknown_role_completes Sample.env0 1 (Sample.world_boot "worker") w1)
    as [_ Hmain].
  - rewrite Hl. discriminate.
  - rewrite Hl. discriminate.
  - rewrite Hl. discriminate.
  - exact Hpro.
  - rewrite Hl. cbn. repeat split; eexists; split; reflexivity.
  - rewrite Hq in Hmain. eexists. split; [exact Hmain|]. split.
    + cbn. by rewrite lookup_insert_eq.
    + cbn. rewrite last_snoc, Hl. reflexivity.
Defined.

(** C2 as it is stated does not hold: no warning is logged.  On a node of
    role "worker" the run completes, its log has the record of the unknown
    role at the fatal level, and no record of the log is a warning. *)
Lemma unknown_role_logs_no_warning :
  ∃ w', main Sample.env0 1 (Sample.world_boot "worker") = Some (Ok tt, w')
        ∧ (CRITICAL, "Unknown node role: worker") ∈ log w'
        ∧ ∀ msg, (WARNING, msg) ∉ log w'.
Proof.
  eexists. split; [vm_compute; reflexivity|]. cbn [log]. split.
  - repeat first [apply list_elem_of_here | apply list_elem_of_further].
  - intros msg Hin.
    repeat (apply elem_of_cons in Hin as [Heq|Hin]; [discriminate Heq|]).
    by apply elem_of_nil in Hin.
Qed.

(** * Further properties of the code *)

(** ** Commands that are answered *)

Section Steps.

Context (env : Env).

Lemma run_answer (cmd : string) (t : option Z) (chk sh : bool)
    (r : CompletedProcess) (w : World) :
  exec env (calls w) (mkCall cmd t chk sh) = Exited r →
  (chk = true → returncode r = 0) →
  run env cmd t chk sh w = (Ok r, set_calls (fun h => h ++ [mkCall cmd t chk sh]) w).
Proof.
  intros Hx Hr. unfold run. rewrite Hx.
  destruct chk; cbn; [|reflexivity].
  rewrite (Hr eq_refl). reflexivity.
Qed.

Lemma run30_answer (cmd : string) (r : CompletedProcess) (w : World) :
  exec env (calls w) (call30 env cmd) = Exited r →
  (c_check (call30 env cmd) = true → returncode r = 0) →
  run30 env cmd w = (Ok tt, set_calls (fun h => h ++ [call30 env cmd]) w).
Proof.
  intros Hx Hr. unfold run30, bind.
  rewrite (run_answer cmd (Some 30) (check_default env) false r w Hx Hr).
  reflexivity.
Qed.

Lemma run__answer (cmd : string) (r : CompletedProcess) (w : World) :
  exec env (calls w) (call_ env cmd) = Exited r →
  (c_check (call_ env cmd) = true → returncode r = 0) →
  run_ env cmd w = (Ok tt, set_calls (fun h => h ++ [call_ env cmd]) w).
Proof.
  intros Hx Hr. unfold run_, bind.
  rewrite (run_answer cmd None (check_default env) false r w Hx Hr).
  reflexivity.
Qed.

Lemma set_calls_snoc (cs cs' : list Call) (w : World) :
  set_calls (fun h => h ++ cs') (set_calls (fun h => h ++ cs) w)
  = set_calls (fun h => h ++ (cs ++ cs')) w.
Proof. unfold set_calls. cbn. rewrite <- app_assoc. reflexivity. Qed.

(** Whatever a command answers, [run] adds the call to the commands run
    and changes nothing else. *)
Lemma run_world (cmd : string) (t : option Z) (chk sh : bool) (w : World) :
  (run env cmd t chk sh w).2 = set_calls (fun h => h ++ [mkCall cmd t chk sh]) w.
Proof.
  unfold run. destruct (exec env (calls w) _) as [r| |]; cbn; [|reflexivity..].
  destruct (chk && negb (returncode r =? 0)); reflexivity.
Qed.

End Steps.

(** ** Discovery of the hook scripts *)

Section Discovery.

Context (env : Env).

(** X1. The scripts selected for a list of directories are the regular
    files found below these directories whose name does not end with
    [.disabled]: a disabled file is never selected, and neither is a
    directory. *)
Theorem discover_selects (dirs : list string) (p : string) :
  p ∈ discover env dirs
  ↔ ∃ d, d ∈ dirs ∧ (p, true) ∈ rglob env d
         ∧ Py.endswith (Py.name p) ".disabled" = false.
Proof.
  unfold discover. rewrite list_elem_of_bind. split.
  - intros (d & Hp & Hd). apply list_elem_of_bind in Hp as ([q is_file] & Hp & Hq).
    destruct is_file; cbn in Hp; [|by apply elem_of_nil in Hp].
    destruct (Py.endswith (Py.name q) ".disabled") eqn:E; cbn in Hp;
      [by apply elem_of_nil in Hp|].
    apply list_elem_of_singleton in Hp as ->. eauto.
  - intros (d & Hd & Hq & E). exists d. split; [|exact Hd].
    apply list_elem_of_bind. exists (p, true). split; [|exact Hq].
    cbn. rewrite E. cbn. apply list_elem_of_here.
Qed.

Lemma relative_to_under (custom_dir : string) (l : list string) (w : World) :
  (∀ s, s ∈ l → String.prefix (custom_dir +:+ "/") s = true) →
  ∃ rel, map_M (fun s => relative_to s custom_dir) l w = (Ok rel, w).
Proof.
  induction l as [|s l IH]; intros Hl.
  - exists []. reflexivity.
  - destruct IH as (rel & Hrel).
    { intros s' Hs'. apply Hl. by apply list_elem_of_further. }
    assert (Hs : ∃ x, relative_to s custom_dir w = (Ok x, w)).
    { unfold relative_to. rewrite (Hl s) by apply list_elem_of_here. eexists. reflexivity. }
    destruct Hs as (x & Hs).
    exists (x :: rel). cbn [map_M]. unfold bind. rewrite Hs, Hrel. reflexivity.
Qed.

(** X2. On a node that is neither the controller, nor a compute node, nor
    a login node, the runner of the hook scripts looks into no directory:
    it logs the empty list of scripts, runs no command and returns. *)
Theorem run_custom_scripts_unknown_role (w : World) :
  is_controller (lkp w) = false →
  instance_role (lkp w) ≠ "compute" →
  is_login_node (lkp w) = false →
  run_custom_scripts env w
  = (Ok tt, set_log (fun l => l ++ [(DEBUG, "custom scripts to run: "
                                            +:+ dirs_custom_scripts env +:+ "/()")]) w).
Proof.
  intros Hc Hr Hl. unfold run_custom_scripts, bind, lookup, custom_dirs_of.
  rewrite Hc, Hl, (proj2 (String.eqb_neq _ _) Hr). reflexivity.
Qed.

(** X3. When every selected script is below the directory of the custom
    scripts and exits with status 0, the runner returns after running the
    selected scripts, each once with its timeout, in the order of the
    discovery, and no other command. *)
Theorem run_custom_scripts_all_ok (w : World) :
  let scripts := discover env (custom_dirs_of env (lkp w)) in
  (∀ s, s ∈ scripts → String.prefix (dirs_custom_scripts env +:+ "/") s = true) →
  scripts_ok env (calls w) (cfg (lkp w)) scripts →
  ∃ w', run_custom_scripts env w = (Ok tt, w')
        ∧ calls w' = calls w ++ map (script_call (cfg (lkp w))) scripts
        ∧ files w' = files w ∧ lkp w' = lkp w.
Proof.
  intros scripts Hunder Hok.
  destruct (relative_to_under (dirs_custom_scripts env) scripts w Hunder) as (rel & Hrel).
  unfold run_custom_scripts, bind, lookup. fold scripts. rewrite Hrel.
  unfold log_at, modify. set (w1 := set_log _ w).
  assert (Hruns : ∀ l h (v : World), calls v = h → lkp v = lkp w →
            scripts_ok env h (cfg (lkp w)) l →
            ∃ w', run_scripts env l v = (Ok tt, w')
                  ∧ calls w' = h ++ map (script_call (cfg (lkp w))) l
                  ∧ files w' = files v ∧ lkp w' = lkp w).
  { clear. induction l as [|s l IH]; intros h v Hh Hk Hok.
    - exists v. cbn. rewrite app_nil_r. done.
    - destruct Hok as [Hs Hl].
      destruct (run_script_unfold env s v) as (v1 & Hrun & Hc & Hk1 & Hf & _).
      rewrite Hk, Hh, Hs in Hrun. cbn in Hc.
      destruct (IH (h ++ [script_call (cfg (lkp w)) s]) v1) as (w' & Hrest & Hc' & Hf' & Hk').
      { rewrite Hc, Hh, Hk. reflexivity. }
      { congruence. }
      { exact Hl. }
      exists w'. split; [|split; [|split]].
      + unfold run_scripts in *. cbn. unfold bind. rewrite Hrun. exact Hrest.
      + rewrite Hc'. cbn. rewrite <- app_assoc. reflexivity.
      + congruence.
      + exact Hk'. }
  destruct (Hruns scripts (calls w) w1 eq_refl eq_refl Hok) as (w' & Hrun & Hc & Hf & Hk).
  exists w'. done.
Qed.

End Discovery.

(** The controller of the sample host: of the three entries below
    [controller.d], the enabled script is the one command run. *)
Lemma run_custom_scripts_all_ok_witness :
  ∃ w', run_custom_scripts Sample.env0 (Sample.world0 "controller") = (Ok tt, w')
        ∧ map c_cmd (calls w') = ["/slurm/custom_scripts/controller.d/a.sh"].
Proof.
  destruct (run_custom_scripts_all_ok Sample.env0 (Sample.world0 "controller"))
    as (w' & Hrun & Hc & _).
  - intros s Hs. vm_compute in Hs.
    repeat (apply elem_of_cons in Hs as [->|Hs]); try reflexivity.
    by apply elem_of_nil in Hs.
  - cbn. split; [reflexivity|exact I].
  - exists w'. split; [exact Hrun|]. rewrite Hc. reflexivity.
Defined.

Lemma run_custom_scripts_unknown_role_witness :
  (run_custom_scripts Sample.env0 (Sample.world0 "worker")).1 = Ok tt
  ∧ calls (run_custom_scripts Sample.env0 (Sample.world0 "worker")).2 = [].
Proof.
  rewrite (run_custom_scripts_unknown_role Sample.env0 (Sample.world0 "worker"));
    [split; reflexivity|reflexivity|discriminate|reflexivity].
Defined.

(** ** The banners *)

Section Banners.

Context (env : Env).

Lemma failed_motd_run (w : World) :
  (is_hybrid_setup (lkp w) = true → failed_motd env w = (Ok tt, w))
  ∧ (is_hybrid_setup (lkp w) = false →
     ∀ q, open_w w "/etc/motd" = Ok q →
          (failed_motd env w).2
          = set_calls (fun h => h ++ [call30 env ("wall -n '" +:+ failed_wall_msg env +:+ "'")])
                      (set_files (<[q := failed_motd_text env]>) w))
  ∧ (is_hybrid_setup (lkp w) = false →
     ∀ e, open_w w "/etc/motd" = Raise e → failed_motd env w = (Raise e, w)).
Proof.
  split; [|split]; intros Hh; unfold failed_motd, bind at 1, lookup; rewrite Hh;
    [reflexivity| |].
  - intros q Hq. rewrite (bind_ok _ _ _ _ _ (write_text_ok _ q _ _ Hq)). cbv beta.
    unfold bind. set (w1 := set_files _ w).
    pose proof (run_world env ("wall -n '" +:+ failed_wall_msg env +:+ "'")
                  (Some 30) (check_default env) false w1) as Hw.
    unfold failed_wall_msg in *.
    destruct (run env _ (Some 30) (check_default env) false w1) as [[r|e] w2];
      cbn in Hw; subst w2; reflexivity.
  - intros e He. apply bind_raise. by apply write_text_raise.
Qed.

(** X4. In a hybrid setup the signal of failure does nothing at all.
    Otherwise the banner of the failure is written before the broadcast is
    tried: where the banner file can be written, the banner is in place
    whatever the broadcast does, also when it raises, and the broadcast is
    the one command run; where the banner file cannot be written, the
    error of the write is raised and no broadcast is tried. *)
Theorem failed_motd_banner (w : World) :
  (is_hybrid_setup (lkp w) = true → failed_motd env w = (Ok tt, w))
  ∧ (is_hybrid_setup (lkp w) = false →
     ∀ q, open_w w "/etc/motd" = Ok q →
          (failed_motd env w).2
          = set_calls (fun h => h ++ [call30 env ("wall -n '" +:+ failed_wall_msg env +:+ "'")])
                      (set_files (<[q := failed_motd_text env]>) w))
  ∧ (is_hybrid_setup (lkp w) = false →
     ∀ e, open_w w "/etc/motd" = Raise e → failed_motd env w = (Raise e, w)).
Proof. exact (failed_motd_run w). Qed.

(** X5. The banner of completion is written before any broadcast: where
    the banner file can be written, it is the plain header afterwards
    whatever the broadcasts do; without broadcast no command is run, and on
    the controller the note on the home directory is never broadcast.
    Where the banner file cannot be written, the error of the write is
    raised and nothing is broadcast. *)
Theorem end_motd_banner (broadcast : bool) (w : World) :
  (∀ q, open_w w "/etc/motd" = Ok q →
        files (end_motd env broadcast w).2 = <[q := MOTD_HEADER]> (files w)
        ∧ (broadcast = false →
           end_motd env broadcast w = (Ok tt, set_files (<[q := MOTD_HEADER]>) w))
        ∧ (broadcast = true → is_controller (lkp w) = true →
           calls (end_motd env broadcast w).2
           = calls w ++ [call30 env ("wall -n '*** Slurm " +:+ instance_role (lkp w)
                                     +:+ " setup complete ***'")]))
  ∧ (∀ e, open_w w "/etc/motd" = Raise e → end_motd env broadcast w = (Raise e, w)).
Proof.
  split; [|intros e He; by apply end_motd_unwritable].
  intros q Hq. unfold end_motd. rewrite (bind_ok _ _ _ _ _ (write_text_ok _ q _ _ Hq)).
  cbv beta. unfold bind, lookup.
  set (w1 := set_files _ w).
  destruct broadcast; cbn [negb]; cbv beta iota.
  - pose proof (run_world env ("wall -n '*** Slurm " +:+ instance_role (lkp w1)
                               +:+ " setup complete ***'") (Some 30) (check_default env)
                  false w1) as Hw.
    destruct (run env _ (Some 30) (check_default env) false w1) as [[r|e] w2];
      cbn in Hw; subst w2.
    + cbn [lkp set_calls]. change (lkp w1) with (lkp w).
      destruct (is_controller (lkp w)) eqn:Hc; cbn [negb when].
      * split; [reflexivity|]. split; [discriminate|reflexivity].
      * unfold bind. set (w2 := set_calls _ w1).
        pose proof (run_world env "wall -n '
/home on the controller was mounted over the existing /home.
Log back in to ensure your home directory is correct.
'" (Some 30) (check_default env) false w2) as Hw.
        destruct (run env _ (Some 30) (check_default env) false w2) as [[r'|e] w3];
          cbn in Hw; subst w3;
          (split; [reflexivity|]; split; discriminate).
    + split; [reflexivity|]. split; [discriminate|reflexivity].
  - split; [reflexivity|]. split; [reflexivity|discriminate].
Qed.

End Banners.

(** On a host where no command can be started, the signal of failure
    raises, and the banner of the failure is in place all the same; on a
    host without the directory of the banner, the write raises and no
    command is run. *)
Lemma failed_motd_banner_witness :
  let r := failed_motd Sample2.env_broken (Sample.world_boot "compute") in
  ((∃ e, r.1 = Raise e)
   ∧ files r.2 !! "/etc/motd" = Some (failed_motd_text Sample2.env_broken))
  ∧ failed_motd Sample2.env_broken (Sample.world0 "compute")
    = (Raise (FileNotFoundError "/etc/motd"), Sample.world0 "compute").
Proof.
  cbv zeta. split; [split; [eexists; vm_compute; reflexivity|]|].
  - destruct (failed_motd_banner Sample2.env_broken (Sample.world_boot "compute"))
      as (_ & H & _).
    rewrite (H eq_refl "/etc/motd" eq_refl). cbn. by rewrite lookup_insert_eq.
  - destruct (failed_motd_banner Sample2.env_broken (Sample.world0 "compute"))
      as (_ & _ & H).
    exact (H eq_refl _ eq_refl).
Defined.

Lemma end_motd_banner_witness :
  end_motd Sample2.env_broken false (Sample.world_boot "compute")
  = (Ok tt, set_files (<["/etc/motd" := MOTD_HEADER]>) (Sample.world_boot "compute"))
  ∧ map c_cmd (calls (end_motd Sample.env0 true (Sample.world_boot "controller")).2)
    = ["wall -n '*** Slurm controller setup complete ***'"]
  ∧ end_motd Sample.env0 true (Sample.world0 "controller")
    = (Raise (FileNotFoundError "/etc/motd"), Sample.world0 "controller").
Proof.
  split; [|split].
  - destruct (end_motd_banner Sample2.env_broken false (Sample.world_boot "compute"))
      as [H _].
    destruct (H "/etc/motd" eq_refl) as (_ & H' & _). exact (H' eq_refl).
  - destruct (end_motd_banner Sample.env0 true (Sample.world_boot "controller"))
      as [H _].
    destruct (H "/etc/motd" eq_refl) as (_ & _ & H'). rewrite (H' eq_refl eq_refl).
    reflexivity.
  - destruct (end_motd_banner Sample.env0 true (Sample.world0 "controller")) as [_ H].
    exact (H _ eq_refl).
Defined.

(** ** Files of the services *)

Section ServiceFiles.

Context (env : Env).

(** X6. The defaults of a service are written below [/etc/sysconfig] when
    something exists at that path, and below [/etc/default] only when
    nothing does; when neither exists the function raises its own error
    and writes nothing.  The file is the one that the path below the
    chosen directory stands for, and it holds the content afterwards; when
    it cannot be written (the chosen path is a regular file, or a directory
    is at the path of the file) the error of the write is raised, and the
    other directory is not tried. *)
Theorem update_system_config_dir (file content : string) (w : World) :
  let written (conf_dir : string) :=
    match open_w w (conf_dir +:+ "/" +:+ file) with
    | Ok q => (Ok tt, set_files (<[q := content]>) w)
    | Raise e => (Raise e, w)
    end in
  (path_exists w "/etc/sysconfig" = true →
   update_system_config file content w = written "/etc/sysconfig")
  ∧ (path_exists w "/etc/sysconfig" = false → path_exists w "/etc/default" = true →
     update_system_config file content w = written "/etc/default")
  ∧ (path_exists w "/etc/sysconfig" = false → path_exists w "/etc/default" = false →
     update_system_config file content w
     = (Raise (Exception "Cannot determine system configuration directory."), w)).
Proof.
  intros written. rewrite update_system_config_run.
  split; [|split].
  - intros ->. reflexivity.
  - intros -> ->. reflexivity.
  - intros -> ->. reflexivity.
Qed.

(** X7. The JWT key is generated exactly when no file is at its path: an
    existing key is kept, with a record in the log and no command run.
    Either way the owner and the mode 0400 are set afterwards. *)
Theorem setup_jwt_key_generates_once (w : World) :
  let jwt_key := Py.joinpath (slurmdirs_state env) "jwt_hs256.key" in
  let dd := mkCall ("dd if=/dev/urandom bs=32 count=1 > " +:+ jwt_key)
                   None (check_default env) true in
  (path_exists w jwt_key = true →
   setup_jwt_key env w
   = chown_slurm env jwt_key (Some 256)
       (set_log (fun l => l ++ [(INFO, "JWT key already exists. Skipping key generation.")]) w))
  ∧ (path_exists w jwt_key = false →
     ∀ r, exec env (calls w) dd = Exited r → returncode r = 0 →
          setup_jwt_key env w
          = chown_slurm env jwt_key (Some 256) (set_calls (fun h => h ++ [dd]) w)).
Proof.
  intros jwt_key dd. unfold setup_jwt_key, bind, get. cbv beta iota. fold jwt_key.
  split.
  - intros ->. reflexivity.
  - intros -> r Hx Hr. unfold bind. subst dd.
    rewrite (run_answer env _ None (check_default env) true r w Hx (fun _ => Hr)).
    reflexivity.
Qed.

Lemma open_w_follow (w : World) (p q : string) :
  open_w w p = Ok q → follow 40 w p = Some q.
Proof.
  unfold open_w. destruct (follow 40 w p) as [t|]; [|discriminate].
  destruct (follow 40 w (Py.dirname t)) as [d|]; [|discriminate].
  destruct (bool_decide (d ∈ folders w)).
  - destruct (bool_decide (t ∈ folders w)); [discriminate|]. by intros [= ->].
  - destruct (bool_decide (is_Some (files w !! d))); discriminate.
Qed.

(** The sudoers file on a host where it can be written. *)
Lemma setup_sudoers_run (w : World) (q : string) :
  open_w w "/etc/sudoers.d/slurm" = Ok q →
  setup_sudoers w
  = (Ok tt, set_modes (<[q := 288]>) (set_files (<[q := sudoers_text]>) w)).
Proof.
  intros Hq. unfold setup_sudoers.
  rewrite (bind_ok _ _ _ _ _ (write_text_ok _ q _ _ Hq)). cbv beta.
  unfold chmod. rewrite (follow_ext 40 _ w) by reflexivity.
  rewrite (open_w_follow w _ q Hq).
  cbn [files set_files]. rewrite lookup_insert_eq, bool_decide_eq_true_2 by eauto.
  reflexivity.
Qed.

(** X8. Where the sudoers file can be written, setting it up returns with
    the fixed text of the three grants in the file that the path stands
    for, which has the mode 0440, and setting it up again changes nothing.
    Where it cannot be written (its directory is missing, or a directory
    is at its path), the error of the write is raised and nothing is
    changed. *)
Theorem setup_sudoers_idempotent (w : World) :
  (∀ q, open_w w "/etc/sudoers.d/slurm" = Ok q →
        ∃ w1, setup_sudoers w = (Ok tt, w1)
              ∧ files w1 = <[q := sudoers_text]> (files w)
              ∧ modes w1 = <[q := 288]> (modes w)
              ∧ setup_sudoers w1 = (Ok tt, w1))
  ∧ (∀ e, open_w w "/etc/sudoers.d/slurm" = Raise e → setup_sudoers w = (Raise e, w)).
Proof.
  split.
  - intros q Hq. eexists. split; [exact (setup_sudoers_run w q Hq)|].
    split; [reflexivity|]. split; [reflexivity|].
    rewrite (setup_sudoers_run _ q).
    + unfold set_modes, set_files. cbn. rewrite !insert_insert_eq. reflexivity.
    + rewrite (open_w_ext _ (set_files (<[q := sudoers_text]>) w)) by reflexivity.
      by apply open_w_written.
  - intros e He. unfold setup_sudoers. apply bind_raise. by apply write_text_raise.
Qed.

(** X9. When the monitoring agent is not active, whatever non-zero status
    the probe reports, the setup of the agent runs the probe and nothing
    else: it does not raise, and neither the document of the agent nor the
    agent is touched. *)
Theorem setup_cloud_ops_inactive (w : World) (r : CompletedProcess) :
  let probe := mkCall "systemctl is-active --quiet google-cloud-ops-agent.service"
                      None false false in
  exec env (calls w) probe = Exited r → returncode r ≠ 0 →
  setup_cloud_ops env w = (Ok tt, set_calls (fun h => h ++ [probe]) w).
Proof.
  intros probe Hx Hr. unfold setup_cloud_ops, bind.
  rewrite (run_answer env _ None false false r w Hx) by discriminate.
  rewrite (proj2 (Z.eqb_neq _ _) Hr). reflexivity.
Qed.

End ServiceFiles.

(** A host with the directory of Debian, a host with neither directory,
    and a host where a regular file is at [/etc/sysconfig]. *)
Lemma update_system_config_dir_witness :
  update_system_config "sackd" "SACKD_OPTIONS=''" Sample2.world_debian
  = (Ok tt, set_files (<["/etc/default/sackd" := "SACKD_OPTIONS=''"]>) Sample2.world_debian)
  ∧ (update_system_config "sackd" "SACKD_OPTIONS=''" (Sample.world0 "login")).1
    = Raise (Exception "Cannot determine system configuration directory.")
  ∧ update_system_config "sackd" "SACKD_OPTIONS=''" Sample2.world_sysconfig_file
    = (Raise (NotADirectoryError "/etc/sysconfig/sackd"), Sample2.world_sysconfig_file).
Proof.
  destruct (update_system_config_dir "sackd" "SACKD_OPTIONS=''" Sample2.world_debian)
    as (_ & H & _).
  destruct (update_system_config_dir "sackd" "SACKD_OPTIONS=''" (Sample.world0 "login"))
    as (_ & _ & H').
  destruct (update_system_config_dir "sackd" "SACKD_OPTIONS=''" Sample2.world_sysconfig_file)
    as (H'' & _).
  split; [exact (H eq_refl eq_refl)|]. split; [rewrite (H' eq_refl eq_refl); reflexivity|].
  exact (H'' eq_refl).
Defined.

Lemma setup_jwt_key_generates_once_witness :
  map c_cmd (calls (setup_jwt_key Sample.env0 (Sample.world0 "controller")).2)
  = ["dd if=/dev/urandom bs=32 count=1 > /var/spool/slurm/jwt_hs256.key"].
Proof.
  destruct (setup_jwt_key_generates_once Sample.env0 (Sample.world0 "controller"))
    as [_ H].
  rewrite (H eq_refl (mkCompleted 0 EmptyString EmptyString) eq_refl eq_refl).
  reflexivity.
Defined.

(** A host with the directory of the sudoers files, a host where the file
    is a link (the text goes to the file it points to), and a host without
    the directory. *)
Lemma setup_sudoers_idempotent_witness :
  (∃ w1, setup_sudoers Sample2.world_sudoers = (Ok tt, w1)
         ∧ files w1 !! "/etc/sudoers.d/slurm" = Some sudoers_text
         ∧ modes w1 !! "/etc/sudoers.d/slurm" = Some 288
         ∧ setup_sudoers w1 = (Ok tt, w1))
  ∧ (∃ w1, setup_sudoers Sample2.world_sudoers_link = (Ok tt, w1)
           ∧ files w1 !! "/site/sudoers/slurm" = Some sudoers_text
           ∧ modes w1 !! "/site/sudoers/slurm" = Some 288
           ∧ files w1 !! "/etc/sudoers.d/slurm" = None)
  ∧ setup_sudoers (Sample.world0 "login")
    = (Raise (FileNotFoundError "/etc/sudoers.d/slurm"), Sample.world0 "login").
Proof.
  split; [|split].
  - destruct (setup_sudoers_idempotent Sample2.world_sudoers) as [H _].
    destruct (H "/etc/sudoers.d/slurm" eq_refl) as (w1 & Hrun & Hf & Hm & Hagain).
    exists w1. rewrite Hf, Hm. split; [exact Hrun|].
    split; [apply lookup_insert_eq|]. split; [apply lookup_insert_eq|exact Hagain].
  - destruct (setup_sudoers_idempotent Sample2.world_sudoers_link) as [H _].
    destruct (H "/site/sudoers/slurm" eq_refl) as (w1 & Hrun & Hf & Hm & _).
    exists w1. rewrite Hf, Hm. split; [exact Hrun|].
    split; [apply lookup_insert_eq|]. split; [apply lookup_insert_eq|reflexivity].
  - destruct (setup_sudoers_idempotent (Sample.world0 "login")) as [_ H].
    exact (H _ eq_refl).
Defined.

(** A host whose probe of the agent exits with status 1. *)
Lemma setup_cloud_ops_inactive_witness :
  (setup_cloud_ops Sample2.env_grumpy (Sample.world0 "compute")).1 = Ok tt
  ∧ length (calls (setup_cloud_ops Sample2.env_grumpy (Sample.world0 "compute")).2) = 1%nat.
Proof.
  rewrite (setup_cloud_ops_inactive Sample2.env_grumpy (Sample.world0 "compute")
             (mkCompleted 1 EmptyString "ERROR 1396") eq_refl); [|discriminate].
  split; reflexivity.
Defined.

(** ** The database *)

Section Database.

Context (env : Env).

Lemma bind_lookup {B} (k : Lookup → M B) (w : World) :
  bind lookup k w = k (lkp w) w.
Proof. reflexivity. Qed.

(** The eight commands, from the world that the step on the options file
    leaves. *)
Lemma configure_mysql_from (w w0 : World) :
  when (negb (path_exists w (mysql_cnf w))) (write_text (mysql_cnf w) mysql_cnf_text) w
  = (Ok tt, w0) →
  calls w0 = calls w → lkp w0 = lkp w →
  answered env (calls w) (mysql_calls env (lkp w)) →
  configure_mysql env w
  = (Ok tt, set_calls (fun h => h ++ mysql_calls env (lkp w)) w0).
Proof.
  intros Hwhen Hc0 Hl0 Hans. unfold configure_mysql, mysql_calls in *.
  unfold bind at 1, get at 1. cbv beta iota. fold (mysql_cnf w).
  rewrite (bind_ok _ _ _ _ _ Hwhen). cbv beta.
  rewrite <- Hc0, <- Hl0 in Hans. clear Hwhen Hc0.
  cbn [answered] in Hans.
  destruct Hans as ((r1 & Hx1 & Hr1) & (r2 & Hx2 & Hr2) & (r3 & Hx3 & _)
                    & (r4 & Hx4 & Hr4) & (r5 & Hx5 & Hr5) & (r6 & Hx6 & _)
                    & (r7 & Hx7 & Hr7) & (r8 & Hx8 & Hr8) & _).
  pose proof (run30_answer env) as Hrun.
  rewrite (bind_ok _ _ _ _ _ (Hrun _ r1 w0 Hx1 Hr1)). cbv beta.
  set (w1 := set_calls _ w0).
  rewrite (bind_ok _ _ _ _ _ (Hrun _ r2 w1 Hx2 Hr2)). cbv beta.
  set (w2 := set_calls _ w1).
  rewrite (bind_ok _ _ _ _ _ (run_answer env _ _ _ _ r3 w2 Hx3 ltac:(discriminate))).
  cbv beta. set (w3 := set_calls _ w2).
  rewrite (bind_ok _ _ _ _ _ (Hrun _ r4 w3 Hx4 Hr4)). cbv beta.
  set (w4 := set_calls _ w3).
  rewrite (bind_ok _ _ _ _ _ (Hrun _ r5 w4 Hx5 Hr5)). cbv beta.
  set (w5 := set_calls _ w4).
  rewrite bind_lookup. change (lkp w5) with (lkp w0).
  rewrite (bind_ok _ _ _ _ _ (run_answer env _ _ _ _ r6 w5 Hx6 ltac:(discriminate))).
  cbv beta. set (w6 := set_calls _ w5).
  rewrite bind_lookup. change (lkp w6) with (lkp w0).
  rewrite (bind_ok _ _ _ _ _ (Hrun _ r7 w6 Hx7 Hr7)). cbv beta.
  set (w7 := set_calls _ w6).
  rewrite bind_lookup. change (lkp w7) with (lkp w0).
  refine (eq_trans (Hrun _ r8 w7 Hx8 Hr8) _).
  subst w7 w6 w5 w4 w3 w2. rewrite Hl0. subst w1.
  rewrite !set_calls_snoc. reflexivity.
Qed.

(** X10. The setup of the database runs its eight commands in order.  The
    two [drop user] commands may exit with any status: when the six other
    commands complete, with status 0 where the status is checked, the
    setup returns.  The file of the server options is written only where
    there is none: an existing file is left as it is.  Where there is none
    and it cannot be written (neither directory of the options is there),
    the error of the write is raised before any command is run. *)
Theorem configure_mysql_tolerates_drop (w : World) :
  answered env (calls w) (mysql_calls env (lkp w)) →
  (path_exists w (mysql_cnf w) = true →
   configure_mysql env w
   = (Ok tt, set_calls (fun h => h ++ mysql_calls env (lkp w)) w))
  ∧ (path_exists w (mysql_cnf w) = false →
     ∀ q, open_w w (mysql_cnf w) = Ok q →
          configure_mysql env w
          = (Ok tt, set_calls (fun h => h ++ mysql_calls env (lkp w))
                      (set_files (<[q := mysql_cnf_text]>) w)))
  ∧ (path_exists w (mysql_cnf w) = false →
     ∀ e, open_w w (mysql_cnf w) = Raise e → configure_mysql env w = (Raise e, w)).
Proof.
  intros Hans. split; [|split].
  - intros Hex. apply configure_mysql_from; [by rewrite Hex|done..].
  - intros Hex q Hq. apply configure_mysql_from; [|done..].
    rewrite Hex. cbn [negb when]. by apply write_text_ok.
  - intros Hex e He. unfold configure_mysql.
    unfold bind at 1, get at 1. cbv beta iota. fold (mysql_cnf w).
    apply bind_raise. rewrite Hex. cbn [negb when]. by apply write_text_raise.
Qed.

End Database.

(** A host whose [drop user] commands fail: the setup returns all the
    same, after its eight commands and with the options file written; on a
    host without a directory for the options file the setup raises at
    once. *)
Lemma configure_mysql_tolerates_drop_witness :
  ((configure_mysql Sample2.env_grumpy Sample2.world_mysql).1 = Ok tt
   ∧ length (calls (configure_mysql Sample2.env_grumpy Sample2.world_mysql).2) = 8%nat
   ∧ files (configure_mysql Sample2.env_grumpy Sample2.world_mysql).2
       !! "/etc/mysql/conf.d/mysql_slurm.cnf" = Some mysql_cnf_text)
  ∧ configure_mysql Sample2.env_grumpy (Sample.world0 "controller")
    = (Raise (FileNotFoundError "/etc/mysql/conf.d/mysql_slurm.cnf"),
       Sample.world0 "controller").
Proof.
  split.
  - destruct (configure_mysql_tolerates_drop Sample2.env_grumpy Sample2.world_mysql)
      as (_ & H & _).
    + vm_compute.
      repeat split; eexists; (split; [reflexivity|]); first [discriminate | reflexivity].
    + rewrite (H eq_refl "/etc/mysql/conf.d/mysql_slurm.cnf" eq_refl).
      repeat split; vm_compute; reflexivity.
  - destruct (configure_mysql_tolerates_drop Sample2.env_grumpy (Sample.world0 "controller"))
      as (_ & _ & H).
    + vm_compute.
      repeat split; eexists; (split; [reflexivity|]); first [discriminate | reflexivity].
    + exact (H eq_refl _ eq_refl).
Defined.

(** ** The document of the logging agent *)

Section AgentDocument.

Lemma dict_find_set_eq (items : list (string * yaml)) (k : string) (v : yaml) :
  dict_find (dict_set items k v) k = Some v.
Proof.
  induction items as [|[k' v'] items IH]; cbn.
  - by rewrite String.eqb_refl.
  - destruct (String.eqb k' k) eqn:E; cbn; rewrite E; [reflexivity|exact IH].
Qed.

Lemma dict_find_set_ne (items : list (string * yaml)) (k k' : string) (v : yaml) :
  k ≠ k' → dict_find (dict_set items k v) k' = dict_find items k'.
Proof.
  intros Hne. induction items as [|[k0 v0] items IH]; cbn.
  - by rewrite (proj2 (String.eqb_neq _ _) Hne).
  - destruct (String.eqb_spec k0 k) as [->|Hk]; cbn.
    + by rewrite (proj2 (String.eqb_neq _ _) Hne).
    + destruct (String.eqb k0 k'); [reflexivity|exact IH].
Qed.

Lemma dict_set_keys (items : list (string * yaml)) (k : string) (v v0 : yaml) :
  dict_find items k = Some v0 → map fst (dict_set items k v) = map fst items.
Proof.
  induction items as [|[k' v'] items IH]; cbn; [discriminate|].
  destruct (String.eqb k' k); cbn; [reflexivity|]. intros H. by rewrite IH.
Qed.

Lemma dict_set_twice (items : list (string * yaml)) (k : string) (v : yaml) :
  dict_set (dict_set items k v) k v = dict_set items k v.
Proof.
  induction items as [|[k' v'] items IH]; cbn.
  - by rewrite String.eqb_refl.
  - destruct (String.eqb k' k) eqn:E; cbn; rewrite E; [reflexivity|by rewrite IH].
Qed.

(** A place that cannot be reached cannot be changed: the error is the one
    of the subscript that fails. *)
Lemma modify_at_unreachable (path : list string) (f : yaml → result yaml) (e : exn) :
  ∀ doc, get_path path doc = Raise e → modify_at path f doc = Raise e.
Proof.
  induction path as [|k path IH]; intros doc H; cbn in *; [discriminate|].
  destruct (getitem doc k) as [v|e']; [|exact H]. by rewrite (IH v H).
Qed.

(** A change at a place that is reached: the new object is at the place,
    and the keys of the document are the same, in the same order. *)
Lemma modify_at_reached (path : list string) (f : yaml → result yaml) (v v' : yaml) :
  f v = Ok v' →
  ∀ doc, get_path path doc = Ok v →
         ∃ doc', modify_at path f doc = Ok doc'
                 ∧ get_path path doc' = Ok v'
                 ∧ (path ≠ [] → keys doc' = keys doc).
Proof.
  intros Hf. induction path as [|k path IH]; intros doc H; cbn in *.
  - inversion H; subst. exists v'. done.
  - destruct doc as [| | |items]; cbn in *; try discriminate.
    destruct (dict_find items k) as [u|] eqn:Hk; [|discriminate].
    destruct (IH u H) as (u' & Hm & Hg & _). rewrite Hm. cbn.
    eexists. split; [reflexivity|]. cbn. rewrite dict_find_set_eq.
    split; [exact Hg|]. intros _. by erewrite dict_set_keys.
Qed.

(** A change at one place leaves what is at a place on another branch. *)
Lemma modify_at_other_branch (common : list string) (a b : string) (ra rb : list string)
    (f : yaml → result yaml) :
  a ≠ b →
  ∀ doc doc', modify_at (common ++ a :: ra) f doc = Ok doc' →
              get_path (common ++ b :: rb) doc' = get_path (common ++ b :: rb) doc.
Proof.
  intros Hab. induction common as [|k common IH]; intros doc doc' Hm; cbn in *.
  - destruct doc as [| | |items]; cbn in *; try discriminate.
    destruct (dict_find items a) as [u|]; [|discriminate].
    destruct (modify_at ra f u) as [u'|]; [|discriminate].
    cbn in Hm. inversion Hm; subst. cbn. by rewrite dict_find_set_ne.
  - destruct doc as [| | |items]; cbn in *; try discriminate.
    destruct (dict_find items k) as [u|] eqn:Hk; [|discriminate].
    destruct (modify_at (common ++ a :: ra) f u) as [u'|] eqn:Hu; [|discriminate].
    cbn in Hm. inversion Hm; subst. cbn. rewrite dict_find_set_eq. by apply IH.
Qed.

Context (l : Lookup).

#[local] Abbreviation info := (cluster_info (slurm_cluster_name (cfg l)) (hostname l)).
#[local] Abbreviation ref := (YStr "add_cluster_info").

(** The three statements on a document that has the three places. *)
Lemma add_cluster_info_run (file : yaml) (procs : list (string * yaml)) (l1 l2 : list yaml) :
  get_path processors_path file = Ok (YDict procs) →
  get_path (pipeline_path "slurmlog_pipeline") file = Ok (YList l1) →
  get_path (pipeline_path "slurmlog2_pipeline") file = Ok (YList l2) →
  ∃ file', add_cluster_info l file = Ok file'
           ∧ get_path processors_path file'
             = Ok (YDict (dict_set procs "add_cluster_info" info))
           ∧ get_path (pipeline_path "slurmlog_pipeline") file' = Ok (YList (l1 ++ [ref]))
           ∧ get_path (pipeline_path "slurmlog2_pipeline") file' = Ok (YList (l2 ++ [ref]))
           ∧ keys file' = keys file.
Proof.
  intros H1 H2 H3. unfold add_cluster_info.
  destruct (modify_at_reached processors_path (setitem "add_cluster_info" info)
              (YDict procs) _ eq_refl file H1) as (f1 & Hm1 & Hg1 & Hk1).
  rewrite Hm1.
  assert (H21 : get_path (pipeline_path "slurmlog_pipeline") f1 = Ok (YList l1)).
  { rewrite <- H2.
    apply (modify_at_other_branch ["logging"] "processors" "service" []
             ["pipelines"; "slurmlog_pipeline"; "processors"] _ ltac:(discriminate) _ _ Hm1). }
  assert (H31 : get_path (pipeline_path "slurmlog2_pipeline") f1 = Ok (YList l2)).
  { rewrite <- H3.
    apply (modify_at_other_branch ["logging"] "processors" "service" []
             ["pipelines"; "slurmlog2_pipeline"; "processors"] _ ltac:(discriminate) _ _ Hm1). }
  destruct (modify_at_reached (pipeline_path "slurmlog_pipeline") (append ref)
              (YList l1) _ eq_refl f1 H21) as (f2 & Hm2 & Hg2 & Hk2).
  rewrite Hm2.
  assert (H32 : get_path (pipeline_path "slurmlog2_pipeline") f2 = Ok (YList l2)).
  { rewrite <- H31.
    apply (modify_at_other_branch ["logging"; "service"; "pipelines"]
             "slurmlog_pipeline" "slurmlog2_pipeline" ["processors"] ["processors"]
             _ ltac:(discriminate) _ _ Hm2). }
  destruct (modify_at_reached (pipeline_path "slurmlog2_pipeline") (append ref)
              (YList l2) _ eq_refl f2 H32) as (f3 & Hm3 & Hg3 & Hk3).
  exists f3. split; [exact Hm3|]. split; [|split; [|split]].
  - rewrite <- Hg1.
    transitivity (get_path processors_path f2).
    + apply (modify_at_other_branch ["logging"] "service" "processors"
               ["pipelines"; "slurmlog2_pipeline"; "processors"] []
               _ ltac:(discriminate) _ _ Hm3).
    + apply (modify_at_other_branch ["logging"] "service" "processors"
               ["pipelines"; "slurmlog_pipeline"; "processors"] []
               _ ltac:(discriminate) _ _ Hm2).
  - rewrite <- Hg2.
    apply (modify_at_other_branch ["logging"; "service"; "pipelines"]
             "slurmlog2_pipeline" "slurmlog_pipeline" ["processors"] ["processors"]
             _ ltac:(discriminate) _ _ Hm3).
  - exact Hg3.
  - rewrite Hk3, Hk2, Hk1 by discriminate. reflexivity.
Qed.

(** X11. On a document of the agent that has the mapping of the processors
    and the processor lists of the two pipelines of the cluster, the update
    succeeds: the processor of the cluster labels is in the mapping under
    its name, its name is the last entry of both lists, and the keys of the
    document are the same, in the same order. *)
Theorem add_cluster_info_adds (file : yaml) (procs : list (string * yaml))
    (l1 l2 : list yaml) :
  get_path processors_path file = Ok (YDict procs) →
  get_path (pipeline_path "slurmlog_pipeline") file = Ok (YList l1) →
  get_path (pipeline_path "slurmlog2_pipeline") file = Ok (YList l2) →
  ∃ file', add_cluster_info l file = Ok file'
           ∧ get_path (processors_path ++ ["add_cluster_info"]) file' = Ok info
           ∧ get_path (pipeline_path "slurmlog_pipeline") file' = Ok (YList (l1 ++ [ref]))
           ∧ get_path (pipeline_path "slurmlog2_pipeline") file' = Ok (YList (l2 ++ [ref]))
           ∧ keys file' = keys file.
Proof.
  intros H1 H2 H3.
  destruct (add_cluster_info_run file procs l1 l2 H1 H2 H3)
    as (file' & Hrun & Hp & Hl1 & Hl2 & Hk).
  exists file'. split; [exact Hrun|]. split; [|done].
  cbn in Hp |- *. destruct (getitem file' "logging") as [v|]; [|discriminate].
  destruct (getitem v "processors") as [v'|]; [|discriminate].
  inversion Hp; subst. cbn. by rewrite dict_find_set_eq.
Qed.

(** X12. The update is not repeatable: on the document that one update
    leaves, a second update succeeds too and appends the name of the
    processor to both lists once more, so that each list ends with the name
    twice, while the mapping of the processors is as the first update left
    it. *)
Theorem add_cluster_info_accumulates (file : yaml) (procs : list (string * yaml))
    (l1 l2 : list yaml) :
  get_path processors_path file = Ok (YDict procs) →
  get_path (pipeline_path "slurmlog_pipeline") file = Ok (YList l1) →
  get_path (pipeline_path "slurmlog2_pipeline") file = Ok (YList l2) →
  ∃ file' file'',
    add_cluster_info l file = Ok file' ∧ add_cluster_info l file' = Ok file''
    ∧ get_path (pipeline_path "slurmlog_pipeline") file'' = Ok (YList (l1 ++ [ref; ref]))
    ∧ get_path (pipeline_path "slurmlog2_pipeline") file'' = Ok (YList (l2 ++ [ref; ref]))
    ∧ get_path processors_path file'' = get_path processors_path file'.
Proof.
  intros H1 H2 H3.
  destruct (add_cluster_info_run file procs l1 l2 H1 H2 H3)
    as (file' & Hrun & Hp & Hl1 & Hl2 & _).
  destruct (add_cluster_info_run file' _ _ _ Hp Hl1 Hl2)
    as (file'' & Hrun' & Hp' & Hl1' & Hl2' & _).
  exists file', file''. rewrite <- !app_assoc in Hl1', Hl2'.
  rewrite dict_set_twice in Hp'. rewrite Hp, Hp'. done.
Qed.

(** X13. The update raises the error of the first of its three places that
    cannot be reached, a missing key or a scalar where a mapping should be:
    no document is returned then. *)
Theorem add_cluster_info_unreachable (file : yaml) (e : exn) :
  (get_path processors_path file = Raise e → add_cluster_info l file = Raise e)
  ∧ (∀ procs, get_path processors_path file = Ok (YDict procs) →
              get_path (pipeline_path "slurmlog_pipeline") file = Raise e →
              add_cluster_info l file = Raise e)
  ∧ (∀ procs l1, get_path processors_path file = Ok (YDict procs) →
                 get_path (pipeline_path "slurmlog_pipeline") file = Ok (YList l1) →
                 get_path (pipeline_path "slurmlog2_pipeline") file = Raise e →
                 add_cluster_info l file = Raise e).
Proof.
  unfold add_cluster_info. split; [|split].
  - intros H. by rewrite (modify_at_unreachable _ _ _ _ H).
  - intros procs H1 H2.
    destruct (modify_at_reached processors_path (setitem "add_cluster_info" info)
                (YDict procs) _ eq_refl file H1) as (f1 & Hm1 & _).
    rewrite Hm1.
    rewrite (modify_at_unreachable (pipeline_path "slurmlog_pipeline") (append ref) e f1);
      [reflexivity|].
    rewrite <- H2.
    apply (modify_at_other_branch ["logging"] "processors" "service" []
             ["pipelines"; "slurmlog_pipeline"; "processors"] _ ltac:(discriminate) _ _ Hm1).
  - intros procs l1 H1 H2 H3.
    destruct (modify_at_reached processors_path (setitem "add_cluster_info" info)
                (YDict procs) _ eq_refl file H1) as (f1 & Hm1 & _).
    rewrite Hm1.
    assert (H21 : get_path (pipeline_path "slurmlog_pipeline") f1 = Ok (YList l1)).
    { rewrite <- H2.
      apply (modify_at_other_branch ["logging"] "processors" "service" []
               ["pipelines"; "slurmlog_pipeline"; "processors"] _ ltac:(discriminate) _ _ Hm1). }
    destruct (modify_at_reached (pipeline_path "slurmlog_pipeline") (append ref)
                (YList l1) _ eq_refl f1 H21) as (f2 & Hm2 & _).
    rewrite Hm2. apply modify_at_unreachable. rewrite <- H3.
    transitivity (get_path (pipeline_path "slurmlog2_pipeline") f1).
    + apply (modify_at_other_branch ["logging"; "service"; "pipelines"]
               "slurmlog_pipeline" "slurmlog2_pipeline" ["processors"] ["processors"]
               _ ltac:(discriminate) _ _ Hm2).
    + apply (modify_at_other_branch ["logging"] "processors" "service" []
               ["pipelines"; "slurmlog2_pipeline"; "processors"] _ ltac:(discriminate) _ _ Hm1).
Qed.

End AgentDocument.

(** The document of the sample agent. *)
Lemma add_cluster_info_adds_witness :
  ∃ file', add_cluster_info (Sample.host "controller") Sample2.agent_doc = Ok file'
           ∧ get_path (pipeline_path "slurmlog_pipeline") file'
             = Ok (YList [YStr "parse"; YStr "add_cluster_info"])
           ∧ keys file' = ["logging"; "metrics"].
Proof.
  destruct (add_cluster_info_adds (Sample.host "controller") Sample2.agent_doc
              _ _ _ eq_refl eq_refl eq_refl) as (file' & Hrun & _ & H1 & _ & Hk).
  exists file'. done.
Defined.

Lemma add_cluster_info_accumulates_witness :
  ∃ file' file'',
    add_cluster_info (Sample.host "controller") Sample2.agent_doc = Ok file'
    ∧ add_cluster_info (Sample.host "controller") file' = Ok file''
    ∧ get_path (pipeline_path "slurmlog2_pipeline") file''
      = Ok (YList [YStr "add_cluster_info"; YStr "add_cluster_info"]).
Proof.
  destruct (add_cluster_info_accumulates (Sample.host "controller") Sample2.agent_doc
              _ _ _ eq_refl eq_refl eq_refl) as (file' & file'' & H1 & H2 & _ & H3 & _).
  exists file', file''. done.
Defined.

(** A document without the section of the logs, and an empty document. *)
Lemma add_cluster_info_unreachable_witness :
  add_cluster_info (Sample.host "controller") (YDict [("metrics", YNull)])
  = Raise (KeyError "logging")
  ∧ add_cluster_info (Sample.host "controller") YNull = Raise (Exception "TypeError").
Proof.
  split.
  - destruct (add_cluster_info_unreachable (Sample.host "controller")
                (YDict [("metrics", YNull)]) (KeyError "logging")) as (H & _).
    exact (H eq_refl).
  - destruct (add_cluster_info_unreachable (Sample.host "controller")
                YNull (Exception "TypeError")) as (H & _).
    exact (H eq_refl).
Defined.

(** ** More on acquiring the configuration *)

Section AcquireMore.

Context (env : Env).

(** X14. On a store that raises at every attempt the acquirer neither
    returns nor raises, however many turns of the loop it is given: there
    is no bound on the retries. *)
Theorem get_config_never_gives_up (bucket : option string) :
  (∀ n, ∃ e, fetch_config env n bucket = Raise e) →
  ∀ fuel w, get_config env fuel bucket w = None.
Proof.
  intros Hnever fuel.
  assert (Hloop : ∀ w, get_config_loop env fuel bucket 5 w = None).
  { induction fuel as [|fuel IH]; intros w; [reflexivity|].
    destruct (Hnever (fetches w)) as (e & He).
    cbn [get_config_loop]. unfold get_config_try at 1, fetch at 1, bind at 1. rewrite He.
    unfold bind. rewrite get_config_except_record. cbn [sleep modify]. apply IH. }
  intros w. unfold get_config, bindP. by rewrite Hloop.
Qed.

(** X15. When the acquirer returns, the node is marked as a hybrid setup
    exactly when a bucket was given; without a bucket the mark is as it
    was. *)
Theorem get_config_marks_hybrid (bucket : option string) (es : list exn) (c : Cfg)
    (fuel : nat) (w : World) :
  (∀ i e, es !! i = Some e → fetch_config env (fetches w + i)%nat bucket = Raise e) →
  fetch_config env (fetches w + length es)%nat bucket = Ok c →
  (length es < fuel)%nat →
  ∃ w', get_config env fuel bucket w = Some (Ok tt, w')
        ∧ hybrid_setup (lkp w')
          = (if bucket is Some _ then true else hybrid_setup (lkp w)).
Proof.
  intros Hes Hc Hfuel.
  destruct (get_config_loop_retries env bucket es c fuel w Hes Hc Hfuel)
    as (w1 & Hrun & _ & _ & _ & _ & Hhy & _).
  unfold get_config, bindP. rewrite Hrun. unfold lift.
  eexists. split; [reflexivity|]. exact Hhy.
Qed.

End AcquireMore.

Lemma get_config_never_gives_up_witness :
  get_config (Sample.env_of Sample.all_done Sample2.never_ready Sample.no_metadata)
             50 None (Sample.world0 "compute") = None.
Proof.
  apply (get_config_never_gives_up
           (Sample.env_of Sample.all_done Sample2.never_ready Sample.no_metadata) None).
  intros n. eexists. reflexivity.
Defined.

Lemma get_config_marks_hybrid_witness :
  ∃ w', get_config Sample.env0 1 (Some "gs://bucket") (Sample.world0 "compute")
        = Some (Ok tt, w')
        ∧ hybrid_setup (lkp w') = true.
Proof.
  destruct (get_config_marks_hybrid Sample.env0 (Some "gs://bucket") [] Sample.cfg0 1
              (Sample.world0 "compute")) as (w' & Hrun & Hh).
  - intros i e H. destruct i; discriminate H.
  - reflexivity.
  - cbn. lia.
  - exists w'. done.
Defined.

(** ** More on the migration of the identity *)

Section MigrationMore.

Context (env : Env).

#[local] Ltac xstep := cbv beta iota; cbn [negb andb fst snd]; cbv beta iota.

(** A command that exits with a non-zero status, run without [check]:
    whether that raises is the default of the runner. *)
Lemma run_default_fails (cmd : string) (t : option Z) (sh : bool)
    (r : CompletedProcess) (w : World) :
  exec env (calls w) (mkCall cmd t (check_default env) sh) = Exited r →
  returncode r ≠ 0 →
  run env cmd t (check_default env) sh w
  = (if check_default env
     then Raise (CalledProcessError (returncode r) cmd (stdout r) (stderr r))
     else Ok r,
     set_calls (fun h => h ++ [mkCall cmd t (check_default env) sh]) w).
Proof.
  intros Hx Hr. unfold run. rewrite Hx, (proj2 (Z.eqb_neq _ _) Hr).
  destruct (check_default env); reflexivity.
Qed.

(** X16. Without a group of the identity the migration raises before any
    command.  When a rename that it asks for exits with a non-zero status,
    the rename of the group or, after that of the group has succeeded or
    was not needed, the rename of the user, the migration stops there: the
    commands run are the renames up to the failed one, no ownership is
    changed, and the rename of the user is not tried after a failed rename
    of the group.  Whether it stops by raising the error of the command or
    by logging the failure and returning is decided by the runner of the
    commands: it raises when a command run without [check] is checked, and
    it logs and returns when it is not. *)
Theorem change_uid_gid_slurm_stops (w : World) :
  let gid := hybrid_conf_slurm_gid (cfg (lkp w)) in
  let uid := hybrid_conf_slurm_uid (cfg (lkp w)) in
  let stopped (c : Call) (what : string) (r : CompletedProcess) (w1 : World) :=
    if check_default env
    then (Raise (CalledProcessError (returncode r) (c_cmd c) (stdout r) (stderr r)), w1)
    else (Ok tt, set_log (fun l => l ++ [rename_error what r]) w1) in
  (group_slurm w = None → change_uid_gid_slurm env w = (Raise (KeyError "slurm"), w))
  ∧ (∀ cur_gid r,
       group_slurm w = Some cur_gid → cur_gid ≠ gid →
       exec env (calls w) (groupmod_call env gid) = Exited r → returncode r ≠ 0 →
       change_uid_gid_slurm env w
       = stopped (groupmod_call env gid) "gid" r
           (set_calls (fun h => h ++ [groupmod_call env gid]) w))
  ∧ (∀ cur_gid cur_uid r,
       let renamed := if cur_gid =? gid then [] else [groupmod_call env gid] in
       group_slurm w = Some cur_gid → passwd_slurm w = Some cur_uid → cur_uid ≠ uid →
       calls_ok env (calls w) renamed →
       exec env (calls w ++ renamed) (usermod_call env uid) = Exited r →
       returncode r ≠ 0 →
       change_uid_gid_slurm env w
       = stopped (usermod_call env uid) "uid" r
           (set_calls (fun h => h ++ renamed ++ [usermod_call env uid]) w)).
Proof.
  intros gid uid stopped. split; [|split].
  - intros Hg. unfold change_uid_gid_slurm, bind, getgrnam_slurm. rewrite Hg. reflexivity.
  - intros cur_gid r Hg Hne Hx Hr.
    assert (Hgr : getgrnam_slurm w = (Ok cur_gid, w))
      by (unfold getgrnam_slurm; by rewrite Hg).
    unfold change_uid_gid_slurm. rewrite (bind_ok _ _ _ _ _ Hgr). cbv beta.
    unfold bind at 1, lookup at 1. cbv beta iota zeta. fold gid.
    rewrite (proj2 (Z.eqb_neq _ _) Hne). cbn [negb]. cbv iota.
    unfold groupmod_call in *. unfold bind at 1 2.
    rewrite (run_default_fails _ None false r w Hx Hr).
    subst stopped. cbv beta. unfold rename_error. cbn [c_cmd].
    destruct (check_default env); [reflexivity|].
    rewrite (proj2 (Z.eqb_neq _ _) Hr). reflexivity.
  - intros cur_gid cur_uid r renamed Hg Hpw Hne Hok Hx Hr.
    unfold change_uid_gid_slurm, bind, getgrnam_slurm, getpwnam_slurm, lookup.
    rewrite Hg. fold gid uid. subst renamed.
    unfold groupmod_call, usermod_call in *.
    destruct (cur_gid =? gid) eqn:Eg; cbn [negb app] in *; cbv beta iota.
    + unfold ret at 1. xstep. rewrite Hpw. xstep. fold uid.
      rewrite (proj2 (Z.eqb_neq _ _) Hne). xstep.
      rewrite app_nil_r in Hx.
      rewrite (run_default_fails _ None false r w Hx Hr).
      subst stopped. cbv beta. unfold rename_error. cbn [c_cmd].
      destruct (check_default env); [reflexivity|].
      rewrite (proj2 (Z.eqb_neq _ _) Hr). reflexivity.
    + destruct Hok as [(r0 & Hx0 & Hr0) _].
      rewrite (run_answer env _ _ _ _ r0 w Hx0 (fun _ => Hr0)), Hr0.
      change (0 =? 0) with true. xstep. unfold ret at 1. xstep.
      set (w1 := set_calls _ w) in *.
      change (passwd_slurm w1) with (passwd_slurm w). rewrite Hpw.
      change (lkp w1) with (lkp w). xstep. fold uid.
      rewrite (proj2 (Z.eqb_neq _ _) Hne). xstep.
      change (calls w ++ [mkCall ("groupmod -g " +:+ pretty gid +:+ " slurm") None
                                 (check_default env) false])
        with (calls w1) in Hx.
      rewrite (run_default_fails _ None false r w1 Hx Hr).
      subst stopped. cbv beta. unfold rename_error. cbn [c_cmd].
      destruct (check_default env).
      * subst w1. rewrite set_calls_snoc. reflexivity.
      * rewrite (proj2 (Z.eqb_neq _ _) Hr). cbv beta iota. cbn [negb].
        subst w1. unfold log_at, modify, bind, ret. rewrite set_calls_snoc. reflexivity.
Qed.

(** X17. The remap stops at the first entry that cannot be examined, for
    one a link whose target is missing, and raises the error of its
    examination: what the entries handed to it before that one stand for
    keeps its new owners, there is no roll back, and nothing else is
    touched. *)
Theorem recursive_chown_stops (path : string) (uid gid previous_uid previous_gid : Z)
    (pre post : list string) (p : string) (e : exn) (w : World) :
  is_id uid → is_id gid →
  chown_paths env path = pre ++ p :: post →
  (∀ q, q ∈ pre → examinable w q) →
  stat p w = (Raise e, w) →
  ∃ o', recursive_chown env path uid gid previous_uid previous_gid w
        = (Raise e, with_owner o' w)
        ∧ ∀ q, o' !! q = if decide (q ∈ targets w pre)
                         then remap uid gid previous_uid previous_gid <$> owner w !! q
                         else owner w !! q.
Proof.
  intros Hu Hg Hpaths Hpre Hp.
  destruct (chown_all uid gid previous_uid previous_gid pre Hu Hg w Hpre)
    as (o' & Hrun & Ho').
  exists o'. split; [|exact Ho'].
  rewrite recursive_chown_flat, Hpaths, for_each_app. unfold bind at 1. rewrite Hrun.
  cbn [for_each]. apply bind_raise. unfold _my_chown. apply bind_raise.
  unfold stat in *. rewrite (follow_ext 40 (with_owner o' w) w p eq_refl).
  destruct (follow 40 w p) as [q|]; [|by inversion Hp].
  cbn [owner with_owner set_owner]. rewrite Ho'.
  destruct (owner w !! q) as [st|]; [discriminate|].
  inversion Hp; subst. by destruct (decide (q ∈ targets w pre)).
Qed.

(** X26. An id that [os.chown] does not take stops the remap at the root
    of the subtree.  With a uid below -1 or above 2^32 - 1 and no guard on
    the uid, the remap of a root that can be examined raises
    [OverflowError] for the uid and changes nothing; with a uid that is
    taken, the same holds of such a gid without a guard on the gid. *)
Theorem recursive_chown_rejects_ids (path : string) (uid gid previous_uid previous_gid : Z)
    (w : World) :
  examinable w path →
  (uid < -1 ∨ 4294967295 < uid → previous_uid = -1 →
   recursive_chown env path uid gid previous_uid previous_gid w
   = (Raise (OverflowError "uid"), w))
  ∧ (-1 ≤ uid ≤ 4294967295 → gid < -1 ∨ 4294967295 < gid → previous_gid = -1 →
     recursive_chown env path uid gid previous_uid previous_gid w
     = (Raise (OverflowError "gid"), w)).
Proof.
  intros (q & Hq & [[u g] Hst]).
  assert (Hout : ∀ id, id < -1 ∨ 4294967295 < id →
                       id_in_range id = false ∧ (id =? -1) = false).
  { intros id Hid. unfold id_in_range. split.
    - apply andb_false_iff. destruct Hid; [left|right]; apply Z.leb_gt; lia.
    - apply Z.eqb_neq. lia. }
  split.
  - intros Hu ->. destruct (Hout uid Hu) as [Ru Nu].
    unfold recursive_chown. apply bind_raise. unfold _my_chown.
    rewrite (bind_ok _ _ _ _ _ (stat_ok path q (u, g) w Hq Hst)). cbv beta.
    cbn [fst snd orb]. change (-1 =? -1) with true. cbn [orb]. rewrite Nu. cbn [negb orb].
    unfold os_chown. rewrite Ru. reflexivity.
  - intros Hu Hg ->. destruct (Hout gid Hg) as [Rg Ng].
    assert (Ru : id_in_range uid = true)
      by (unfold id_in_range; apply andb_true_iff; split; apply Z.leb_le; lia).
    unfold recursive_chown. apply bind_raise. unfold _my_chown.
    rewrite (bind_ok _ _ _ _ _ (stat_ok path q (u, g) w Hq Hst)). cbv beta.
    cbn [fst snd]. change (-1 =? -1) with true. cbn [orb]. rewrite Ng.
    rewrite orb_true_r. unfold os_chown.
    destruct ((previous_uid =? -1) || (u =? previous_uid)).
    + rewrite Ru, Rg. reflexivity.
    + change (id_in_range (-1)) with true. rewrite Rg. reflexivity.
Qed.

End MigrationMore.

(** A host whose [groupmod] exits with status 4: with a runner that checks
    the commands the migration raises after that command, and with a
    runner that does not it logs the failure and returns after it; no
    ownership is changed, and [usermod] is not run. *)
Lemma change_uid_gid_slurm_stops_witness :
  (∃ e, change_uid_gid_slurm Sample2.env_no_groupmod Sample.world_home
        = (Raise e, set_calls (fun h => h ++ [groupmod_call Sample2.env_no_groupmod 1001])
                              Sample.world_home))
  ∧ (let env := Sample2.with_check_default false Sample2.env_no_groupmod in
     ∃ w', change_uid_gid_slurm env Sample.world_home = (Ok tt, w')
           ∧ map c_cmd (calls w') = ["groupmod -g 1001 slurm"]
           ∧ map fst (log w') = [ERROR]
           ∧ owner w' = owner Sample.world_home).
Proof.
  split.
  - destruct (change_uid_gid_slurm_stops Sample2.env_no_groupmod Sample.world_home)
      as (_ & H & _).
    eexists.
    apply (H 981 (mkCompleted 4 EmptyString "groupmod: GID '1001' already exists"));
      [reflexivity|discriminate|reflexivity|discriminate].
  - intros env.
    destruct (change_uid_gid_slurm_stops env Sample.world_home) as (_ & H & _).
    eexists. split.
    + apply (H 981 (mkCompleted 4 EmptyString "groupmod: GID '1001' already exists"));
        [reflexivity|discriminate|reflexivity|discriminate].
    + repeat split; reflexivity.
Defined.

(** The remap of the sample home to the uid 2^32. *)
Lemma recursive_chown_rejects_ids_witness :
  recursive_chown Sample.env0 "/var/lib/slurm" 4294967296 99 (-1) (-1) Sample.world_10_20_30
  = (Raise (OverflowError "uid"), Sample.world_10_20_30).
Proof.
  destruct (recursive_chown_rejects_ids Sample.env0 "/var/lib/slurm" 4294967296 99 (-1) (-1)
              Sample.world_10_20_30) as [H _].
  - exists "/var/lib/slurm". split; [reflexivity|eexists; reflexivity].
  - apply H; [lia|reflexivity].
Defined.

(** The home of the sample host where [.bashrc] is a link whose target is
    gone.  The remap without a guard re-owns the root and the directory of
    the jobs, which it is handed first; then it raises on the link, and the
    file of the jobs is as it was. *)
Lemma recursive_chown_stops_witness :
  let w := set_owner (delete "/etc/skel/.bashrc") Sample2.world_linked in
  ∃ w', recursive_chown Sample.env0 "/var/lib/slurm" 99 99 (-1) (-1) w
        = (Raise (FileNotFoundError "/var/lib/slurm/.bashrc"), w')
        ∧ owner w' !! "/var/lib/slurm" = Some (99, 99)
        ∧ owner w' !! "/var/lib/slurm/jobs" = Some (99, 99)
        ∧ owner w' !! "/var/lib/slurm/jobs/alice.out" = Some (30, 30).
Proof.
  intros w.
  destruct (recursive_chown_stops Sample.env0 "/var/lib/slurm" 99 99 (-1) (-1)
              ["/var/lib/slurm"; "/var/lib/slurm/jobs"] ["/var/lib/slurm/jobs/alice.out"]
              "/var/lib/slurm/.bashrc" (FileNotFoundError "/var/lib/slurm/.bashrc") w)
    as (o' & Hrun & Ho').
  - unfold is_id. lia.
  - unfold is_id. lia.
  - reflexivity.
  - intros q Hq.
    repeat (apply elem_of_cons in Hq as [->|Hq]);
      try (eexists; split; [vm_compute; reflexivity|eexists; reflexivity]).
    by apply elem_of_nil in Hq.
  - reflexivity.
  - eexists. split; [exact Hrun|]. cbn [owner with_owner set_owner]. rewrite !Ho'.
    repeat split; vm_compute; reflexivity.
Defined.

(** ** More on the mount table *)

Section MountMore.

Context (env : Env).

(** What the test and the append do to a host, with and without a mount
    table. *)
Lemma ensure_fstab_run (fstab_entry options : string) (w : World) :
  (files w !! "/etc/fstab" = None →
   ensure_fstab fstab_entry options w = (Raise (FileNotFoundError "/etc/fstab"), w))
  ∧ (∀ content, files w !! "/etc/fstab" = Some content →
       ∃ w', ensure_fstab fstab_entry options w = (Ok tt, w')
             ∧ files w' = <["/etc/fstab" := fstab_after fstab_entry options content]> (files w)
             ∧ calls w' = calls w ∧ links w' = links w ∧ folders w' = folders w
             ∧ lkp w' = lkp w).
Proof.
  split.
  - intros Hf. unfold ensure_fstab, bind, read_lines. rewrite Hf. reflexivity.
  - intros content Hf. unfold ensure_fstab, bind, read_lines, fstab_after. rewrite Hf.
    cbv beta iota. destruct (Py.list_in fstab_entry (Py.readlines content)); cbn [negb when].
    + exists w. unfold ret. rewrite insert_id by exact Hf. done.
    + unfold append_text, modify, set_files. cbv beta iota. rewrite Hf.
      eexists. split; [reflexivity|]. done.
Qed.

(** X18. The test and the append never rewrite the mount table: without a
    table the function raises and writes nothing; with a table, what it
    leaves is the old text, followed by the line of the entry when no line
    of the table is exactly the entry.  No other file and no command is
    involved. *)
Theorem ensure_fstab_append_only (fstab_entry options : string) (w : World) :
  (files w !! "/etc/fstab" = None →
   ensure_fstab fstab_entry options w = (Raise (FileNotFoundError "/etc/fstab"), w))
  ∧ (∀ content, files w !! "/etc/fstab" = Some content →
       ∃ w', ensure_fstab fstab_entry options w = (Ok tt, w')
             ∧ files w' = <["/etc/fstab" := fstab_after fstab_entry options content]> (files w)
             ∧ calls w' = calls w ∧ links w' = links w ∧ folders w' = folders w
             ∧ lkp w' = lkp w).
Proof. exact (ensure_fstab_run fstab_entry options w). Qed.


End MountMore.

(** ** More on the symbolic links *)

Section SymlinksMore.

(** X20. What is at the path of the link and is not a link, a regular file
    or a directory, is never removed: the reconciliation raises and leaves
    the host as it was. *)
Theorem reconcile_symlink_keeps_files (sl tgt : string) (w : World) :
  is_symlink w sl = false → lexists w sl = true →
  reconcile_symlink sl tgt w = (Raise (FileExistsError sl), w).
Proof.
  intros Hsym Hex. unfold reconcile_symlink, bind, get.
  rewrite Hsym, andb_false_r. cbn [when]. unfold ret, symlink_to. rewrite Hex.
  reflexivity.
Qed.


End SymlinksMore.

Lemma ensure_fstab_append_only_witness :
  (ensure_fstab "/var/spool/slurm/munge /etc/munge" " none bind 0 0" (Sample.world0 "controller")).1
  = Raise (FileNotFoundError "/etc/fstab")
  ∧ ∃ w', ensure_fstab "UUID=6e3f / ext4 defaults 0 1" " defaults 0 0" Sample.world_fstab
          = (Ok tt, w')
          ∧ files w' !! "/etc/fstab"
            = Some (Sample.fstab0 +:+ "UUID=6e3f / ext4 defaults 0 1 defaults 0 0").
Proof.
  split.
  - destruct (ensure_fstab_append_only "/var/spool/slurm/munge /etc/munge" " none bind 0 0"
                (Sample.world0 "controller")) as [H _].
    rewrite (H eq_refl). reflexivity.
  - destruct (ensure_fstab_append_only "UUID=6e3f / ext4 defaults 0 1" " defaults 0 0"
                Sample.world_fstab) as [_ H].
    destruct (H Sample.fstab0 eq_refl) as (w' & Hrun & Hf & _).
    exists w'. split; [exact Hrun|]. rewrite Hf, lookup_insert_eq. reflexivity.
Defined.


Lemma reconcile_symlink_keeps_files_witness :
  reconcile_symlink "/etc/slurm" "/usr/local/etc/slurm" Sample2.world_etc_file
  = (Raise (FileExistsError "/etc/slurm"), Sample2.world_etc_file).
Proof.
  apply reconcile_symlink_keeps_files; reflexivity.
Defined.


(** ** The end of a failed run *)

Section Failure.

Context (env : Env).

(** What the three handlers have in common: they log, the last record being
    the one of the abort, and signal the failure. *)
Lemma top_except_run (e : exn) (w1 : World) :
  ∃ w2, top_except env e w1 = failed_motd env w2
        ∧ files w2 = files w1 ∧ links w2 = links w1 ∧ folders w2 = folders w1
        ∧ calls w2 = calls w1 ∧ lkp w2 = lkp w1
        ∧ last (log w2) = Some (ERROR, "Aborting setup...").
Proof.
  destruct e; eexists; (split; [reflexivity|]);
    cbn [files links folders calls lkp log set_log]; rewrite last_snoc; done.
Qed.

(** X22. Whatever exception the run raises, the script catches it and logs
    that the setup is aborted.  In a hybrid setup it then returns without
    raising and without touching a file or running a command.  Otherwise
    the banner of the failure is written and its broadcast is tried: where
    the banner file can be written, what the script leaves has that
    banner, also when the broadcast itself fails; where it cannot be
    written, the error of the write leaves the script, and no file is
    written and no command run. *)
Theorem script_failure_signalled (fuel : nat) (hybrid_arg : bool) (bucket : option string)
    (w w1 : World) (e : exn) :
  (if hybrid_arg then setup_hybrid env fuel bucket else main env fuel) w
  = Some (Raise e, w1) →
  (is_hybrid_setup (lkp w1) = true →
   ∃ w', script env fuel hybrid_arg bucket w = Some (Ok tt, w')
         ∧ files w' = files w1 ∧ calls w' = calls w1
         ∧ last (log w') = Some (ERROR, "Aborting setup..."))
  ∧ (is_hybrid_setup (lkp w1) = false →
     ∀ q, open_w w1 "/etc/motd" = Ok q →
          ∃ r w', script env fuel hybrid_arg bucket w = Some (r, w')
                  ∧ files w' = <[q := failed_motd_text env]> (files w1)
                  ∧ calls w'
                    = calls w1 ++ [call30 env ("wall -n '" +:+ failed_wall_msg env +:+ "'")])
  ∧ (is_hybrid_setup (lkp w1) = false →
     ∀ e', open_w w1 "/etc/motd" = Raise e' →
           ∃ w', script env fuel hybrid_arg bucket w = Some (Raise e', w')
                 ∧ files w' = files w1 ∧ calls w' = calls w1
                 ∧ last (log w') = Some (ERROR, "Aborting setup...")).
Proof.
  intros Hrun.
  destruct (top_except_run e w1) as (w2 & Htop & Hf & Hk & Hd & Hc & Hl & Hlast).
  unfold script. rewrite Hrun, Htop.
  destruct (failed_motd_run env w2) as (Hhy & Hno & Hbad). rewrite Hl in Hhy, Hno, Hbad.
  rewrite (open_w_ext w2 w1 "/etc/motd" Hk Hd Hf) in Hno, Hbad.
  split; [|split]; intros Hh.
  - rewrite (Hhy Hh). exists w2. done.
  - intros q Hq. specialize (Hno Hh q Hq).
    destruct (failed_motd env w2) as [r w'] eqn:Hfm. cbn in Hno. subst w'.
    eexists _, _. split; [reflexivity|]. cbn. rewrite Hf, Hc. done.
  - intros e' He'. rewrite (Hbad Hh e' He'). exists w2. done.
Qed.

(** X23. The setup of the name service tolerates a failure of the link
    command: when the directory can be made and the edit of the switch file
    succeeds, it returns whatever status [ln] exits with. *)
Theorem setup_nss_slurm_tolerates_ln (w w1 : World) (r r' : CompletedProcess) :
  let ln := mkCall ("ln -s " +:+ slurmdirs_prefix env
                    +:+ "/lib/libnss_slurm.so.2 /usr/lib64/libnss_slurm.so.2")
                   None false false in
  let sed := call_ env "sed -i 's/\(^\(passwd\|group\):\s\+\)/\1slurm /g' /etc/nsswitch.conf" in
  mkdirp env "/var/spool/slurmd" w = (Ok tt, w1) →
  exec env (calls w1) ln = Exited r →
  exec env (calls w1 ++ [ln]) sed = Exited r' → returncode r' = 0 →
  setup_nss_slurm env w = (Ok tt, set_calls (fun h => h ++ [ln; sed]) w1).
Proof.
  intros ln sed Hmk Hx Hx' Hr'. unfold setup_nss_slurm.
  rewrite (bind_ok _ _ _ _ _ Hmk). cbv beta.
  rewrite (bind_ok _ _ _ _ _ (run_answer env _ None false false r w1 Hx ltac:(discriminate))).
  cbv beta. set (w2 := set_calls _ w1).
  refine (eq_trans (run__answer env _ r' w2 Hx' (fun _ => Hr')) _).
  subst w2. rewrite set_calls_snoc. reflexivity.
Qed.

End Failure.

(** On a host where no command can be started the run raises at its first
    broadcast; the script catches the error, and the banner of the failure
    is what it leaves, although the broadcast of the failure raises too. *)
Lemma script_failure_signalled_witness :
  ∃ r w', script Sample2.env_broken 1 false None (Sample.world_boot "compute")
          = Some (r, w')
          ∧ files w' !! "/etc/motd" = Some (failed_motd_text Sample2.env_broken).
Proof.
  destruct (main Sample2.env_broken 1 (Sample.world_boot "compute"))
    as [[[[]|e] w1]|] eqn:Hmain; try (vm_compute in Hmain; discriminate Hmain).
  assert (Hl : is_hybrid_setup (lkp w1) = false ∧ open_w w1 "/etc/motd" = Ok "/etc/motd")
    by (vm_compute in Hmain; inversion Hmain; split; vm_compute; reflexivity).
  destruct Hl as [Hl Hq].
  destruct (script_failure_signalled Sample2.env_broken 1 false None
              (Sample.world_boot "compute") w1 e Hmain) as (_ & H & _).
  destruct (H Hl _ Hq) as (r & w' & Hrun & Hf & _).
  exists r, w'. split; [exact Hrun|]. rewrite Hf. apply lookup_insert_eq.
Defined.

Lemma setup_nss_slurm_tolerates_ln_witness :
  (setup_nss_slurm Sample2.env_ln_fails (Sample.world0 "compute")).1 = Ok tt.
Proof.
  rewrite (setup_nss_slurm_tolerates_ln Sample2.env_ln_fails (Sample.world0 "compute") _
             (mkCompleted 1 EmptyString "ln: failed to create symbolic link: File exists")
             (mkCompleted 0 EmptyString EmptyString) eq_refl eq_refl eq_refl eq_refl).
  reflexivity.
Defined.

(** ** Every entry once *)

Section Once.

Context (env : Env).

Lemma listing_perm (top : string) (entries : list tree) :
  map (Py.joinpath top) (dirnames entries) ++ map (Py.joinpath top) (filenames entries)
  ≡ₚ map (fun t => Py.joinpath top (tname t)) entries.
Proof.
  induction entries as [|t entries IH]; [reflexivity|].
  destruct t as [n|n children]; cbn [map tname].
  - change (dirnames (File n :: entries)) with (dirnames entries).
    change (filenames (File n :: entries)) with (n :: filenames entries).
    cbn [map]. rewrite <- Permutation_middle. by apply perm_skip.
  - change (dirnames (Dir n children :: entries)) with (n :: dirnames entries).
    change (filenames (Dir n children :: entries)) with (filenames entries).
    cbn [map app]. by apply perm_skip.
Qed.

Lemma below_list_perm (here : string) (children : list tree) :
  Forall (fun t => ∀ top, below top t
                          ≡ₚ Py.joinpath top (tname t) :: flat_map triple_paths (walk top t))
         children →
  flat_map (below here) children
  ≡ₚ (map (Py.joinpath here) (dirnames children)
      ++ map (Py.joinpath here) (filenames children))
     ++ flat_map triple_paths (flat_map (walk here) children).
Proof.
  intros IH. rewrite listing_perm.
  induction IH as [|c children Hc _ IHl]; [reflexivity|].
  cbn [flat_map map]. rewrite flat_map_app, (Hc here), IHl. cbn [app].
  apply perm_skip. apply Permutation_app_swap_app.
Qed.

Lemma below_perm (t : tree) :
  ∀ top, below top t ≡ₚ Py.joinpath top (tname t) :: flat_map triple_paths (walk top t).
Proof.
  induction t as [n|n children IH] using tree_nested_ind; intros top; [reflexivity|].
  cbn [below walk tname flat_map triple_paths]. apply perm_skip.
  by apply below_list_perm.
Qed.

(** X24. The remap hands the root of the subtree and every descendant to
    the change of owner exactly once: the paths it works through, one call
    for each in order, are a rearrangement of the root and its descendants
    (in every directory the subdirectories come before the files). *)
Theorem recursive_chown_visits_once (path : string) :
  chown_paths env path ≡ₚ subtree env path
  ∧ ∀ uid gid previous_uid previous_gid w,
      recursive_chown env path uid gid previous_uid previous_gid w
      = for_each (chown_paths env path)
                 (fun p => _my_chown p uid gid previous_uid previous_gid) w.
Proof.
  split.
  - unfold chown_paths, subtree, os_walk. cbn [flat_map triple_paths].
    apply perm_skip. symmetry. apply below_list_perm.
    apply Forall_forall. intros t _. apply below_perm.
  - intros. apply recursive_chown_flat.
Qed.

End Once.

(** ** The bind mount of the munge key *)

Section MungeMount.

Context (env : Env).


End MungeMount.

